(** * CleanupPreviousUpdateAction: the post-install snapshot-merge state machine

    A shallow embedding of [aosp/cleanup_previous_update_action.cc].  The
    action is a single-threaded, timer-driven state machine; every effect it
    has is a call on one of its collaborators (snapshot service, boot
    control, preferences, message loop, stats recorder, action processor).
    The embedding threads a [World] through a small state monad: the
    instance's fields, the stats recorder, the answers the collaborators
    will give, and the trace of calls made so far. *)

From Stdlib Require Import ZArith List Bool String Lia.
From Stdlib Require Import Floats.PrimFloat Floats.SpecFloat Floats.FloatOps Floats.FloatAxioms.
Import ListNotations.
Open Scope string_scope.
Open Scope list_scope.
Open Scope Z_scope.
#[local] Set Warnings "-inexact-float".

(** ** Data *)

(** [ErrorCode]: the three codes this action reports. *)
Inductive ErrorCode := kSuccess | kError | kDeviceCorrupted.

(** [android::snapshot::UpdateState].  The service reports a raw protobuf
    enum value; protobuf keeps reserved values, so the raw value is an
    integer and [UpdateState_of_raw] recognises the eight members. *)
Inductive UpdateState :=
| None_ | Initiated | Unverified | Merging
| MergeNeedsReboot | MergeCompleted | MergeFailed | Cancelled.

(** Modelled from the spec: the numbering of the enumeration, whose
    declaration (snapshot.proto) is not part of this file; the members are
    numbered in the order the spec lists them. *)
Definition UpdateState_raw (s : UpdateState) : Z :=
  match s with
  | None_ => 0 | Initiated => 1 | Unverified => 2 | Merging => 3
  | MergeNeedsReboot => 4 | MergeCompleted => 5 | MergeFailed => 6
  | Cancelled => 7
  end.

Definition UpdateState_of_raw (v : Z) : option UpdateState :=
  match v with
  | 0 => Some None_ | 1 => Some Initiated | 2 => Some Unverified
  | 3 => Some Merging | 4 => Some MergeNeedsReboot
  | 5 => Some MergeCompleted | 6 => Some MergeFailed | 7 => Some Cancelled
  | _ => None
  end.

(** [android::snapshot::MergeFailureCode], raw; [Ok] is zero. *)
Definition MergeFailureCode := Z.
Definition MergeFailureCode_Ok : MergeFailureCode := 0.

(** [android::snapshot::CreateResult]; the switch has a [default]. *)
Inductive CreateResult := CREATED | NOT_CREATED | ERROR | CreateResult_reserved (raw : Z).

(** Unsigned 32-bit arithmetic ([BootControlInterface::Slot], [uint32_t]
    stats fields, [unsigned int last_percentage_]). *)
Definition wrap32 (z : Z) : Z := z mod 2 ^ 32.
Definition wrap64 (z : Z) : Z := z mod 2 ^ 64.
Arguments wrap32 : simpl never.
Arguments wrap64 : simpl never.
Arguments Z.sub : simpl never.
Arguments Z.add : simpl never.

Definition TaskId := Z.
Definition AutoDevice := Z.

(** Tasks the action posts to the message loop. *)
Inductive TaskCallback :=
| CbWaitBootCompletedOrSchedule
| CbCheckSlotMarkedSuccessfulOrSchedule
| CbStartMerge
| CbWaitForMergeOrSchedule.

(** The two callbacks handed to [ProcessUpdateState]. *)
Inductive ServiceCallback := InvokeProgress | InvokeBeforeCancel.

(** Constants of the file. *)
Definition kBootCompletedProp : string := "sys.boot_completed".
Definition kMergeDelaySecondsProp : string := "ro.virtual_ab.merge_delay_seconds".
Definition kMaxMergeDelaySeconds : Z := 600.
Definition kCheckBootCompletedInterval : Z := 2.
Definition kCheckSlotMarkedSuccessfulInterval : Z := 2.
Definition kWaitForMergeInterval : Z := 2.
(** The guarded preference key; its text is declared with the other
    preference keys, outside this file, and plays no role below. *)
Definition kPrefsDynamicPartitionMetadataUpdated : string :=
  "dynamic-partition-metadata-updated".

(** [static_cast<unsigned int>(double)]: truncation toward zero.  C++ defines
    the conversion only when the truncated value fits; the reduction modulo
    2^32 below is the identity there (see [static_cast_uint_percent] for the
    range the snapshot service reports). *)
Definition trunc_double (d : float) : Z :=
  match Prim2SF d with
  | S754_finite s m e =>
      let z := if 0 <=? e then Z.pos m * 2 ^ e else Z.pos m / 2 ^ (- e) in
      if s then - z else z
  | _ => 0
  end.

Definition static_cast_uint (d : float) : Z := wrap32 (trunc_double d).

(** The instance's fields.  Collaborator pointers are modelled by whether
    they are non-null. *)
Record Action := mkAction {
  prefs_ : bool;
  boot_control_ : bool;
  snapshot_ : bool;
  delegate_ : bool;
  running_ : bool;
  cancel_failed_ : bool;
  last_percentage_ : Z;
  scheduled_task_ : option TaskId;
  metadata_device_ : option AutoDevice;
  merge_stats_ : bool
}.

(** The constructor's initialiser list. *)
Definition CleanupPreviousUpdateAction
    (prefs boot_control snapshot delegate : bool) : Action :=
  {| prefs_ := prefs; boot_control_ := boot_control; snapshot_ := snapshot;
     delegate_ := delegate; running_ := false; cancel_failed_ := false;
     last_percentage_ := 0; scheduled_task_ := None;
     metadata_device_ := None; merge_stats_ := false |}.

(** The fields of the snapshot service's merge-stats recorder that the
    action writes. *)
Record MergeStats := mkMergeStats {
  ms_state : Z;
  ms_merge_failure_code : MergeFailureCode;
  ms_boot_complete_time_ms : Z;
  ms_boot_complete_to_merge_start_time_ms : Z;
  ms_source_build_fingerprint : string
}.

(** What [SnapshotMergeStats::Finish] adds to the report: fields the
    snapshot service fills by itself. *)
Record MergeResult := mkMergeResult {
  merge_time_ms : Z;
  resume_count : Z;
  cow_file_size : Z;
  compression_enabled : bool;
  total_cow_size_bytes : Z;
  estimated_cow_size_bytes : Z;
  userspace_snapshots_used : bool;
  xor_compression_used : bool;
  iouring_used : bool
}.

(** The arguments of [statsd::stats_write(SNAPSHOT_MERGE_REPORTED, ...)]. *)
Record SnapshotMergeReported := mkSnapshotMergeReported {
  r_state : Z;
  r_passed_ms : Z;
  r_resume_count : Z;
  r_vab_retrofit : bool;
  r_cow_file_size : Z;
  r_vab_compression_enabled : bool;
  r_vab_compression_used : bool;
  r_total_cow_size_bytes : Z;
  r_estimated_cow_size_bytes : Z;
  r_boot_complete_time_ms : Z;
  r_boot_complete_to_merge_start_time_ms : Z;
  r_merge_failure_code : Z;
  r_source_build_fingerprint : string;
  r_target_build_fingerprint : string;
  r_userspace_snapshots_enabled : bool;
  r_userspace_snapshots_used : bool;
  r_xor_compression_enabled : bool;
  r_xor_compression_used : bool;
  r_iouring_used : bool
}.

(** ** Collaborators *)

(** Calls that return an answer.  The answer is the environment's. *)
Inductive Query :=
| GetVirtualAbFeatureFlag_IsEnabled
| GetVirtualAbFeatureFlag_IsRetrofit
| GetVirtualAbCompressionFeatureFlag_IsEnabled
| GetVirtualAbUserspaceSnapshotsFeatureFlag_IsEnabled
| GetVirtualAbCompressionXorFeatureFlag_IsEnabled
| GetSnapshotMergeStatsInstance
| GetBoolProperty (name : string)
| GetIntProperty (name : string)
| GetProperty (name : string)
| boot_clock_now
| GetCurrentSlot
| IsSlotMarkedSuccessful (slot : Z)
| IsSnapshotManagerNeeded
| PostTask (cb : TaskCallback) (delay_seconds : Z)
| CancelTask (id : TaskId)
| EnsureMetadataMounted
| RecoveryCreateSnapshotDevices
| merge_stats_Start
| merge_stats_WriteState
| merge_stats_Finish
| ReadMergeFailureCode
| ProcessUpdateState
| CancelUpdate
| GetUpdateState_percentage
| GetUpdateState
| ResetUpdateProgress
| prefs_GetString (key : string)
| ReadSourceBuildFingerprint
| InitiateMerge.

Definition Resp (q : Query) : Type :=
  match q with
  | GetVirtualAbFeatureFlag_IsEnabled
  | GetVirtualAbFeatureFlag_IsRetrofit
  | GetVirtualAbCompressionFeatureFlag_IsEnabled
  | GetVirtualAbUserspaceSnapshotsFeatureFlag_IsEnabled
  | GetVirtualAbCompressionXorFeatureFlag_IsEnabled => bool
  | GetSnapshotMergeStatsInstance => bool
  | GetBoolProperty _ => bool
  | GetIntProperty _ => Z
  | GetProperty _ => string
  | boot_clock_now => Z
  | GetCurrentSlot => Z
  | IsSlotMarkedSuccessful _ => bool
  | IsSnapshotManagerNeeded => bool
  | PostTask _ _ => option TaskId
  | CancelTask _ => bool
  | EnsureMetadataMounted => option AutoDevice
  | RecoveryCreateSnapshotDevices => CreateResult
  | merge_stats_Start => bool
  | merge_stats_WriteState => bool
  | merge_stats_Finish => option MergeResult
  | ReadMergeFailureCode => MergeFailureCode
  | ProcessUpdateState => list ServiceCallback * Z
  | CancelUpdate => bool
  | GetUpdateState_percentage => float
  | GetUpdateState => Z
  | ResetUpdateProgress => bool
  | prefs_GetString _ => option string
  | ReadSourceBuildFingerprint => string
  | InitiateMerge => bool
  end.

Definition TaskCallback_eqb (a b : TaskCallback) : bool :=
  match a, b with
  | CbWaitBootCompletedOrSchedule, CbWaitBootCompletedOrSchedule
  | CbCheckSlotMarkedSuccessfulOrSchedule, CbCheckSlotMarkedSuccessfulOrSchedule
  | CbStartMerge, CbStartMerge
  | CbWaitForMergeOrSchedule, CbWaitForMergeOrSchedule => true
  | _, _ => false
  end.

(** Equality of calls: the same method with the same arguments. *)
Definition Query_eqb (a b : Query) : bool :=
  match a, b with
  | GetVirtualAbFeatureFlag_IsEnabled, GetVirtualAbFeatureFlag_IsEnabled
  | GetVirtualAbFeatureFlag_IsRetrofit, GetVirtualAbFeatureFlag_IsRetrofit
  | GetVirtualAbCompressionFeatureFlag_IsEnabled,
    GetVirtualAbCompressionFeatureFlag_IsEnabled
  | GetVirtualAbUserspaceSnapshotsFeatureFlag_IsEnabled,
    GetVirtualAbUserspaceSnapshotsFeatureFlag_IsEnabled
  | GetVirtualAbCompressionXorFeatureFlag_IsEnabled,
    GetVirtualAbCompressionXorFeatureFlag_IsEnabled
  | GetSnapshotMergeStatsInstance, GetSnapshotMergeStatsInstance
  | boot_clock_now, boot_clock_now
  | GetCurrentSlot, GetCurrentSlot
  | IsSnapshotManagerNeeded, IsSnapshotManagerNeeded
  | EnsureMetadataMounted, EnsureMetadataMounted
  | RecoveryCreateSnapshotDevices, RecoveryCreateSnapshotDevices
  | merge_stats_Start, merge_stats_Start
  | merge_stats_WriteState, merge_stats_WriteState
  | merge_stats_Finish, merge_stats_Finish
  | ReadMergeFailureCode, ReadMergeFailureCode
  | ProcessUpdateState, ProcessUpdateState
  | CancelUpdate, CancelUpdate
  | GetUpdateState_percentage, GetUpdateState_percentage
  | GetUpdateState, GetUpdateState
  | ResetUpdateProgress, ResetUpdateProgress
  | ReadSourceBuildFingerprint, ReadSourceBuildFingerprint
  | InitiateMerge, InitiateMerge => true
  | GetBoolProperty n, GetBoolProperty n'
  | GetIntProperty n, GetIntProperty n'
  | GetProperty n, GetProperty n'
  | prefs_GetString n, prefs_GetString n' => String.eqb n n'
  | IsSlotMarkedSuccessful s, IsSlotMarkedSuccessful s' => s =? s'
  | CancelTask s, CancelTask s' => s =? s'
  | PostTask c d, PostTask c' d' => TaskCallback_eqb c c' && (d =? d')
  | _, _ => false
  end.

(** Calls that only have an effect. *)
Inductive Command :=
| MarkSlotUnbootable (slot : Z)
| SetMergeStatsFeatures
| UpdateCowStats
| set_boot_complete_time_ms (ms : Z)
| set_boot_complete_to_merge_start_time_ms (ms : Z)
| set_source_build_fingerprint (fp : string)
| set_state (raw : Z)
| set_merge_failure_code (code : MergeFailureCode)
| OnCleanupProgressUpdate (progress : float)
| ActionComplete (code : ErrorCode)
| stats_write (report : SnapshotMergeReported)
| release_metadata_device (dev : AutoDevice)
| OnMergePercentageUpdate_returned (keep_waiting : bool)
| BeforeCancel_returned (proceed : bool).

Inductive Call := Asked (q : Query) | Did (c : Command).

Inductive Severity := INFO | WARNING | ERROR_ | FATAL.
Record LogLine := mkLog { severity : Severity; text : string; number : option Z }.

(** The world the action runs in.  [asked_log] lists the answered calls
    made so far, latest first; the environment's answer to a call depends
    on how many times that call was made before. *)
Record World := mkWorld {
  act : Action;
  stats : MergeStats;
  oracle : forall q : Query, nat -> Resp q;
  asked_log : list Query;
  calls : list Call;
  logs : list LogLine
}.

Fixpoint count_asked (q : Query) (l : list Query) : nat :=
  match l with
  | [] => O
  | q' :: rest => if Query_eqb q' q then S (count_asked q rest) else count_asked q rest
  end.

(** How many times [q] has been called. *)
Definition asked (w : World) (q : Query) : nat := count_asked q (asked_log w).

(** The answer the environment gives to the next call of [q]. *)
Definition next (w : World) (q : Query) : Resp q := oracle w q (asked w q).

(** ** The monad: state, with process abort and recursion fuel *)

Inductive Outcome (A : Type) :=
| Done (a : A) (w : World)
| Abort (w : World)        (* LOG(FATAL) or a failed CHECK: the process ends *)
| OutOfFuel (w : World).
Arguments Done {A} a w.
Arguments Abort {A} w.
Arguments OutOfFuel {A} w.

Definition M (A : Type) : Type := World -> Outcome A.

Definition ret {A} (a : A) : M A := fun w => Done a w.

Definition bind {A B} (m : M A) (k : A -> M B) : M B :=
  fun w => match m w with
           | Done a w' => k a w'
           | Abort w' => Abort w'
           | OutOfFuel w' => OutOfFuel w'
           end.

Notation "x <- m ;; k" := (bind m (fun x => k))
  (at level 61, m at next level, right associativity).
Notation "m ;; k" := (bind m (fun _ => k))
  (at level 61, right associativity).

Definition final {A} (o : Outcome A) : World :=
  match o with Done _ w | Abort w | OutOfFuel w => w end.

Definition with_act (f : Action -> Action) (w : World) : World :=
  match w with mkWorld a s o ak c l => mkWorld (f a) s o ak c l end.
Definition with_stats (f : MergeStats -> MergeStats) (w : World) : World :=
  match w with mkWorld a s o ak c l => mkWorld a (f s) o ak c l end.
Definition with_call (x : Call) (w : World) : World :=
  match w with mkWorld a s o ak c l => mkWorld a s o ak (c ++ [x]) l end.
Definition with_log (x : LogLine) (w : World) : World :=
  match w with mkWorld a s o ak c l => mkWorld a s o ak c (l ++ [x]) end.
Definition with_asked (q : Query) (w : World) : World :=
  match w with mkWorld a s o ak c l => mkWorld a s o (q :: ak) c l end.

Definition gets {A} (f : Action -> A) : M A := fun w => Done (f (act w)) w.
Definition modify (f : Action -> Action) : M unit := fun w => Done tt (with_act f w).
Definition gets_stats {A} (f : MergeStats -> A) : M A := fun w => Done (f (stats w)) w.
Definition modify_stats (f : MergeStats -> MergeStats) : M unit :=
  fun w => Done tt (with_stats f w).

(** A call on a collaborator: recorded, answered by the environment. *)
Definition ask (q : Query) : M (Resp q) :=
  fun w => Done (next w q) (with_asked q (with_call (Asked q) w)).
Definition tell (c : Command) : M unit :=
  fun w => Done tt (with_call (Did c) w).
Definition LOG (s : Severity) (msg : string) : M unit :=
  fun w => match s with
           | FATAL => Abort (with_log (mkLog s msg None) w)
           | _ => Done tt (with_log (mkLog s msg None) w)
           end.
Definition LOG_num (s : Severity) (msg : string) (n : Z) : M unit :=
  fun w => match s with
           | FATAL => Abort (with_log (mkLog s msg (Some n)) w)
           | _ => Done tt (with_log (mkLog s msg (Some n)) w)
           end.
Definition CHECK (b : bool) (what : string) : M unit :=
  if b then ret tt else LOG FATAL what.
Definition out_of_fuel {A} : M A := fun w => OutOfFuel w.

(** Field updates. *)
Definition set_running_ (b : bool) (a : Action) : Action :=
  mkAction (prefs_ a) (boot_control_ a) (snapshot_ a) (delegate_ a) b
           (cancel_failed_ a) (last_percentage_ a) (scheduled_task_ a)
           (metadata_device_ a) (merge_stats_ a).
Definition set_cancel_failed_ (b : bool) (a : Action) : Action :=
  mkAction (prefs_ a) (boot_control_ a) (snapshot_ a) (delegate_ a) (running_ a)
           b (last_percentage_ a) (scheduled_task_ a)
           (metadata_device_ a) (merge_stats_ a).
Definition set_last_percentage_ (p : Z) (a : Action) : Action :=
  mkAction (prefs_ a) (boot_control_ a) (snapshot_ a) (delegate_ a) (running_ a)
           (cancel_failed_ a) p (scheduled_task_ a)
           (metadata_device_ a) (merge_stats_ a).
Definition set_scheduled_task_ (t : option TaskId) (a : Action) : Action :=
  mkAction (prefs_ a) (boot_control_ a) (snapshot_ a) (delegate_ a) (running_ a)
           (cancel_failed_ a) (last_percentage_ a) t
           (metadata_device_ a) (merge_stats_ a).
Definition set_metadata_device_ (d : option AutoDevice) (a : Action) : Action :=
  mkAction (prefs_ a) (boot_control_ a) (snapshot_ a) (delegate_ a) (running_ a)
           (cancel_failed_ a) (last_percentage_ a) (scheduled_task_ a)
           d (merge_stats_ a).
Definition set_merge_stats_ (b : bool) (a : Action) : Action :=
  mkAction (prefs_ a) (boot_control_ a) (snapshot_ a) (delegate_ a) (running_ a)
           (cancel_failed_ a) (last_percentage_ a) (scheduled_task_ a)
           (metadata_device_ a) b.

Definition set_ms_state (v : Z) (s : MergeStats) : MergeStats :=
  mkMergeStats v (ms_merge_failure_code s) (ms_boot_complete_time_ms s)
               (ms_boot_complete_to_merge_start_time_ms s)
               (ms_source_build_fingerprint s).
Definition set_ms_merge_failure_code (c : MergeFailureCode) (s : MergeStats) : MergeStats :=
  mkMergeStats (ms_state s) c (ms_boot_complete_time_ms s)
               (ms_boot_complete_to_merge_start_time_ms s)
               (ms_source_build_fingerprint s).
Definition set_ms_boot_complete_time_ms (t : Z) (s : MergeStats) : MergeStats :=
  mkMergeStats (ms_state s) (ms_merge_failure_code s) t
               (ms_boot_complete_to_merge_start_time_ms s)
               (ms_source_build_fingerprint s).
Definition set_ms_boot_complete_to_merge_start_time_ms (t : Z) (s : MergeStats) : MergeStats :=
  mkMergeStats (ms_state s) (ms_merge_failure_code s) (ms_boot_complete_time_ms s)
               t (ms_source_build_fingerprint s).
Definition set_ms_source_build_fingerprint (fp : string) (s : MergeStats) : MergeStats :=
  mkMergeStats (ms_state s) (ms_merge_failure_code s) (ms_boot_complete_time_ms s)
               (ms_boot_complete_to_merge_start_time_ms s) fp.

(** The recorder's setters: a call on the recorder that stores the value
    ([uint32_t] for the two times). *)
Definition merge_stats_set_state (v : Z) : M unit :=
  tell (set_state v) ;; modify_stats (set_ms_state v).
Definition merge_stats_set_merge_failure_code (c : MergeFailureCode) : M unit :=
  tell (set_merge_failure_code c) ;; modify_stats (set_ms_merge_failure_code c).
Definition merge_stats_set_boot_complete_time_ms (t : Z) : M unit :=
  tell (set_boot_complete_time_ms (wrap32 t)) ;;
  modify_stats (set_ms_boot_complete_time_ms (wrap32 t)).
Definition merge_stats_set_boot_complete_to_merge_start_time_ms (t : Z) : M unit :=
  tell (set_boot_complete_to_merge_start_time_ms (wrap32 t)) ;;
  modify_stats (set_ms_boot_complete_to_merge_start_time_ms (wrap32 t)).
Definition merge_stats_set_source_build_fingerprint (fp : string) : M unit :=
  tell (set_source_build_fingerprint fp) ;; modify_stats (set_ms_source_build_fingerprint fp).

Definition IsScheduled (t : option TaskId) : bool :=
  match t with Some _ => true | None => false end.

(** Modelled from the spec: the scheduled-task handle (section 4.2), whose
    class is declared outside this file.  [schedule] returns a handle or a
    failure, and scheduling a second task first invalidates the tracking of
    the first: the handle forgets what it tracked, the message loop answers
    with a task id or with none, and on success the handle tracks the new
    task. *)
Definition scheduled_task_PostTask (cb : TaskCallback) (delay_seconds : Z) : M bool :=
  modify (set_scheduled_task_ None) ;;
  r <- ask (PostTask cb delay_seconds) ;;
  match r with
  | Some id => modify (set_scheduled_task_ (Some id)) ;; ret true
  | None => ret false
  end.

(** Modelled from the spec: [cancel] of the scheduled-task handle (sections
    4.2 and 5): best effort; the handle clears its tracking whether or not
    the message loop could cancel the task, and reports which it was. *)
Definition scheduled_task_Cancel : M bool :=
  t <- gets scheduled_task_ ;;
  match t with
  | Some id =>
      ok <- ask (CancelTask id) ;;
      modify (set_scheduled_task_ None) ;;
      ret ok
  | None => ret false
  end.

(** [std::clamp<int>]. *)
Definition clamp (v lo hi : Z) : Z :=
  if v <? lo then lo else if hi <? v then hi else v.

(** [TEST_AND_RETURN(running_)]: log and return when the condition fails. *)
Definition TEST_AND_RETURN_running_ (rest : M unit) : M unit :=
  r <- gets running_ ;;
  if r then rest else LOG ERROR_ "running_ failed.".

Section Build.

(** The two compile-time switches of the file: [__ANDROID_RECOVERY__] and
    [UE_DISABLE_STATS]. *)
Variable kIsRecovery : bool.
Variable UE_DISABLE_STATS : bool.

Definition AcknowledgeTaskExecuted : M unit :=
  t <- gets scheduled_task_ ;;
  if IsScheduled t then LOG INFO "Executing task" else ret tt.

Definition StopActionInternal : M unit :=
  LOG INFO "Stopping/suspending/completing CleanupPreviousUpdateAction" ;;
  modify (set_running_ false) ;;
  t <- gets scheduled_task_ ;;
  if IsScheduled t then
    ok <- scheduled_task_Cancel ;;
    if ok
    then LOG INFO "CleanupPreviousUpdateAction cancelled pending task ID"
    else LOG ERROR_ "CleanupPreviousUpdateAction unable to cancel task ID"
  else ret tt.

(** The integer casts of the arguments of [stats_write] are left out: they
    do not change a value that is in range.  The function reaches the
    recorder through [merge_stats_] and is described for an instance that
    holds one ([merge_stats_] is not null), as every handler does once
    [StartActionInternal] has passed its last [CHECK]; the dereference of
    the constructor's null pointer is not described. *)
Definition ReportMergeStats : M unit :=
  result <- ask merge_stats_Finish ;;
  match result with
  | None =>
      LOG WARNING "Not reporting merge stats because SnapshotMergeStats::Finish failed."
  | Some result =>
      if kIsRecovery then LOG INFO "Skip reporting merge stats in recovery."
      else if UE_DISABLE_STATS
      then LOG INFO "Skip reporting merge stats because metrics are disabled."
      else
        report <- gets_stats (fun s => s) ;;
        if (ms_state report =? UpdateState_raw None_)
           || (ms_state report =? UpdateState_raw Initiated)
           || (ms_state report =? UpdateState_raw Unverified)
        then LOG INFO "Not reporting merge stats because state is"
        else
          vab_retrofit <- ask GetVirtualAbFeatureFlag_IsRetrofit ;;
          vab_compression_enabled <- ask GetVirtualAbCompressionFeatureFlag_IsEnabled ;;
          userspace_snapshots_enabled <-
            ask GetVirtualAbUserspaceSnapshotsFeatureFlag_IsEnabled ;;
          xor_compression_enabled <- ask GetVirtualAbCompressionXorFeatureFlag_IsEnabled ;;
          target_build_fingerprint <- ask (GetProperty "ro.build.fingerprint") ;;
          LOG INFO "Reporting merge stats" ;;
          tell (stats_write
                  {| r_state := ms_state report;
                     r_passed_ms := merge_time_ms result;
                     r_resume_count := resume_count result;
                     r_vab_retrofit := vab_retrofit;
                     r_cow_file_size := cow_file_size result;
                     r_vab_compression_enabled := vab_compression_enabled;
                     r_vab_compression_used := compression_enabled result;
                     r_total_cow_size_bytes := total_cow_size_bytes result;
                     r_estimated_cow_size_bytes := estimated_cow_size_bytes result;
                     r_boot_complete_time_ms := ms_boot_complete_time_ms report;
                     r_boot_complete_to_merge_start_time_ms :=
                       ms_boot_complete_to_merge_start_time_ms report;
                     r_merge_failure_code := ms_merge_failure_code report;
                     r_source_build_fingerprint := ms_source_build_fingerprint report;
                     r_target_build_fingerprint := target_build_fingerprint;
                     r_userspace_snapshots_enabled := userspace_snapshots_enabled;
                     r_userspace_snapshots_used := userspace_snapshots_used result;
                     r_xor_compression_enabled := xor_compression_enabled;
                     r_xor_compression_used := xor_compression_used result;
                     r_iouring_used := iouring_used result |})
  end.

Definition ActionCompleted (error_code : ErrorCode) : M unit :=
  StopActionInternal ;;
  ReportMergeStats ;;
  d <- gets metadata_device_ ;;
  match d with
  | Some dev => tell (release_metadata_device dev) ;; modify (set_metadata_device_ None)
  | None => ret tt
  end.

(** Modelled from the spec: the action sequencer ([processor_], declared
    outside this file).  [complete(errorCode)] is the single way the core
    signals its terminus; on it the sequencer runs the action's completion
    hook (the terminal row of the state table: release the metadata volume,
    finalize and report the stats). *)
Definition processor_ActionComplete (code : ErrorCode) : M unit :=
  tell (ActionComplete code) ;;
  ActionCompleted code.

Definition CheckTaskScheduled (name : string) : M unit :=
  t <- gets scheduled_task_ ;;
  if negb (IsScheduled t) then
    LOG ERROR_ (String.append "Unable to schedule " name) ;;
    processor_ActionComplete kError
  else
    LOG INFO (String.append "CleanupPreviousUpdateAction scheduled task ID for " name).

Definition ScheduleWaitBootCompleted : M unit :=
  TEST_AND_RETURN_running_
    (ok <- scheduled_task_PostTask CbWaitBootCompletedOrSchedule
                                   kCheckBootCompletedInterval ;;
     if negb ok then CheckTaskScheduled "WaitBootCompleted" else ret tt).

Definition ScheduleWaitMarkBootSuccessful : M unit :=
  TEST_AND_RETURN_running_
    (ok <- scheduled_task_PostTask CbCheckSlotMarkedSuccessfulOrSchedule
                                   kCheckSlotMarkedSuccessfulInterval ;;
     if negb ok then CheckTaskScheduled "WaitMarkBootSuccessful" else ret tt).

Definition ScheduleWaitForMerge : M unit :=
  TEST_AND_RETURN_running_
    (ok <- scheduled_task_PostTask CbWaitForMergeOrSchedule kWaitForMergeInterval ;;
     if negb ok then CheckTaskScheduled "WaitForMerge" else ret tt).

Definition OnMergePercentageUpdate : M bool :=
  percentage <- ask GetUpdateState_percentage ;;
  d <- gets delegate_ ;;
  (if d then tell (OnCleanupProgressUpdate (percentage / 100)%float) else ret tt) ;;
  last <- gets last_percentage_ ;;
  (if last <? static_cast_uint percentage then
     modify (set_last_percentage_ (static_cast_uint percentage)) ;;
     LOG_num INFO "Waiting for merge to complete: %." (static_cast_uint percentage)
   else ret tt) ;;
  ret false.

Definition BeforeCancel : M bool :=
  reset <- ask ResetUpdateProgress ;;
  if reset then ret true
  else
    LOG WARNING "ProcessUpdateState returns Cancelled but cleanup failed." ;;
    r <- ask (prefs_GetString kPrefsDynamicPartitionMetadataUpdated) ;;
    let val := match r with Some v => v | None => EmptyString end in
    if String.eqb val EmptyString then
      LOG INFO "dynamic-partition-metadata-updated is empty, assuming successful cleanup" ;;
      ret true
    else
      LOG WARNING "not deleting snapshots even though UpdateState is Cancelled." ;;
      modify (set_cancel_failed_ true) ;;
      ret false.

(** Modelled from the spec: the snapshot service's state-processing call
    (declared outside this file).  While it runs it invokes the progress
    callback and the pre-cancellation validation callback, in an order and
    number of its own choosing, and then reports a state. *)
Fixpoint run_callbacks (cbs : list ServiceCallback) : M unit :=
  match cbs with
  | [] => ret tt
  | InvokeProgress :: rest =>
      b <- OnMergePercentageUpdate ;;
      tell (OnMergePercentageUpdate_returned b) ;;
      run_callbacks rest
  | InvokeBeforeCancel :: rest =>
      b <- BeforeCancel ;;
      tell (BeforeCancel_returned b) ;;
      run_callbacks rest
  end.

Definition snapshot_ProcessUpdateState : M Z :=
  r <- ask ProcessUpdateState ;;
  run_callbacks (fst r) ;;
  ret (snd r).

(** [WaitForMergeOrSchedule], lines 311-324: up to the recorded state. *)
Definition WaitForMerge_poll : M Z :=
  tell SetMergeStatsFeatures ;;
  failure_code <- ask ReadMergeFailureCode ;;
  (if negb (failure_code =? MergeFailureCode_Ok)
   then merge_stats_set_merge_failure_code failure_code
   else ret tt) ;;
  state <- snapshot_ProcessUpdateState ;;
  merge_stats_set_state state ;;
  ret state.

(** [WaitForMergeOrSchedule], lines 326-389: the switch. *)
Definition WaitForMerge_switch (InitiateMergeAndWait : M unit) (state : Z) : M unit :=
  match UpdateState_of_raw state with
  | Some None_ =>
      LOG INFO "Can't find any snapshot to merge." ;;
      ok <- ask CancelUpdate ;;
      error_code <- (if negb ok
                     then LOG INFO "Failed to call SnapshotManager::CancelUpdate()." ;;
                          ret kError
                     else ret kSuccess) ;;
      processor_ActionComplete error_code
  | Some Initiated =>
      LOG ERROR_ "Previous update has not been completed, not cleaning up" ;;
      processor_ActionComplete kSuccess
  | Some Unverified => InitiateMergeAndWait
  | Some Merging => ScheduleWaitForMerge
  | Some MergeNeedsReboot =>
      LOG ERROR_ "Need reboot to finish merging." ;;
      processor_ActionComplete kError
  | Some MergeCompleted =>
      LOG INFO "Merge finished with state MergeCompleted." ;;
      slot <- ask GetCurrentSlot ;;
      tell (MarkSlotUnbootable (wrap32 (1 - slot))) ;;
      processor_ActionComplete kSuccess
  | Some MergeFailed =>
      LOG ERROR_ "Merge failed. Device may be corrupted." ;;
      code <- ask ReadMergeFailureCode ;;
      merge_stats_set_merge_failure_code code ;;
      processor_ActionComplete kDeviceCorrupted
  | Some Cancelled =>
      cf <- gets cancel_failed_ ;;
      processor_ActionComplete (if cf then kError else kSuccess)
  | None =>
      LOG_num FATAL "SnapshotManager::ProcessUpdateState returns " state
  end.

(** [InitiateMergeAndWait]; [wait] is its call of [WaitForMergeOrSchedule]. *)
Definition InitiateMergeAndWait_body (wait : M unit) : M unit :=
  TEST_AND_RETURN_running_
    (LOG INFO "Attempting to initiate merge." ;;
     dsu <- ask (GetBoolProperty "ro.gsid.image_running") ;;
     if dsu then
       LOG WARNING "Suspend the VAB merge when running a DSU." ;;
       processor_ActionComplete kError
     else
       tell UpdateCowStats ;;
       merge_start_time <- ask boot_clock_now ;;
       boot_complete <- gets_stats ms_boot_complete_time_ms ;;
       merge_stats_set_boot_complete_to_merge_start_time_ms
         (merge_start_time - boot_complete) ;;
       source_build_fingerprint <- ask ReadSourceBuildFingerprint ;;
       merge_stats_set_source_build_fingerprint source_build_fingerprint ;;
       written <- ask merge_stats_WriteState ;;
       (if negb written
        then LOG ERROR_ "Failed to write merge stats; record may be unreliable if merge is interrupted."
        else ret tt) ;;
       initiated <- ask InitiateMerge ;;
       if initiated then wait
       else
         LOG WARNING "InitiateMerge failed." ;;
         state <- ask GetUpdateState ;;
         merge_stats_set_state state ;;
         if state =? UpdateState_raw Unverified then
           LOG WARNING "InitiateMerge leaves the device at UpdateState::Unverified. (Did update_engine restarted?)" ;;
           processor_ActionComplete kSuccess
         else
           LOG WARNING "IniitateMerge failed but GetUpdateState returned another state, try to wait for merge again." ;;
           wait).

(** The handler and [InitiateMergeAndWait] call each other without bound
    (the service may keep answering [Unverified]); [fuel] bounds the number
    of nested entries of the handler. *)
Fixpoint WaitForMergeOrSchedule (fuel : nat) : M unit :=
  match fuel with
  | O => out_of_fuel
  | S fuel' =>
      AcknowledgeTaskExecuted ;;
      TEST_AND_RETURN_running_
        (state <- WaitForMerge_poll ;;
         WaitForMerge_switch
           (InitiateMergeAndWait_body (WaitForMergeOrSchedule fuel')) state)
  end.

Definition InitiateMergeAndWait (fuel : nat) : M unit :=
  InitiateMergeAndWait_body (WaitForMergeOrSchedule fuel).

Definition StartMerge (fuel : nat) : M unit :=
  d <- gets metadata_device_ ;;
  (match d with
   | None => r <- ask EnsureMetadataMounted ;; modify (set_metadata_device_ r)
   | Some _ => ret tt
   end) ;;
  d <- gets metadata_device_ ;;
  match d with
  | None =>
      LOG ERROR_ "Failed to mount /metadata." ;;
      processor_ActionComplete (if kIsRecovery then kSuccess else kError)
  | Some _ =>
      proceed <-
        (if kIsRecovery then
           snapshots_created <- ask RecoveryCreateSnapshotDevices ;;
           match snapshots_created with
           | CREATED => LOG INFO "Snapshot devices are created" ;; ret true
           | NOT_CREATED => LOG INFO "Snapshot devices are not created" ;; ret true
           | _ =>
               LOG ERROR_ "Failed to create snapshot devices" ;;
               processor_ActionComplete kError ;;
               ret false
           end
         else ret true) ;;
      if proceed then
        started <- ask merge_stats_Start ;;
        (if negb started then LOG WARNING "SnapshotMergeStats::Start failed." else ret tt) ;;
        LOG INFO "Waiting for any previous merge request to complete. This can take up to several minutes." ;;
        WaitForMergeOrSchedule fuel
      else ret tt
  end.

Definition CheckForMergeDelay (fuel : nat) : M unit :=
  needed <- ask IsSnapshotManagerNeeded ;;
  if negb needed then StartMerge fuel
  else
    v <- ask (GetIntProperty kMergeDelaySecondsProp) ;;
    let merge_delay_seconds := clamp v 0 kMaxMergeDelaySeconds in
    (if negb (merge_delay_seconds =? 0)
     then LOG_num INFO "Merge is ready to start, but the delay property is set, delaying merge by seconds"
                  merge_delay_seconds
     else ret tt) ;;
    ok <- scheduled_task_PostTask CbStartMerge merge_delay_seconds ;;
    if negb ok then
      LOG ERROR_ "Unable to schedule CheckForMergeDelay" ;;
      processor_ActionComplete kError
    else ret tt.

Definition CheckSlotMarkedSuccessfulOrSchedule (fuel : nat) : M unit :=
  AcknowledgeTaskExecuted ;;
  TEST_AND_RETURN_running_
    (not_marked <-
       (if kIsRecovery then ret false
        else slot <- ask GetCurrentSlot ;;
             marked <- ask (IsSlotMarkedSuccessful slot) ;;
             ret (negb marked)) ;;
     if not_marked then ScheduleWaitMarkBootSuccessful
     else CheckForMergeDelay fuel).

Definition WaitBootCompletedOrSchedule (fuel : nat) : M unit :=
  AcknowledgeTaskExecuted ;;
  TEST_AND_RETURN_running_
    (not_booted <-
       (if kIsRecovery then ret false
        else booted <- ask (GetBoolProperty kBootCompletedProp) ;;
             ret (negb booted)) ;;
     if not_booted then ScheduleWaitBootCompleted
     else
       boot_time <- ask boot_clock_now ;;
       merge_stats_set_boot_complete_time_ms boot_time ;;
       LOG INFO "Boot completed, waiting on markBootSuccessful()" ;;
       CheckSlotMarkedSuccessfulOrSchedule fuel).

Definition StartActionInternal (fuel : nat) : M unit :=
  p <- gets prefs_ ;;
  CHECK p "prefs_" ;;
  b <- gets boot_control_ ;;
  CHECK b "boot_control_" ;;
  LOG INFO "Starting/resuming CleanupPreviousUpdateAction" ;;
  modify (set_running_ true) ;;
  vab <- ask GetVirtualAbFeatureFlag_IsEnabled ;;
  if negb vab then processor_ActionComplete kSuccess
  else
    s <- gets snapshot_ ;;
    CHECK s "snapshot_ != nullptr" ;;
    ms <- ask GetSnapshotMergeStatsInstance ;;
    modify (set_merge_stats_ ms) ;;
    CHECK ms "merge_stats_ != nullptr" ;;
    WaitBootCompletedOrSchedule fuel.

Definition PerformAction (fuel : nat) : M unit := StartActionInternal fuel.
Definition TerminateProcessing : M unit := StopActionInternal.
Definition ResumeAction (fuel : nat) : M unit := StartActionInternal fuel.
Definition SuspendAction : M unit := StopActionInternal.

(** A task of the message loop runs.  Modelled from the spec: the
    scheduled-task handle clears its bookkeeping when its task fires
    (section 4.2), then the posted function runs. *)
Definition run_task (fuel : nat) (cb : TaskCallback) : M unit :=
  modify (set_scheduled_task_ None) ;;
  match cb with
  | CbWaitBootCompletedOrSchedule => WaitBootCompletedOrSchedule fuel
  | CbCheckSlotMarkedSuccessfulOrSchedule => CheckSlotMarkedSuccessfulOrSchedule fuel
  | CbStartMerge => StartMerge fuel
  | CbWaitForMergeOrSchedule => WaitForMergeOrSchedule fuel
  end.

(** What can happen to an instance during its lifetime. *)
Inductive Op :=
| OpPerformAction
| OpTerminateProcessing
| OpResumeAction
| OpSuspendAction
| OpTask (cb : TaskCallback).

Definition run_op (fuel : nat) (op : Op) : M unit :=
  match op with
  | OpPerformAction => PerformAction fuel
  | OpTerminateProcessing => TerminateProcessing
  | OpResumeAction => ResumeAction fuel
  | OpSuspendAction => SuspendAction
  | OpTask cb => run_task fuel cb
  end.

Fixpoint run_ops (fuel : nat) (ops : list Op) : M unit :=
  match ops with
  | [] => ret tt
  | op :: rest => run_op fuel op ;; run_ops fuel rest
  end.

End Build.

(** ** Observations on a run *)

(** The calls made between two worlds of one run. *)
Definition since (w w' : World) : list Call :=
  skipn (List.length (calls w)) (calls w').

Definition completions (l : list Call) : list ErrorCode :=
  flat_map (fun c => match c with Did (ActionComplete e) => [e] | _ => [] end) l.

Definition marked_slots (l : list Call) : list Z :=
  flat_map (fun c => match c with Did (MarkSlotUnbootable s) => [s] | _ => [] end) l.

Definition posted_tasks (l : list Call) : list (TaskCallback * Z) :=
  flat_map (fun c => match c with Asked (PostTask cb d) => [(cb, d)] | _ => [] end) l.

Definition failure_code_writes (l : list Call) : list MergeFailureCode :=
  flat_map (fun c => match c with Did (set_merge_failure_code x) => [x] | _ => [] end) l.

(** A run of the pre-cancellation validation that rejected. *)
Definition is_reject (c : Call) : bool :=
  match c with Did (BeforeCancel_returned false) => true | _ => false end.

(** Calls made by the completion hook ([ActionCompleted]). *)
Definition is_teardown (c : Call) : bool :=
  match c with
  | Asked (CancelTask _) | Asked merge_stats_Finish
  | Asked GetVirtualAbFeatureFlag_IsRetrofit
  | Asked GetVirtualAbCompressionFeatureFlag_IsEnabled
  | Asked GetVirtualAbUserspaceSnapshotsFeatureFlag_IsEnabled
  | Asked GetVirtualAbCompressionXorFeatureFlag_IsEnabled
  | Asked (GetProperty _)
  | Did (stats_write _) | Did (release_metadata_device _) => true
  | _ => false
  end.

Definition teardown_query (q : Query) : bool := is_teardown (Asked q).

(** Calls made while the two service callbacks run. *)
Definition is_callback_call (c : Call) : bool :=
  match c with
  | Asked GetUpdateState_percentage | Asked ResetUpdateProgress
  | Asked (prefs_GetString _)
  | Did (OnCleanupProgressUpdate _)
  | Did (OnMergePercentageUpdate_returned _) | Did (BeforeCancel_returned _) => true
  | _ => false
  end.

Definition callback_query (q : Query) : bool := is_callback_call (Asked q).

(** Calls that belong to the merge-delay and merge stages. *)
Definition is_merge_stage (c : Call) : bool :=
  match c with
  | Asked IsSnapshotManagerNeeded | Asked (GetIntProperty _)
  | Asked (PostTask CbStartMerge _) | Asked (PostTask CbWaitForMergeOrSchedule _)
  | Asked EnsureMetadataMounted | Asked RecoveryCreateSnapshotDevices
  | Asked merge_stats_Start | Asked ReadMergeFailureCode | Asked ProcessUpdateState
  | Asked InitiateMerge | Did SetMergeStatsFeatures => true
  | _ => false
  end.

(** The instance after the completion hook. *)
Definition stopped (a : Action) : Action :=
  set_metadata_device_ None (set_scheduled_task_ None (set_running_ false a)).

(** [w'] comes from [w] by a piece of the run that leaves the instance as
    [a] and the recorder as [st], made the calls [added], and asked only
    queries in [qs]. *)
Definition steps_to (w w' : World) (a : Action) (st : MergeStats)
    (added : list Call) (qs : Query -> bool) : Prop :=
  act w' = a /\ stats w' = st /\ oracle w' = oracle w /\
  (forall q, qs q = false -> asked w' q = asked w q) /\
  calls w' = calls w ++ added.

(** What a run of service callbacks leaves behind: only the last logged
    percentage and the sticky cancellation flag may change. *)
Definition callbacks_ran (w w' : World) (added : list Call) : Prop :=
  steps_to w w'
    (set_last_percentage_ (last_percentage_ (act w'))
       (set_cancel_failed_ (cancel_failed_ (act w) || existsb is_reject added)
          (act w)))
    (stats w) added callback_query /\
  forallb is_callback_call added = true.

(** The calls, recorder and queries of the handler's poll (lines 311-324). *)
Definition poll_queries (q : Query) : bool :=
  callback_query q || Query_eqb q ReadMergeFailureCode || Query_eqb q ProcessUpdateState.

Definition poll_calls (c : MergeFailureCode) (cbcalls : list Call) (v : Z) : list Call :=
  [Did SetMergeStatsFeatures; Asked ReadMergeFailureCode]
  ++ (if c =? MergeFailureCode_Ok then [] else [Did (set_merge_failure_code c)])
  ++ Asked ProcessUpdateState :: cbcalls ++ [Did (set_state v)].

Definition poll_stats (c : MergeFailureCode) (v : Z) (st : MergeStats) : MergeStats :=
  set_ms_state v
    (if c =? MergeFailureCode_Ok then st else set_ms_merge_failure_code c st).

Definition no_query (q : Query) : bool := false.

(** [m] keeps the property [I] of worlds, however it ends. *)
Definition preserves (I : World -> Prop) {A} (m : M A) : Prop :=
  forall w, I w -> I (final (m w)).

(** The sticky flag is set. *)
Definition cancel_failed_set (w : World) : Prop := cancel_failed_ (act w) = true.

(** The sticky flag records exactly whether some run of the validation
    callback has rejected. *)
Definition cancel_failed_tracks_rejects (w : World) : Prop :=
  cancel_failed_ (act w) = existsb is_reject (calls w).

(** A freshly constructed instance in some environment. *)
Definition fresh_world (prefs boot_control snapshot delegate : bool)
    (st : MergeStats) (o : forall q : Query, nat -> Resp q) : World :=
  mkWorld (CleanupPreviousUpdateAction prefs boot_control snapshot delegate)
          st o [] [] [].

(** ** Concrete environments *)

(** An environment in which every call fails or answers nothing. *)
Definition quiet_oracle (q : Query) (n : nat) : Resp q :=
  match q return Resp q with
  | GetVirtualAbFeatureFlag_IsEnabled
  | GetVirtualAbFeatureFlag_IsRetrofit
  | GetVirtualAbCompressionFeatureFlag_IsEnabled
  | GetVirtualAbUserspaceSnapshotsFeatureFlag_IsEnabled
  | GetVirtualAbCompressionXorFeatureFlag_IsEnabled => false
  | GetSnapshotMergeStatsInstance => false
  | GetBoolProperty _ => false
  | GetIntProperty _ => 0
  | GetProperty _ => EmptyString
  | boot_clock_now => 0
  | GetCurrentSlot => 0
  | IsSlotMarkedSuccessful _ => false
  | IsSnapshotManagerNeeded => false
  | PostTask _ _ => None
  | CancelTask _ => false
  | EnsureMetadataMounted => None
  | RecoveryCreateSnapshotDevices => ERROR
  | merge_stats_Start => false
  | merge_stats_WriteState => false
  | merge_stats_Finish => None
  | ReadMergeFailureCode => 0
  | ProcessUpdateState => ([], 0)
  | CancelUpdate => false
  | GetUpdateState_percentage => 0%float
  | GetUpdateState => 0
  | ResetUpdateProgress => false
  | prefs_GetString _ => None
  | ReadSourceBuildFingerprint => EmptyString
  | InitiateMerge => false
  end.

Definition empty_stats : MergeStats := mkMergeStats 0 0 0 0 EmptyString.

(** A Virtual A/B device that has not finished booting; the message loop
    accepts tasks; the snapshot service then runs the validation callback
    once, with a failing progress reset and a non-empty guarded preference,
    and reports [Cancelled]. *)
Definition oracle_cancel_rejected (q : Query) (n : nat) : Resp q :=
  match q return Resp q with
  | GetVirtualAbFeatureFlag_IsEnabled => true
  | GetSnapshotMergeStatsInstance => true
  | PostTask _ _ => Some 1
  | ProcessUpdateState => ([InvokeBeforeCancel], UpdateState_raw Cancelled)
  | prefs_GetString _ => Some "1"
  | q' => quiet_oracle q' n
  end.

Definition world_cancel_rejected : World :=
  final (run_ops false false 1 [OpPerformAction]
           (fresh_world true true true false empty_stats oracle_cancel_rejected)).

(** A running instance on a Virtual A/B device, before any task. *)
Definition running_action : Action :=
  set_merge_stats_ true
    (set_running_ true (CleanupPreviousUpdateAction true true true true)).

(** Nothing has booted, no slot is marked, and the message loop refuses
    every task. *)
Definition world_polling_refused : World :=
  mkWorld running_action empty_stats quiet_oracle [] [] [].

(** The same, with a message loop that accepts tasks. *)
Definition oracle_accepting_tasks (q : Query) (n : nat) : Resp q :=
  match q return Resp q with
  | PostTask _ _ => Some 1
  | q' => quiet_oracle q' n
  end.

Definition world_polling : World :=
  mkWorld running_action empty_stats oracle_accepting_tasks [] [] [].

(** The snapshot service runs the callbacks [cbs] and reports [v]; the
    current slot is 0 and the failure code read is 3, then 4. *)
Definition oracle_reporting (cbs : list ServiceCallback) (v : Z)
    (q : Query) (n : nat) : Resp q :=
  match q return Resp q with
  | ProcessUpdateState => (cbs, v)
  | ReadMergeFailureCode => 3 + Z.of_nat n
  | q' => quiet_oracle q' n
  end.

Definition world_reporting (v : Z) : World :=
  mkWorld running_action empty_stats (oracle_reporting [InvokeProgress] v) [] [] [].

(** A device that has booted and whose slot is verified; merging is
    delayed by five seconds; the message loop accepts the task but later
    fails to cancel it; the metadata volume mounts. *)
Definition oracle_delayed_merge (q : Query) (n : nat) : Resp q :=
  match q return Resp q with
  | GetVirtualAbFeatureFlag_IsEnabled => true
  | GetSnapshotMergeStatsInstance => true
  | GetBoolProperty _ => true
  | IsSlotMarkedSuccessful _ => true
  | IsSnapshotManagerNeeded => true
  | GetIntProperty _ => 5
  | PostTask _ _ => Some 7
  | CancelTask _ => false
  | EnsureMetadataMounted => Some 1
  | merge_stats_Start => true
  | q' => quiet_oracle q' n
  end.

(** The instance was started, posted the delayed [StartMerge], and was then
    suspended; the cancellation of the task failed. *)
Definition world_suspended_with_pending_merge : World :=
  final (run_ops false false 1 [OpPerformAction; OpSuspendAction]
           (fresh_world true true true false empty_stats oracle_delayed_merge)).

(** The service reports the percentages 10.2, 10.9 and 11.4 to an instance
    whose last logged percentage is 10. *)
Definition oracle_percentages (ps : list float) (q : Query) (n : nat) : Resp q :=
  match q return Resp q with
  | GetUpdateState_percentage => nth n ps 0%float
  | q' => quiet_oracle q' n
  end.

Definition world_progress : World :=
  mkWorld (set_last_percentage_ 10 running_action) empty_stats
          (oracle_percentages [10.2; 10.9; 11.4]%float) [] [] [].

Definition world_progress_after (n : nat) : World :=
  final (run_callbacks (repeat InvokeProgress n) world_progress).

(** The line the progress callback logs. *)
Definition progress_line (n : Z) : LogLine :=
  mkLog INFO "Waiting for merge to complete: %." (Some n).

(** The percentage, as the snapshot service reports it: between 0 and 100. *)
Definition is_percentage (p : float) : Prop :=
  (0 <=? p)%float = true /\ (p <=? 100)%float = true.

(** More observations on the calls of a run. *)
Definition stats_writes (l : list Call) : list SnapshotMergeReported :=
  flat_map (fun c => match c with Did (stats_write r) => [r] | _ => [] end) l.

Definition released_devices (l : list Call) : list AutoDevice :=
  flat_map (fun c => match c with Did (release_metadata_device d) => [d] | _ => [] end) l.

Definition asked_calls (l : list Call) : list Query :=
  flat_map (fun c => match c with Asked q => [q] | _ => [] end) l.

(** The states for which no merge report is sent. *)
Definition unreported_state (v : Z) : bool :=
  (v =? UpdateState_raw None_) || (v =? UpdateState_raw Initiated)
  || (v =? UpdateState_raw Unverified).

(** The instance after a completion: stopped, no task tracked, no
    metadata handle held. *)
Definition is_stopped (a : Action) : Prop :=
  running_ a = false /\ scheduled_task_ a = None /\ metadata_device_ a = None.

(** [m] asks the message loop for at most [p] tasks and completes the
    action at most [c] times; when it completes, it leaves the instance
    stopped. *)
Definition within (p c : nat) {A} (m : M A) : Prop :=
  forall w, exists added,
    calls (final (m w)) = calls w ++ added /\
    (List.length (posted_tasks added) <= p)%nat /\
    (List.length (completions added) <= c)%nat /\
    (completions added <> [] -> is_stopped (act (final (m w)))).

(** The value of the guarded preference as [BeforeCancel] sees it. *)
Definition guarded_pref (w : World) : string :=
  match next w (prefs_GetString kPrefsDynamicPartitionMetadataUpdated) with
  | Some v => v
  | None => EmptyString
  end.

(** A run of the pre-cancellation validation started in [w] fails, in the
    words of the specification: the progress reset fails and the guarded
    preference value is non-empty. *)
Definition validation_fails (w : World) : bool :=
  negb (next w ResetUpdateProgress)
  && negb (String.eqb (guarded_pref w) EmptyString).

(** More concrete environments. *)

(** A freshly constructed instance on a device without Virtual A/B. *)
Definition world_not_virtual_ab : World :=
  fresh_world true true true false empty_stats quiet_oracle.

(** An instance constructed without a preference store. *)
Definition world_without_prefs : World :=
  fresh_world false true true false empty_stats quiet_oracle.

(** A Virtual A/B device, an instance constructed without a snapshot
    manager. *)
Definition world_without_snapshot : World :=
  fresh_world true true false false empty_stats oracle_cancel_rejected.

(** A running instance on the device that has booted and whose slot is
    verified. *)
Definition world_booted : World :=
  mkWorld running_action empty_stats oracle_delayed_merge [] [] [].

(** The delay property asks for 900 seconds; the message loop accepts a
    task delayed by 600 seconds and no other. *)
Definition oracle_long_delay (q : Query) (n : nat) : Resp q :=
  match q return Resp q with
  | IsSnapshotManagerNeeded => true
  | GetIntProperty _ => 900
  | PostTask _ d => if d =? 600 then Some 7 else None
  | q' => quiet_oracle q' n
  end.

Definition world_long_delay : World :=
  mkWorld running_action empty_stats oracle_long_delay [] [] [].

(** The snapshot manager is needed and the message loop refuses every
    task. *)
Definition oracle_refusing_delay (q : Query) (n : nat) : Resp q :=
  match q return Resp q with
  | IsSnapshotManagerNeeded => true
  | q' => quiet_oracle q' n
  end.

Definition world_refusing_delay : World :=
  mkWorld running_action empty_stats oracle_refusing_delay [] [] [].

(** A running instance that holds the metadata handle 1; creating the
    snapshot devices fails. *)
Definition world_mounted : World :=
  mkWorld (set_metadata_device_ (Some 1) running_action) empty_stats quiet_oracle [] [] [].

(** The same, where the snapshot devices are created. *)
Definition oracle_recovery (q : Query) (n : nat) : Resp q :=
  match q return Resp q with
  | RecoveryCreateSnapshotDevices => CREATED
  | q' => quiet_oracle q' n
  end.

Definition world_recovery_mounted : World :=
  mkWorld (set_metadata_device_ (Some 1) running_action) empty_stats oracle_recovery [] [] [].

(** The service reports [Merging] and the message loop accepts tasks. *)
Definition oracle_merging (q : Query) (n : nat) : Resp q :=
  match q return Resp q with
  | ProcessUpdateState => ([InvokeProgress], UpdateState_raw Merging)
  | PostTask _ _ => Some 1
  | q' => quiet_oracle q' n
  end.

Definition world_merging : World :=
  mkWorld running_action empty_stats oracle_merging [] [] [].

(** Boot completed at 1000 ms; the clock reads 2^32 + 1500 ms when the merge
    is initiated, and the merge is initiated; the stats cannot be written. *)
Definition oracle_initiating (q : Query) (n : nat) : Resp q :=
  match q return Resp q with
  | boot_clock_now => 2 ^ 32 + 1500
  | ReadSourceBuildFingerprint => "source/fingerprint"
  | InitiateMerge => true
  | q' => quiet_oracle q' n
  end.

Definition world_initiating : World :=
  mkWorld running_action (set_ms_boot_complete_time_ms 1000 empty_stats)
          oracle_initiating [] [] [].

(** The service reports [Merging] to a running instance whose handle still
    tracks task 4; the message loop refuses every task. *)
Definition world_merging_tracked : World :=
  mkWorld (set_scheduled_task_ (Some 4) running_action) empty_stats
          (oracle_reporting [InvokeProgress] (UpdateState_raw Merging)) [] [] [].

(** An instance that fetched its recorder in an earlier start and was
    suspended, on a device whose Virtual A/B flag now reads disabled. *)
Definition world_resumed_without_virtual_ab : World :=
  mkWorld (set_merge_stats_ true (CleanupPreviousUpdateAction true true true false))
          empty_stats quiet_oracle [] [] [].

(** The recorder holds the state [MergeCompleted] and [Finish] gives a
    merge that took 1200 ms. *)
Definition oracle_finishing (q : Query) (n : nat) : Resp q :=
  match q return Resp q with
  | merge_stats_Finish => Some (mkMergeResult 1200 0 4096 false 8192 8192 false false false)
  | q' => quiet_oracle q' n
  end.

Definition world_merge_finished : World :=
  mkWorld running_action (set_ms_state (UpdateState_raw MergeCompleted) empty_stats)
          oracle_finishing [] [] [].

(** * Properties *)

(** ** Basic facts *)

(** Projections of an updated world. *)
Lemma act_with_act f w : act (with_act f w) = f (act w).
Proof. destruct w; reflexivity. Qed.
Lemma stats_with_act f w : stats (with_act f w) = stats w.
Proof. destruct w; reflexivity. Qed.
Lemma oracle_with_act f w : oracle (with_act f w) = oracle w.
Proof. destruct w; reflexivity. Qed.
Lemma asked_log_with_act f w : asked_log (with_act f w) = asked_log w.
Proof. destruct w; reflexivity. Qed.
Lemma calls_with_act f w : calls (with_act f w) = calls w.
Proof. destruct w; reflexivity. Qed.
Lemma logs_with_act f w : logs (with_act f w) = logs w.
Proof. destruct w; reflexivity. Qed.
Lemma act_with_stats f w : act (with_stats f w) = act w.
Proof. destruct w; reflexivity. Qed.
Lemma stats_with_stats f w : stats (with_stats f w) = f (stats w).
Proof. destruct w; reflexivity. Qed.
Lemma oracle_with_stats f w : oracle (with_stats f w) = oracle w.
Proof. destruct w; reflexivity. Qed.
Lemma asked_log_with_stats f w : asked_log (with_stats f w) = asked_log w.
Proof. destruct w; reflexivity. Qed.
Lemma calls_with_stats f w : calls (with_stats f w) = calls w.
Proof. destruct w; reflexivity. Qed.
Lemma logs_with_stats f w : logs (with_stats f w) = logs w.
Proof. destruct w; reflexivity. Qed.
Lemma act_with_call x w : act (with_call x w) = act w.
Proof. destruct w; reflexivity. Qed.
Lemma stats_with_call x w : stats (with_call x w) = stats w.
Proof. destruct w; reflexivity. Qed.
Lemma oracle_with_call x w : oracle (with_call x w) = oracle w.
Proof. destruct w; reflexivity. Qed.
Lemma asked_log_with_call x w : asked_log (with_call x w) = asked_log w.
Proof. destruct w; reflexivity. Qed.
Lemma calls_with_call x w : calls (with_call x w) = calls w ++ [x].
Proof. destruct w; reflexivity. Qed.
Lemma logs_with_call x w : logs (with_call x w) = logs w.
Proof. destruct w; reflexivity. Qed.
Lemma act_with_log x w : act (with_log x w) = act w.
Proof. destruct w; reflexivity. Qed.
Lemma stats_with_log x w : stats (with_log x w) = stats w.
Proof. destruct w; reflexivity. Qed.
Lemma oracle_with_log x w : oracle (with_log x w) = oracle w.
Proof. destruct w; reflexivity. Qed.
Lemma asked_log_with_log x w : asked_log (with_log x w) = asked_log w.
Proof. destruct w; reflexivity. Qed.
Lemma calls_with_log x w : calls (with_log x w) = calls w.
Proof. destruct w; reflexivity. Qed.
Lemma logs_with_log x w : logs (with_log x w) = logs w ++ [x].
Proof. destruct w; reflexivity. Qed.
Lemma act_with_asked q w : act (with_asked q w) = act w.
Proof. destruct w; reflexivity. Qed.
Lemma stats_with_asked q w : stats (with_asked q w) = stats w.
Proof. destruct w; reflexivity. Qed.
Lemma oracle_with_asked q w : oracle (with_asked q w) = oracle w.
Proof. destruct w; reflexivity. Qed.
Lemma asked_log_with_asked q w : asked_log (with_asked q w) = q :: asked_log w.
Proof. destruct w; reflexivity. Qed.
Lemma calls_with_asked q w : calls (with_asked q w) = calls w.
Proof. destruct w; reflexivity. Qed.
Lemma logs_with_asked q w : logs (with_asked q w) = logs w.
Proof. destruct w; reflexivity. Qed.
Lemma asked_with_asked q w q' :
  asked (with_asked q w) q' = if Query_eqb q q' then S (asked w q') else asked w q'.
Proof. destruct w; reflexivity. Qed.
Lemma asked_with_act f w q' : asked (with_act f w) q' = asked w q'.
Proof. destruct w; reflexivity. Qed.
Lemma asked_with_stats f w q' : asked (with_stats f w) q' = asked w q'.
Proof. destruct w; reflexivity. Qed.
Lemma asked_with_call x w q' : asked (with_call x w) q' = asked w q'.
Proof. destruct w; reflexivity. Qed.
Lemma asked_with_log x w q' : asked (with_log x w) q' = asked w q'.
Proof. destruct w; reflexivity. Qed.
Create Rewrite HintDb world.
#[global] Hint Rewrite
  act_with_act stats_with_act oracle_with_act asked_log_with_act
  calls_with_act logs_with_act act_with_stats stats_with_stats
  oracle_with_stats asked_log_with_stats calls_with_stats logs_with_stats
  act_with_call stats_with_call oracle_with_call asked_log_with_call
  calls_with_call logs_with_call act_with_log stats_with_log
  oracle_with_log asked_log_with_log calls_with_log logs_with_log
  act_with_asked stats_with_asked oracle_with_asked asked_log_with_asked
  calls_with_asked logs_with_asked asked_with_act asked_with_stats
  asked_with_call asked_with_log : world.

Lemma since_app (w w' : World) (l : list Call) :
  calls w' = calls w ++ l -> since w w' = l.
Proof.
  intros H. unfold since. rewrite H.
  rewrite skipn_app, skipn_all, Nat.sub_diag. reflexivity.
Qed.

Lemma forallb_flat_map_nil {A B} (p : A -> bool) (f : A -> list B) (l : list A) :
  (forall x, p x = true -> f x = []) -> forallb p l = true -> flat_map f l = [].
Proof.
  intros Hp. induction l as [|x l IH]; simpl; intros H; [reflexivity|].
  apply andb_true_iff in H. destruct H as [Hx Hl].
  rewrite (Hp x Hx), (IH Hl). reflexivity.
Qed.

Lemma forallb_existsb_false {A} (p r : A -> bool) (l : list A) :
  (forall x, p x = true -> r x = false) -> forallb p l = true -> existsb r l = false.
Proof.
  intros Hp. induction l as [|x l IH]; simpl; intros H; [reflexivity|].
  apply andb_true_iff in H. destruct H as [Hx Hl].
  rewrite (Hp x Hx), (IH Hl). reflexivity.
Qed.

Lemma teardown_quiet (l : list Call) :
  forallb is_teardown l = true ->
  completions l = [] /\ marked_slots l = [] /\ posted_tasks l = [] /\
  failure_code_writes l = [] /\ existsb is_reject l = false.
Proof.
  intros H. repeat split;
    (eapply forallb_flat_map_nil || eapply forallb_existsb_false); try exact H;
    intros [q|c]; try destruct q; try destruct c; simpl; congruence.
Qed.

Lemma callbacks_quiet (l : list Call) :
  forallb is_callback_call l = true ->
  completions l = [] /\ marked_slots l = [] /\ posted_tasks l = [] /\
  failure_code_writes l = [].
Proof.
  intros H. repeat split; eapply forallb_flat_map_nil; try exact H;
    intros [q|c]; try destruct q; try destruct c; simpl; congruence.
Qed.

(** ** Symbolic execution *)

Ltac unfold_monad :=
  unfold bind, tell, ask, gets, gets_stats, modify, modify_stats, LOG, LOG_num, CHECK,
    ret, next, asked,
    IsScheduled in *.

(** Case analysis on what the code branches on (never on an outcome). *)
Ltac case_split :=
  repeat match goal with
         | |- context [match ?x with _ => _ end] =>
             lazymatch x with
             | context [match ?y with _ => _ end] => fail
             | _ =>
                 lazymatch type of x with
                 | Outcome _ => fail
                 | _ => destruct x eqn:?; simpl
                 end
             end
         end.

Ltac solve_frame :=
  let q := fresh "q" in
  let Hq := fresh "Hq" in
  intros q Hq; unfold teardown_query, callback_query in Hq; unfold asked in *;
  destruct q; simpl in *; try congruence; try reflexivity.

Ltac split_steps_to tac :=
  split; [tac | split; [tac | split; [tac | split; [solve_frame | tac]]]].

(** The completion hook: the action stops, the handle is cleared, the
    metadata volume is released; nothing else of the instance changes. *)
Lemma processor_ActionComplete_spec rec ds code w :
  exists w' added,
    processor_ActionComplete rec ds code w = Done tt w' /\
    steps_to w w' (stopped (act w)) (stats w)
             (Did (ActionComplete code) :: added) teardown_query /\
    forallb is_teardown added = true.
Proof.
  destruct w as [a s o ak c l]. destruct a as [p b sn d r cf lp st md ms].
  unfold processor_ActionComplete, ActionCompleted, StopActionInternal,
    ReportMergeStats, scheduled_task_Cancel.
  unfold_monad. simpl. case_split.
  all: eexists; eexists; (split; [reflexivity|]); unfold steps_to, stopped; simpl.
  all: rewrite <- ?app_assoc; simpl.
  all: split; [split_steps_to reflexivity | reflexivity].
Qed.

(** Run the completion hook at the end of a branch. *)
Ltac finish_completion :=
  match goal with
  | |- context [processor_ActionComplete ?r ?d ?c ?W] =>
      let w' := fresh "w'" in
      let td := fresh "td" in
      let Hfin := fresh "Hfin" in
      let Hst2 := fresh "Hst2" in
      let Htd := fresh "Htd" in
      destruct (processor_ActionComplete_spec r d c W) as (w' & td & Hfin & Hst2 & Htd);
      rewrite Hfin; exists w';
      pose proof (teardown_quiet _ Htd) as (Htd1 & Htd2 & Htd3 & Htd4 & Htd5)
  end.
Ltac finish_with_completion := finish_completion; (split; [reflexivity|]).

(** ** The service callbacks *)

Lemma OnMergePercentageUpdate_ran w :
  exists w1 added,
    (b <- OnMergePercentageUpdate ;; tell (OnMergePercentageUpdate_returned b)) w
      = Done tt w1 /\
    callbacks_ran w w1 added.
Proof.
  destruct w as [a s o ak c l]. destruct a as [p b sn d r cf lp st md ms].
  unfold OnMergePercentageUpdate. unfold_monad. simpl. case_split.
  all: eexists; eexists; (split; [reflexivity|]);
    unfold callbacks_ran, steps_to; simpl.
  all: rewrite <- ?app_assoc; simpl.
  all: split; [split_steps_to ltac:(try reflexivity) | reflexivity].
  all: simpl; rewrite orb_false_r; reflexivity.
Qed.

Lemma BeforeCancel_ran w :
  exists w1 added,
    (b <- BeforeCancel ;; tell (BeforeCancel_returned b)) w = Done tt w1 /\
    callbacks_ran w w1 added.
Proof.
  destruct w as [a s o ak c l]. destruct a as [p b sn d r cf lp st md ms].
  unfold BeforeCancel. unfold_monad. simpl. case_split.
  all: eexists; eexists; (split; [reflexivity|]);
    unfold callbacks_ran, steps_to; simpl.
  all: rewrite <- ?app_assoc; simpl.
  all: split; [split_steps_to ltac:(try reflexivity) | reflexivity].
  all: simpl; rewrite ?orb_false_r, ?orb_true_r; reflexivity.
Qed.

Lemma callbacks_ran_refl w : callbacks_ran w w [].
Proof.
  destruct w as [a s o ak c l]. destruct a.
  unfold callbacks_ran, steps_to; simpl. rewrite orb_false_r, app_nil_r.
  repeat split; reflexivity.
Qed.

Lemma callbacks_ran_trans w w1 w2 l1 l2 :
  callbacks_ran w w1 l1 -> callbacks_ran w1 w2 l2 -> callbacks_ran w w2 (l1 ++ l2).
Proof.
  unfold callbacks_ran, steps_to.
  intros [(Ha1 & Hs1 & Ho1 & Hk1 & Hc1) Hf1] [(Ha2 & Hs2 & Ho2 & Hk2 & Hc2) Hf2].
  split; [|rewrite forallb_app, Hf1, Hf2; reflexivity].
  split; [|split; [congruence | split; [congruence | split]]].
  - rewrite Ha2. rewrite Ha1 at 1 2. simpl.
    rewrite existsb_app, orb_assoc. reflexivity.
  - intros q Hq. rewrite (Hk2 q Hq). apply Hk1, Hq.
  - rewrite Hc2, Hc1, app_assoc. reflexivity.
Qed.

Lemma bind_assoc {A B C} (m : M A) (k : A -> M B) (h : B -> M C) w :
  bind (bind m k) h w = bind m (fun a => bind (k a) h) w.
Proof. unfold bind. destruct (m w); reflexivity. Qed.

Lemma bind_Done {A B} (m : M A) (k : A -> M B) w a w1 :
  m w = Done a w1 -> bind m k w = k a w1.
Proof. unfold bind. intros ->. reflexivity. Qed.

(** Callbacks always return to the service, and leave the instance as
    [callbacks_ran] says. *)
Lemma run_callbacks_spec cbs : forall w,
  exists w1 added, run_callbacks cbs w = Done tt w1 /\ callbacks_ran w w1 added.
Proof.
  induction cbs as [|cb rest IH]; intros w.
  - exists w, []. split; [reflexivity | apply callbacks_ran_refl].
  - destruct cb.
    + destruct (OnMergePercentageUpdate_ran w) as (w1 & l1 & Hrun & Hran).
      destruct (IH w1) as (w2 & l2 & Hrun2 & Hran2).
      exists w2, (l1 ++ l2). split; [|eapply callbacks_ran_trans; eassumption].
      cbn [run_callbacks].
      rewrite <- Hrun2. rewrite <- (bind_Done _ (fun _ => run_callbacks rest) _ _ _ Hrun).
      rewrite bind_assoc. unfold bind. destruct (OnMergePercentageUpdate w); reflexivity.
    + destruct (BeforeCancel_ran w) as (w1 & l1 & Hrun & Hran).
      destruct (IH w1) as (w2 & l2 & Hrun2 & Hran2).
      exists w2, (l1 ++ l2). split; [|eapply callbacks_ran_trans; eassumption].
      cbn [run_callbacks].
      rewrite <- Hrun2. rewrite <- (bind_Done _ (fun _ => run_callbacks rest) _ _ _ Hrun).
      rewrite bind_assoc. unfold bind. destruct (BeforeCancel w); reflexivity.
Qed.

(** ** The merge-progress handler *)

Lemma WaitForMerge_poll_spec w cbs v :
  next w ProcessUpdateState = (cbs, v) ->
  exists w1 cbcalls,
    WaitForMerge_poll w = Done v w1 /\
    steps_to w w1
      (set_last_percentage_ (last_percentage_ (act w1))
         (set_cancel_failed_ (cancel_failed_ (act w) || existsb is_reject cbcalls)
            (act w)))
      (poll_stats (next w ReadMergeFailureCode) v (stats w))
      (poll_calls (next w ReadMergeFailureCode) cbcalls v)
      poll_queries /\
    forallb is_callback_call cbcalls = true /\
    asked w1 ReadMergeFailureCode = S (asked w ReadMergeFailureCode).
Proof.
  destruct w as [a s o ak c l]. destruct a as [p b sn d r cf lp st md ms].
  unfold next, asked; simpl. intros Hpus.
  unfold WaitForMerge_poll, snapshot_ProcessUpdateState, poll_stats, poll_calls,
    merge_stats_set_merge_failure_code, merge_stats_set_state.
  unfold_monad. simpl.
  destruct (o ReadMergeFailureCode (count_asked ReadMergeFailureCode ak)
            =? MergeFailureCode_Ok) eqn:Hok; simpl; rewrite Hpus; simpl.
  all: match goal with
       | |- context [run_callbacks ?cs ?W] =>
           destruct (run_callbacks_spec cs W) as (w1 & cbcalls & Hrun & Hran & Hcb)
       end.
  all: rewrite Hrun; destruct w1 as [a1 s1 o1 ak1 c1 l1];
    unfold steps_to in Hran; simpl in Hran;
    destruct Hran as (Ha & Hs & Ho & Hk & Hc);
    set (lp1 := last_percentage_ a1) in Ha; clearbody lp1; subst a1 s1 o1 c1.
  all: eexists; exists cbcalls; (split; [reflexivity|]); unfold steps_to; simpl.
  all: unfold asked in *; simpl in *.
  all: split; [|split; [exact Hcb|]].
  all: try (split; [reflexivity | split; [reflexivity | split; [reflexivity | split]]]).
  all: try (rewrite <- ?app_assoc; reflexivity).
  all: try (rewrite (Hk ReadMergeFailureCode eq_refl); reflexivity).
  all: intros q Hq; unfold poll_queries in Hq;
    apply orb_false_iff in Hq; destruct Hq as [Hq Hq2];
    apply orb_false_iff in Hq; destruct Hq as [Hq Hq1];
    rewrite (Hk q Hq); destruct q; simpl in *; congruence.
Qed.

Section Handler.
Variables rec ds : bool.

(** Entering the handler while running: only a log line may precede the
    poll. *)
Lemma WaitForMergeOrSchedule_entry fuel w :
  running_ (act w) = true ->
  exists w0,
    steps_to w w0 (act w) (stats w) [] no_query /\
    WaitForMergeOrSchedule rec ds (S fuel) w =
    (state <- WaitForMerge_poll ;;
     WaitForMerge_switch rec ds
       (InitiateMergeAndWait_body rec ds (WaitForMergeOrSchedule rec ds fuel)) state) w0.
Proof.
  destruct w as [a s o ak c l]. destruct a as [p b sn d r cf lp st md ms].
  simpl. intros ->.
  cbn [WaitForMergeOrSchedule]. unfold AcknowledgeTaskExecuted, TEST_AND_RETURN_running_.
  unfold bind at 1 2. unfold gets at 1. simpl.
  destruct st; simpl; eexists; (split; [|reflexivity]);
    unfold steps_to; simpl; rewrite app_nil_r; repeat split; reflexivity.
Qed.

End Handler.

Lemma steps_to_next w w' a st l qs q :
  steps_to w w' a st l qs -> qs q = false -> next w' q = next w q.
Proof.
  intros (_ & _ & Ho & Hk & _) Hq. unfold next. rewrite Ho, (Hk q Hq). reflexivity.
Qed.

Lemma steps_to_calls w w' a st l qs :
  steps_to w w' a st l qs -> calls w' = calls w ++ l.
Proof. intros (_ & _ & _ & _ & Hc). exact Hc. Qed.

Lemma steps_to_act w w' a st l qs :
  steps_to w w' a st l qs -> act w' = a.
Proof. intros (Ha & _). exact Ha. Qed.

Lemma steps_to_stats w w' a st l qs :
  steps_to w w' a st l qs -> stats w' = st.
Proof. intros (_ & Hs & _). exact Hs. Qed.

Lemma completions_app l1 l2 : completions (l1 ++ l2) = completions l1 ++ completions l2.
Proof. apply flat_map_app. Qed.
Lemma marked_slots_app l1 l2 : marked_slots (l1 ++ l2) = marked_slots l1 ++ marked_slots l2.
Proof. apply flat_map_app. Qed.
Lemma posted_tasks_app l1 l2 : posted_tasks (l1 ++ l2) = posted_tasks l1 ++ posted_tasks l2.
Proof. apply flat_map_app. Qed.
Lemma failure_code_writes_app l1 l2 :
  failure_code_writes (l1 ++ l2) = failure_code_writes l1 ++ failure_code_writes l2.
Proof. apply flat_map_app. Qed.

Lemma poll_calls_quiet c cbcalls v :
  forallb is_callback_call cbcalls = true ->
  completions (poll_calls c cbcalls v) = [] /\
  marked_slots (poll_calls c cbcalls v) = [] /\
  posted_tasks (poll_calls c cbcalls v) = [].
Proof.
  intros H. destruct (callbacks_quiet _ H) as (Hc & Hm & Hp & _).
  unfold poll_calls.
  rewrite !completions_app, !marked_slots_app, !posted_tasks_app.
  change (Asked ProcessUpdateState :: cbcalls ++ [Did (set_state v)])
    with ([Asked ProcessUpdateState] ++ cbcalls ++ [Did (set_state v)]).
  rewrite !completions_app, !marked_slots_app, !posted_tasks_app, Hc, Hm, Hp.
  destruct (c =? MergeFailureCode_Ok); repeat split; reflexivity.
Qed.

Section Branches.
Variables rec ds : bool.

(** Running the handler up to the switch. *)
Lemma WaitForMergeOrSchedule_polls fuel w cbs v :
  running_ (act w) = true ->
  next w ProcessUpdateState = (cbs, v) ->
  exists w1 cbcalls,
    WaitForMergeOrSchedule rec ds (S fuel) w =
    WaitForMerge_switch rec ds
      (InitiateMergeAndWait_body rec ds (WaitForMergeOrSchedule rec ds fuel)) v w1 /\
    steps_to w w1
      (set_last_percentage_ (last_percentage_ (act w1))
         (set_cancel_failed_ (cancel_failed_ (act w) || existsb is_reject cbcalls)
            (act w)))
      (poll_stats (next w ReadMergeFailureCode) v (stats w))
      (poll_calls (next w ReadMergeFailureCode) cbcalls v)
      poll_queries /\
    forallb is_callback_call cbcalls = true /\
    asked w1 ReadMergeFailureCode = S (asked w ReadMergeFailureCode).
Proof.
  intros Hrun Hpus.
  destruct (WaitForMergeOrSchedule_entry rec ds fuel w Hrun) as (w0 & Hst0 & ->).
  assert (Hpus0 : next w0 ProcessUpdateState = (cbs, v)).
  { rewrite (steps_to_next _ _ _ _ _ _ ProcessUpdateState Hst0 eq_refl). exact Hpus. }
  destruct (WaitForMerge_poll_spec w0 cbs v Hpus0) as (w1 & cbcalls & Hpoll & Hst1 & Hcb & Hrm).
  exists w1, cbcalls. rewrite (bind_Done _ _ _ _ _ Hpoll).
  split; [reflexivity|].
  rewrite (steps_to_next _ _ _ _ _ _ ReadMergeFailureCode Hst0 eq_refl) in Hst1.
  destruct Hst0 as (Ha0 & Hs0 & Ho0 & Hk0 & Hc0).
  destruct Hst1 as (Ha1 & Hs1 & Ho1 & Hk1 & Hc1).
  rewrite app_nil_r in Hc0.
  split; [|split; [exact Hcb | rewrite Hrm, (Hk0 _ eq_refl); reflexivity]].
  unfold steps_to. rewrite Ha1, Hs1, Ho1, Hc1, Ha0, Hs0, Ho0, Hc0.
  repeat split; try reflexivity.
  intros q Hq. rewrite (Hk1 q Hq). apply Hk0. reflexivity.
Qed.

End Branches.

Lemma UpdateState_of_raw_Some v s :
  UpdateState_of_raw v = Some s -> v = UpdateState_raw s.
Proof.
  destruct v as [|p|p]; simpl; try discriminate.
  - intros [= <-]. reflexivity.
  - do 3 (try destruct p as [p|p|]); simpl; try discriminate;
      intros [= <-]; reflexivity.
Qed.

Lemma UpdateState_of_raw_raw s : UpdateState_of_raw (UpdateState_raw s) = Some s.
Proof. destruct s; reflexivity. Qed.

Lemma UpdateState_of_raw_None v :
  (forall s, v <> UpdateState_raw s) -> UpdateState_of_raw v = None.
Proof.
  intros H. destruct (UpdateState_of_raw v) as [s|] eqn:E; [|reflexivity].
  apply UpdateState_of_raw_Some in E. destruct (H s E).
Qed.

Section MergeStates.
Variables kIsRecovery UE_DISABLE_STATS : bool.

(** C7.  When [ProcessUpdateState] reports [MergeCompleted], the handler
    marks unbootable the slot [1 - current] (in unsigned arithmetic; for the
    two slots 0 and 1 this is the other slot), marks it exactly once, and
    completes the action with [kSuccess]. *)
Theorem MergeCompleted_marks_inactive_slot_once fuel w cbs :
  running_ (act w) = true ->
  next w ProcessUpdateState = (cbs, UpdateState_raw MergeCompleted) ->
  exists w',
    WaitForMergeOrSchedule kIsRecovery UE_DISABLE_STATS (S fuel) w = Done tt w' /\
    marked_slots (since w w') = [wrap32 (1 - next w GetCurrentSlot)] /\
    completions (since w w') = [kSuccess] /\
    (0 <= next w GetCurrentSlot <= 1 ->
     wrap32 (1 - next w GetCurrentSlot) = 1 - next w GetCurrentSlot).
Proof.
  intros Hrun Hpus.
  destruct (WaitForMergeOrSchedule_polls kIsRecovery UE_DISABLE_STATS fuel w cbs _ Hrun Hpus)
    as (w1 & cbcalls & -> & Hst1 & Hcb & _).
  pose proof (steps_to_next _ _ _ _ _ _ GetCurrentSlot Hst1 eq_refl) as Hslot.
  pose proof (steps_to_calls _ _ _ _ _ _ Hst1) as Hc1.
  destruct (poll_calls_quiet (next w ReadMergeFailureCode) cbcalls
              (UpdateState_raw MergeCompleted) Hcb) as (Hq1 & Hq2 & Hq3).
  unfold WaitForMerge_switch; simpl. unfold_monad; simpl.
  finish_with_completion.
  apply steps_to_calls in Hst2. simpl in Hst2. autorewrite with world in Hst2. rewrite Hc1 in Hst2.
  rewrite <- !app_assoc in Hst2. rewrite (since_app _ _ _ Hst2).
  rewrite !marked_slots_app, !completions_app, Hq1, Hq2. simpl.
  rewrite Htd1, Htd2. unfold next in Hslot. rewrite Hslot.
  repeat split; try reflexivity.
  intros Hs. unfold wrap32, next in *. apply Z.mod_small. lia.
Qed.

(** C1.  A value reported by [ProcessUpdateState] that is none of the eight
    members of [UpdateState] takes the handler to [LOG(FATAL)]: the process
    aborts, and the handler has made no completion call of any code. *)
Theorem unrecognized_state_aborts_without_completion fuel w cbs v :
  running_ (act w) = true ->
  next w ProcessUpdateState = (cbs, v) ->
  (forall s, v <> UpdateState_raw s) ->
  exists w',
    WaitForMergeOrSchedule kIsRecovery UE_DISABLE_STATS (S fuel) w = Abort w' /\
    completions (since w w') = [] /\
    In (mkLog FATAL "SnapshotManager::ProcessUpdateState returns " (Some v)) (logs w').
Proof.
  intros Hrun Hpus Hv.
  destruct (WaitForMergeOrSchedule_polls kIsRecovery UE_DISABLE_STATS fuel w cbs _ Hrun Hpus)
    as (w1 & cbcalls & -> & Hst1 & Hcb & _).
  pose proof (steps_to_calls _ _ _ _ _ _ Hst1) as Hc1.
  destruct (poll_calls_quiet (next w ReadMergeFailureCode) cbcalls v Hcb) as (Hq1 & _).
  unfold WaitForMerge_switch. rewrite (UpdateState_of_raw_None v Hv).
  unfold LOG_num. eexists. split; [reflexivity|].
  split.
  - erewrite since_app by (rewrite calls_with_log; exact Hc1). exact Hq1.
  - rewrite logs_with_log. apply in_or_app. right. left. reflexivity.
Qed.

(** C8.  When [ProcessUpdateState] reports [MergeFailed], the handler reads
    the failure code again (the read after the one made on entry), writes
    that value to the stats recorder, and then completes the action with
    [kDeviceCorrupted]; no other completion is made. *)
Theorem MergeFailed_records_fresh_code_then_DeviceCorrupted fuel w cbs :
  running_ (act w) = true ->
  next w ProcessUpdateState = (cbs, UpdateState_raw MergeFailed) ->
  exists w' pre post,
    WaitForMergeOrSchedule kIsRecovery UE_DISABLE_STATS (S fuel) w = Done tt w' /\
    since w w' =
      pre ++ [Asked ReadMergeFailureCode;
              Did (set_merge_failure_code
                     (oracle w ReadMergeFailureCode (S (asked w ReadMergeFailureCode))));
              Did (ActionComplete kDeviceCorrupted)] ++ post /\
    completions pre = [] /\ completions post = [] /\
    ms_merge_failure_code (stats w') =
      oracle w ReadMergeFailureCode (S (asked w ReadMergeFailureCode)).
Proof.
  intros Hrun Hpus.
  destruct (WaitForMergeOrSchedule_polls kIsRecovery UE_DISABLE_STATS fuel w cbs _ Hrun Hpus)
    as (w1 & cbcalls & -> & Hst1 & Hcb & Hrm).
  pose proof (steps_to_calls _ _ _ _ _ _ Hst1) as Hc1.
  destruct (poll_calls_quiet (next w ReadMergeFailureCode) cbcalls
              (UpdateState_raw MergeFailed) Hcb) as (Hq1 & Hq2 & Hq3).
  assert (Ho1 : oracle w1 = oracle w) by (destruct Hst1 as (_ & _ & Ho & _); exact Ho).
  unfold WaitForMerge_switch; simpl.
  unfold merge_stats_set_merge_failure_code. unfold_monad; simpl.
  match goal with
  | |- context [processor_ActionComplete ?r ?d ?c ?W] =>
      destruct (processor_ActionComplete_spec r d c W) as (w' & td & Hfin & Hst2 & Htd)
  end.
  rewrite Hfin. destruct (teardown_quiet _ Htd) as (Htd1 & _).
  exists w', (poll_calls (next w ReadMergeFailureCode) cbcalls (UpdateState_raw MergeFailed)), td.
  split; [reflexivity|].
  pose proof (steps_to_stats _ _ _ _ _ _ Hst2) as Hs2.
  apply steps_to_calls in Hst2. simpl in Hst2, Hs2.
  autorewrite with world in Hst2, Hs2. rewrite Hc1 in Hst2.
  rewrite <- !app_assoc in Hst2. simpl in Hst2.
  rewrite Hrm, Ho1 in Hst2, Hs2.
  rewrite (since_app _ _ _ Hst2), Hs2.
  repeat split; assumption || reflexivity.
Qed.

(** The [Cancelled] branch: the completion code is [kError] exactly when the
    sticky flag is set, that is when it was set on entry or a run of the
    validation callback during this call rejected. *)
Lemma Cancelled_completion fuel w cbs :
  running_ (act w) = true ->
  next w ProcessUpdateState = (cbs, UpdateState_raw Cancelled) ->
  exists w',
    WaitForMergeOrSchedule kIsRecovery UE_DISABLE_STATS (S fuel) w = Done tt w' /\
    completions (since w w') =
      [if cancel_failed_ (act w) || existsb is_reject (since w w')
       then kError else kSuccess] /\
    cancel_failed_ (act w') = cancel_failed_ (act w) || existsb is_reject (since w w') /\
    calls w' = calls w ++ since w w'.
Proof.
  intros Hrun Hpus.
  destruct (WaitForMergeOrSchedule_polls kIsRecovery UE_DISABLE_STATS fuel w cbs _ Hrun Hpus)
    as (w1 & cbcalls & -> & Hst1 & Hcb & _).
  pose proof (steps_to_calls _ _ _ _ _ _ Hst1) as Hc1.
  pose proof (steps_to_act _ _ _ _ _ _ Hst1) as Ha1.
  destruct (poll_calls_quiet (next w ReadMergeFailureCode) cbcalls
              (UpdateState_raw Cancelled) Hcb) as (Hq1 & Hq2 & Hq3).
  unfold WaitForMerge_switch; simpl. unfold_monad; simpl.
  finish_with_completion.
  pose proof (steps_to_act _ _ _ _ _ _ Hst2) as Ha2.
  apply steps_to_calls in Hst2. simpl in Hst2. autorewrite with world in Hst2. rewrite Hc1 in Hst2.
  rewrite <- !app_assoc in Hst2. pose proof (since_app _ _ _ Hst2) as Hsince.
  assert (Hrej : existsb is_reject (since w w') = existsb is_reject cbcalls).
  { rewrite Hsince. unfold poll_calls. rewrite !existsb_app. simpl.
    rewrite existsb_app. simpl. rewrite Htd5, !orb_false_r.
    match goal with |- context [if ?b then _ else _] => destruct b end; reflexivity. }
  split; [|split].
  - rewrite Hrej, Hsince, !completions_app, Hq1. simpl. rewrite Htd1.
    rewrite Ha1. reflexivity.
  - rewrite Hrej, Ha2. simpl. rewrite Ha1. reflexivity.
  - rewrite Hsince. exact Hst2.
Qed.

End MergeStates.

(** ** Properties kept by every step of the instance's life *)

Section Preservation.
Variable I : World -> Prop.
Hypothesis I_log : forall l w, I w -> I (with_log l w).
Hypothesis I_ask : forall q w, I w -> I (with_asked q (with_call (Asked q) w)).
Hypothesis I_tell : forall c w, is_reject (Did c) = false -> I w -> I (with_call (Did c) w).
Hypothesis I_act : forall f w,
  (forall a, cancel_failed_ (f a) = cancel_failed_ a) -> I w -> I (with_act f w).
Hypothesis I_stats : forall f w, I w -> I (with_stats f w).
Hypothesis I_BeforeCancel :
  preserves I (b <- BeforeCancel ;; tell (BeforeCancel_returned b)).

Lemma preserves_ret {A} (a : A) : preserves I (ret a).
Proof. intros w H. exact H. Qed.

Lemma preserves_bind {A B} (m : M A) (k : A -> M B) :
  preserves I m -> (forall a, preserves I (k a)) -> preserves I (bind m k).
Proof.
  intros Hm Hk w H. unfold bind. specialize (Hm w H).
  destruct (m w) as [a w1|w1|w1]; simpl in *; [apply Hk; exact Hm | exact Hm | exact Hm].
Qed.

Lemma preserves_assoc {A B C} (m : M A) (k : A -> M B) (h : B -> M C) :
  preserves I (bind (bind m k) h) -> preserves I (bind m (fun a => bind (k a) h)).
Proof. intros Hp w H. rewrite <- bind_assoc. apply Hp, H. Qed.

Lemma preserves_gets {A} (f : Action -> A) : preserves I (gets f).
Proof. intros w H. exact H. Qed.

Lemma preserves_gets_stats {A} (f : MergeStats -> A) : preserves I (gets_stats f).
Proof. intros w H. exact H. Qed.

Lemma preserves_modify f :
  (forall a, cancel_failed_ (f a) = cancel_failed_ a) -> preserves I (modify f).
Proof. intros Hf w H. apply I_act; assumption. Qed.

Lemma preserves_modify_stats f : preserves I (modify_stats f).
Proof. intros w H. apply I_stats, H. Qed.

Lemma preserves_ask q : preserves I (ask q).
Proof. intros w H. apply I_ask, H. Qed.

Lemma preserves_tell c : is_reject (Did c) = false -> preserves I (tell c).
Proof. intros Hc w H. apply I_tell; assumption. Qed.

Lemma preserves_LOG s msg : preserves I (LOG s msg).
Proof. intros w H. unfold LOG. destruct s; simpl; apply I_log, H. Qed.

Lemma preserves_LOG_num s msg n : preserves I (LOG_num s msg n).
Proof. intros w H. unfold LOG_num. destruct s; simpl; apply I_log, H. Qed.

Lemma preserves_CHECK b what : preserves I (CHECK b what).
Proof. destruct b; [apply preserves_ret | apply preserves_LOG]. Qed.

Lemma preserves_out_of_fuel {A} : preserves I (@out_of_fuel A).
Proof. intros w H. exact H. Qed.

Create HintDb pres discriminated.
#[local] Hint Resolve preserves_gets preserves_gets_stats preserves_modify_stats
  preserves_ask preserves_LOG preserves_LOG_num preserves_CHECK
  preserves_out_of_fuel : pres.

(** One step of a preservation proof along the structure of the code. *)
Ltac pres_step :=
  first
    [ apply @preserves_ret
    | apply @preserves_bind; [|intros ?]
    | solve [auto with pres]
    | apply preserves_modify; intros []; reflexivity
    | apply preserves_tell; reflexivity
    | match goal with
      | |- preserves _ (if ?b then _ else _) => destruct b
      | |- preserves _ (match ?x with _ => _ end) => destruct x
      end ].
Ltac pres := cbv zeta; repeat pres_step.

Lemma preserves_scheduled_task_PostTask cb d : preserves I (scheduled_task_PostTask cb d).
Proof. unfold scheduled_task_PostTask. pres. Qed.

Lemma preserves_scheduled_task_Cancel : preserves I scheduled_task_Cancel.
Proof. unfold scheduled_task_Cancel. pres. Qed.

Lemma preserves_merge_stats_setters :
  (forall v, preserves I (merge_stats_set_state v)) /\
  (forall c, preserves I (merge_stats_set_merge_failure_code c)) /\
  (forall t, preserves I (merge_stats_set_boot_complete_time_ms t)) /\
  (forall t, preserves I (merge_stats_set_boot_complete_to_merge_start_time_ms t)) /\
  (forall fp, preserves I (merge_stats_set_source_build_fingerprint fp)).
Proof.
  repeat split; intros;
    unfold merge_stats_set_state, merge_stats_set_merge_failure_code,
      merge_stats_set_boot_complete_time_ms,
      merge_stats_set_boot_complete_to_merge_start_time_ms,
      merge_stats_set_source_build_fingerprint; pres.
Qed.

Lemma preserves_set_state v : preserves I (merge_stats_set_state v).
Proof. apply preserves_merge_stats_setters. Qed.
Lemma preserves_set_merge_failure_code c :
  preserves I (merge_stats_set_merge_failure_code c).
Proof. apply preserves_merge_stats_setters. Qed.
Lemma preserves_set_boot_complete_time_ms t :
  preserves I (merge_stats_set_boot_complete_time_ms t).
Proof. apply preserves_merge_stats_setters. Qed.
Lemma preserves_set_boot_complete_to_merge_start_time_ms t :
  preserves I (merge_stats_set_boot_complete_to_merge_start_time_ms t).
Proof. apply preserves_merge_stats_setters. Qed.
Lemma preserves_set_source_build_fingerprint fp :
  preserves I (merge_stats_set_source_build_fingerprint fp).
Proof. apply preserves_merge_stats_setters. Qed.

#[local] Hint Resolve preserves_scheduled_task_PostTask preserves_scheduled_task_Cancel
  preserves_set_state preserves_set_merge_failure_code
  preserves_set_boot_complete_time_ms
  preserves_set_boot_complete_to_merge_start_time_ms
  preserves_set_source_build_fingerprint : pres.

Lemma preserves_TEST_AND_RETURN_running_ rest :
  preserves I rest -> preserves I (TEST_AND_RETURN_running_ rest).
Proof. intros H. unfold TEST_AND_RETURN_running_. pres. Qed.

Lemma preserves_AcknowledgeTaskExecuted : preserves I AcknowledgeTaskExecuted.
Proof. unfold AcknowledgeTaskExecuted. pres. Qed.

Lemma preserves_StopActionInternal : preserves I StopActionInternal.
Proof. unfold StopActionInternal. pres. Qed.

#[local] Hint Resolve preserves_AcknowledgeTaskExecuted preserves_StopActionInternal : pres.

Variables rec ds : bool.

Lemma preserves_ReportMergeStats : preserves I (ReportMergeStats rec ds).
Proof. unfold ReportMergeStats. pres. Qed.
#[local] Hint Resolve preserves_ReportMergeStats : pres.

Lemma preserves_ActionCompleted code : preserves I (ActionCompleted rec ds code).
Proof. unfold ActionCompleted. pres. Qed.
#[local] Hint Resolve preserves_ActionCompleted : pres.

Lemma preserves_processor_ActionComplete code :
  preserves I (processor_ActionComplete rec ds code).
Proof. unfold processor_ActionComplete. pres. Qed.
#[local] Hint Resolve preserves_processor_ActionComplete : pres.

Lemma preserves_CheckTaskScheduled name : preserves I (CheckTaskScheduled rec ds name).
Proof. unfold CheckTaskScheduled. pres. Qed.
#[local] Hint Resolve preserves_CheckTaskScheduled : pres.

Lemma preserves_Schedule :
  preserves I (ScheduleWaitBootCompleted rec ds) /\
  preserves I (ScheduleWaitMarkBootSuccessful rec ds) /\
  preserves I (ScheduleWaitForMerge rec ds).
Proof.
  repeat split;
    unfold ScheduleWaitBootCompleted, ScheduleWaitMarkBootSuccessful, ScheduleWaitForMerge;
    apply preserves_TEST_AND_RETURN_running_; pres.
Qed.

Lemma preserves_OnMergePercentageUpdate : preserves I OnMergePercentageUpdate.
Proof. unfold OnMergePercentageUpdate. pres. Qed.
#[local] Hint Resolve preserves_OnMergePercentageUpdate : pres.

Lemma preserves_run_callbacks cbs : preserves I (run_callbacks cbs).
Proof.
  induction cbs as [|[] rest IH]; cbn [run_callbacks].
  - apply preserves_ret.
  - pres.
  - apply preserves_assoc. apply preserves_bind; [exact I_BeforeCancel | intros _; exact IH].
Qed.
#[local] Hint Resolve preserves_run_callbacks : pres.

Lemma preserves_WaitForMerge_poll : preserves I WaitForMerge_poll.
Proof. unfold WaitForMerge_poll, snapshot_ProcessUpdateState. pres. Qed.
#[local] Hint Resolve preserves_WaitForMerge_poll : pres.

Lemma preserves_InitiateMergeAndWait_body wait :
  preserves I wait -> preserves I (InitiateMergeAndWait_body rec ds wait).
Proof.
  intros H. unfold InitiateMergeAndWait_body.
  apply preserves_TEST_AND_RETURN_running_. pres.
Qed.

Lemma preserves_WaitForMerge_switch k state :
  preserves I k -> preserves I (WaitForMerge_switch rec ds k state).
Proof.
  intros H. unfold WaitForMerge_switch.
  destruct (UpdateState_of_raw state) as [[]|]; pres.
Qed.

Lemma preserves_WaitForMergeOrSchedule fuel :
  preserves I (WaitForMergeOrSchedule rec ds fuel).
Proof.
  induction fuel as [|fuel IH]; cbn [WaitForMergeOrSchedule].
  - apply preserves_out_of_fuel.
  - pres. apply preserves_WaitForMerge_switch, preserves_InitiateMergeAndWait_body, IH.
Qed.
#[local] Hint Resolve preserves_WaitForMergeOrSchedule : pres.

Lemma preserves_StartMerge fuel : preserves I (StartMerge rec ds fuel).
Proof. unfold StartMerge. pres. Qed.
#[local] Hint Resolve preserves_StartMerge : pres.

Lemma preserves_CheckForMergeDelay fuel : preserves I (CheckForMergeDelay rec ds fuel).
Proof. unfold CheckForMergeDelay. pres. Qed.
#[local] Hint Resolve preserves_CheckForMergeDelay : pres.

Lemma preserves_CheckSlotMarkedSuccessfulOrSchedule fuel :
  preserves I (CheckSlotMarkedSuccessfulOrSchedule rec ds fuel).
Proof.
  unfold CheckSlotMarkedSuccessfulOrSchedule. pres.
Qed.
#[local] Hint Resolve preserves_CheckSlotMarkedSuccessfulOrSchedule : pres.

Lemma preserves_WaitBootCompletedOrSchedule fuel :
  preserves I (WaitBootCompletedOrSchedule rec ds fuel).
Proof.
  unfold WaitBootCompletedOrSchedule. pres.
Qed.
#[local] Hint Resolve preserves_WaitBootCompletedOrSchedule : pres.

Lemma preserves_StartActionInternal fuel : preserves I (StartActionInternal rec ds fuel).
Proof. unfold StartActionInternal. pres. Qed.
#[local] Hint Resolve preserves_StartActionInternal : pres.

Lemma preserves_run_op fuel op : preserves I (run_op rec ds fuel op).
Proof.
  destruct op; simpl;
    unfold PerformAction, ResumeAction, TerminateProcessing, SuspendAction, run_task;
    pres.
Qed.

Lemma preserves_run_ops fuel ops : preserves I (run_ops rec ds fuel ops).
Proof.
  induction ops as [|op rest IH]; cbn [run_ops].
  - apply preserves_ret.
  - apply preserves_bind; [apply preserves_run_op | intros _; exact IH].
Qed.

End Preservation.

(** ** The sticky cancellation flag over the instance's life *)

Lemma BeforeCancel_keeps_cancel_failed_set :
  preserves cancel_failed_set (b <- BeforeCancel ;; tell (BeforeCancel_returned b)).
Proof.
  intros [a s o ak c l]. destruct a as [p b sn d r cf lp st md ms].
  unfold cancel_failed_set, BeforeCancel. unfold_monad. simpl. intros ->.
  case_split; reflexivity.
Qed.

Lemma BeforeCancel_keeps_tracking :
  preserves cancel_failed_tracks_rejects
            (b <- BeforeCancel ;; tell (BeforeCancel_returned b)).
Proof.
  intros [a s o ak c l]. destruct a as [p b sn d r cf lp st md ms].
  unfold cancel_failed_tracks_rejects, BeforeCancel. unfold_monad. simpl. intros ->.
  case_split; rewrite <- ?app_assoc, !existsb_app; simpl;
    rewrite ?orb_false_r, ?orb_true_r; reflexivity.
Qed.

(** Once set, [cancel_failed_] stays set through every operation on the
    instance and every task that fires. *)
Lemma cancel_failed_is_sticky rec ds fuel ops :
  preserves cancel_failed_set (run_ops rec ds fuel ops).
Proof.
  apply preserves_run_ops; unfold cancel_failed_set.
  - intros l [] H; exact H.
  - intros q [] H; exact H.
  - intros c [] _ H; exact H.
  - intros f [] Hf H; simpl in *. rewrite Hf. exact H.
  - intros f [] H; exact H.
  - exact BeforeCancel_keeps_cancel_failed_set.
Qed.

(** [cancel_failed_] is set exactly when some run of the validation
    callback has rejected. *)
Lemma cancel_failed_tracks rec ds fuel ops :
  preserves cancel_failed_tracks_rejects (run_ops rec ds fuel ops).
Proof.
  apply preserves_run_ops; unfold cancel_failed_tracks_rejects.
  - intros l [] H; exact H.
  - intros q [] H; simpl in *. rewrite H, existsb_app. simpl.
    rewrite orb_false_r. reflexivity.
  - intros c [] Hc H; simpl in *. rewrite H, existsb_app. simpl.
    rewrite Hc, orb_false_r. reflexivity.
  - intros f [] Hf H; simpl in *. rewrite Hf. exact H.
  - intros f [] H; exact H.
  - exact BeforeCancel_keeps_tracking.
Qed.

(** What one run of the validation callback by the snapshot service does:
    it asks for the progress reset and, only when that fails, reads the
    guarded preference; it answers the service with a rejection exactly when
    the run fails, and then sets the sticky flag. *)
Lemma validation_run_spec u :
  exists u',
    run_callbacks [InvokeBeforeCancel] u = Done tt u' /\
    since u u' =
      Asked ResetUpdateProgress ::
      (if next u ResetUpdateProgress then []
       else [Asked (prefs_GetString kPrefsDynamicPartitionMetadataUpdated)])
      ++ [Did (BeforeCancel_returned (negb (validation_fails u)))] /\
    cancel_failed_ (act u') = cancel_failed_ (act u) || validation_fails u.
Proof.
  destruct u as [a s o ak c l]. destruct a as [p b sn d r cf lp st md ms].
  unfold validation_fails, guarded_pref, next, asked; simpl.
  unfold BeforeCancel. unfold_monad. simpl.
  destruct (o ResetUpdateProgress (count_asked ResetUpdateProgress ak)); simpl.
  - eexists; (split; [reflexivity|]); (unfold since; simpl; rewrite <- ?app_assoc, ?skipn_app, ?skipn_all, ?Nat.sub_diag; simpl).
    rewrite orb_false_r. split; reflexivity.
  - destruct (o (prefs_GetString kPrefsDynamicPartitionMetadataUpdated) _) as [v|]; simpl.
    + destruct (String.eqb v EmptyString); simpl.
      all: eexists; (split; [reflexivity|]); (unfold since; simpl; rewrite <- ?app_assoc, ?skipn_app, ?skipn_all, ?Nat.sub_diag; simpl).
      all: rewrite ?orb_false_r, ?orb_true_r; split; reflexivity.
    + eexists; (split; [reflexivity|]); (unfold since; simpl; rewrite <- ?app_assoc, ?skipn_app, ?skipn_all, ?Nat.sub_diag; simpl).
      rewrite orb_false_r. split; reflexivity.
Qed.

(** C3.  A run of the validation callback fails exactly when the progress
    reset fails and the guarded preference is non-empty; it then answers the
    service with a rejection and sets [cancel_failed_].  On an instance that
    has lived through any operations since its construction: when
    [ProcessUpdateState] reports [Cancelled], the action completes with
    [kSuccess] if no run of the validation callback has failed so far, and
    with [kError] if one has; and a set [cancel_failed_] survives every
    later operation. *)
Theorem Cancelled_completion_follows_validation
    rec ds prefs boot_control snapshot delegate st o fuel0 ops w fuel cbs :
  run_ops rec ds fuel0 ops (fresh_world prefs boot_control snapshot delegate st o)
    = Done tt w ->
  running_ (act w) = true ->
  next w ProcessUpdateState = (cbs, UpdateState_raw Cancelled) ->
  (forall u, exists u',
      run_callbacks [InvokeBeforeCancel] u = Done tt u' /\
      since u u' =
        Asked ResetUpdateProgress ::
        (if next u ResetUpdateProgress then []
         else [Asked (prefs_GetString kPrefsDynamicPartitionMetadataUpdated)])
        ++ [Did (BeforeCancel_returned (negb (validation_fails u)))] /\
      cancel_failed_ (act u') = cancel_failed_ (act u) || validation_fails u) /\
  exists w',
    WaitForMergeOrSchedule rec ds (S fuel) w = Done tt w' /\
    completions (since w w') =
      [if existsb is_reject (calls w') then kError else kSuccess] /\
    (forall fuel1 ops1 w1,
        cancel_failed_ (act w1) = true ->
        cancel_failed_ (act (final (run_ops rec ds fuel1 ops1 w1))) = true).
Proof.
  intros Hlife Hrun Hpus.
  split; [exact validation_run_spec|].
  assert (Hinv : cancel_failed_tracks_rejects w).
  { pose proof (cancel_failed_tracks rec ds fuel0 ops
                  (fresh_world prefs boot_control snapshot delegate st o) eq_refl) as H.
    rewrite Hlife in H. exact H. }
  destruct (Cancelled_completion rec ds fuel w cbs Hrun Hpus) as (w' & Hw' & Hcode & Hcf & Hcalls).
  exists w'. split; [exact Hw'|]. split.
  - rewrite Hcode. unfold cancel_failed_tracks_rejects in Hinv. rewrite Hinv.
    rewrite <- existsb_app.
    rewrite Hcalls. reflexivity.
  - intros fuel1 ops1 w1 H. exact (cancel_failed_is_sticky rec ds fuel1 ops1 w1 H).
Qed.

Section Stages.
Variables kIsRecovery UE_DISABLE_STATS : bool.

(** C10.  On entry, between the start of the handler and its switch, the
    recorder's failure code is written only when the code just read is not
    [Ok]: then it becomes that code; when the read returns [Ok] no write is
    made and the field keeps its value. *)
Theorem entry_writes_failure_code_only_when_not_Ok fuel w :
  running_ (act w) = true ->
  exists w1,
    WaitForMergeOrSchedule kIsRecovery UE_DISABLE_STATS (S fuel) w =
    WaitForMerge_switch kIsRecovery UE_DISABLE_STATS
      (InitiateMergeAndWait_body kIsRecovery UE_DISABLE_STATS
         (WaitForMergeOrSchedule kIsRecovery UE_DISABLE_STATS fuel))
      (snd (next w ProcessUpdateState)) w1 /\
    ms_merge_failure_code (stats w1) =
      (if next w ReadMergeFailureCode =? MergeFailureCode_Ok
       then ms_merge_failure_code (stats w)
       else next w ReadMergeFailureCode) /\
    failure_code_writes (since w w1) =
      (if next w ReadMergeFailureCode =? MergeFailureCode_Ok
       then []
       else [next w ReadMergeFailureCode]).
Proof.
  intros Hrun.
  destruct (next w ProcessUpdateState) as [cbs v] eqn:Hpus.
  destruct (WaitForMergeOrSchedule_polls kIsRecovery UE_DISABLE_STATS fuel w cbs v Hrun Hpus)
    as (w1 & cbcalls & Heq & Hst1 & Hcb & _).
  exists w1. split; [exact Heq|].
  rewrite (steps_to_stats _ _ _ _ _ _ Hst1).
  rewrite (since_app _ _ _ (steps_to_calls _ _ _ _ _ _ Hst1)).
  destruct (callbacks_quiet _ Hcb) as (_ & _ & _ & Hw).
  unfold poll_stats, poll_calls.
  rewrite !failure_code_writes_app.
  change (Asked ProcessUpdateState :: cbcalls ++ [Did (set_state v)])
    with ([Asked ProcessUpdateState] ++ cbcalls ++ [Did (set_state v)]).
  rewrite !failure_code_writes_app, Hw.
  destruct (next w ReadMergeFailureCode =? MergeFailureCode_Ok); split; reflexivity.
Qed.


(** C9.  In [InitiateMergeAndWait], when no DSU is running and
    [InitiateMerge] fails, the state is read again and recorded in the
    stats; if it is still [Unverified] the action completes with
    [kSuccess]; for any other state the function goes on as
    [WaitForMergeOrSchedule], having made no completion. *)
Theorem InitiateMerge_failure_rereads_state fuel w :
  running_ (act w) = true ->
  next w (GetBoolProperty "ro.gsid.image_running") = false ->
  next w InitiateMerge = false ->
  (next w GetUpdateState = UpdateState_raw Unverified ->
   exists w' pre post,
     InitiateMergeAndWait kIsRecovery UE_DISABLE_STATS fuel w = Done tt w' /\
     since w w' =
       pre ++ [Asked InitiateMerge; Asked GetUpdateState;
               Did (set_state (UpdateState_raw Unverified));
               Did (ActionComplete kSuccess)] ++ post /\
     completions pre = [] /\ completions post = []) /\
  (next w GetUpdateState <> UpdateState_raw Unverified ->
   exists w2 pre,
     InitiateMergeAndWait kIsRecovery UE_DISABLE_STATS fuel w =
     WaitForMergeOrSchedule kIsRecovery UE_DISABLE_STATS fuel w2 /\
     since w w2 =
       pre ++ [Asked InitiateMerge; Asked GetUpdateState;
               Did (set_state (next w GetUpdateState))] /\
     completions pre = [] /\
     ms_state (stats w2) = next w GetUpdateState /\
     running_ (act w2) = true).
Proof.
  destruct w as [a s o ak c l]. destruct a as [p b sn d r cf lp st md ms].
  unfold next, asked; simpl. intros -> Hdsu Hinit.
  unfold InitiateMergeAndWait, InitiateMergeAndWait_body, TEST_AND_RETURN_running_,
    merge_stats_set_boot_complete_to_merge_start_time_ms,
    merge_stats_set_source_build_fingerprint, merge_stats_set_state.
  unfold_monad. simpl. rewrite Hdsu. simpl.
  set (pre := [Asked (GetBoolProperty "ro.gsid.image_running"); Did UpdateCowStats;
               Asked boot_clock_now;
               Did (set_boot_complete_to_merge_start_time_ms
                      (wrap32 (o boot_clock_now (count_asked boot_clock_now ak)
                               - ms_boot_complete_time_ms s)));
               Asked ReadSourceBuildFingerprint;
               Did (set_source_build_fingerprint
                      (o ReadSourceBuildFingerprint
                         (count_asked ReadSourceBuildFingerprint ak)));
               Asked merge_stats_WriteState]).
  split.
  - intros Hu.
    destruct (o merge_stats_WriteState (count_asked merge_stats_WriteState ak)) eqn:Hws;
      simpl; rewrite Hinit; simpl; rewrite Hu; simpl.
    all: finish_completion; exists pre, td.
    all: apply steps_to_calls in Hst2; simpl in Hst2; autorewrite with world in Hst2; rewrite <- !app_assoc in Hst2.
    all: erewrite since_app by (simpl; exact Hst2).
    all: repeat split; try reflexivity; assumption.
  - intros Hu. apply Z.eqb_neq in Hu.
    destruct (o merge_stats_WriteState (count_asked merge_stats_WriteState ak)) eqn:Hws;
      simpl; rewrite Hinit; simpl; rewrite Hu; simpl.
    all: eexists; exists pre; (split; [reflexivity|]).
    all: unfold since; simpl; rewrite <- !app_assoc, skipn_app, skipn_all, Nat.sub_diag.
    all: repeat split; reflexivity.
Qed.

End Stages.

(** ** The progress callback *)

Lemma digits2_pos_bound m : Z.pos m < 2 ^ Z.pos (digits2_pos m).
Proof.
  induction m as [m IH|m IH|]; simpl digits2_pos.
  - rewrite Pos2Z.inj_succ, Z.pow_succ_r, Pos2Z.inj_xI by lia. lia.
  - rewrite Pos2Z.inj_succ, Z.pow_succ_r, Pos2Z.inj_xO by lia. lia.
  - reflexivity.
Qed.

(** A percentage truncates to an integer between 0 and 100. *)
Lemma trunc_double_percent p :
  is_percentage p -> 0 <= trunc_double p <= 100.
Proof.
  intros [H0 H100]. revert H0 H100.
  rewrite !leb_spec. unfold trunc_double.
  pose proof (Prim2SF_valid p) as Hv.
  change (Prim2SF 0) with (S754_zero false).
  change (Prim2SF 100) with (S754_finite false 7036874417766400 (-46)).
  destruct (Prim2SF p) as [s|s| |s m e]; try (intros; lia).
  unfold SFleb, SFcompare. destruct s; [discriminate|]. intros _.
  unfold SpecFloat.valid_binary, bounded, canonical_mantissa, fexp in Hv.
  apply andb_true_iff in Hv. destruct Hv as [Hc _]. apply Z.eqb_eq in Hc.
  pose proof (digits2_pos_bound m) as Hd.
  destruct (Z.compare_spec e (-46)) as [He|He|He]; try discriminate.
  - subst e. intros Hm.
    assert (Hle : (m <= 7036874417766400)%positive).
    { unfold Pos.le. destruct (Pos.compare_cont Eq m 7036874417766400) eqn:E;
        try discriminate; unfold Pos.compare; rewrite E; discriminate. }
    change (0 <=? -46) with false. cbv iota. change (- -46) with 46.
    apply Pos2Z.pos_le_pos in Hle.
    change (2 ^ 46) with 70368744177664.
    split; [apply Z.div_pos; lia|].
    apply Z.div_le_upper_bound; lia.
  - intros _.
    assert (Hneg : (0 <=? e) = false) by (apply Z.leb_gt; lia).
    rewrite Hneg.
    assert (Hdig : Z.pos (digits2_pos m) <= 53).
    { unfold SpecFloat.emin in Hc. change prec with 53 in Hc. change emax with 1024 in Hc.
      change (IntDef.Z.max) with Z.max in Hc. lia. }
    assert (Hm : Z.pos m < 2 ^ 53).
    { eapply Z.lt_le_trans; [exact Hd|]. apply Z.pow_le_mono_r; lia. }
    assert (Hp : 2 ^ 47 <= 2 ^ (- e)) by (apply Z.pow_le_mono_r; lia).
    assert (Hpos : 0 < 2 ^ (- e)) by (apply Z.pow_pos_nonneg; lia).
    split; [apply Z.div_pos; lia|].
    apply Z.lt_le_incl, Z.div_lt_upper_bound; [exact Hpos|].
    change (2 ^ 53) with (140737488355328 * 64) in Hm.
    change (2 ^ 47) with 140737488355328 in Hp.
    lia.
Qed.

(** On percentages the conversion to [unsigned int] is defined and is the
    truncation. *)
Lemma static_cast_uint_percent p :
  is_percentage p -> static_cast_uint p = trunc_double p.
Proof.
  intros H. apply trunc_double_percent in H.
  unfold static_cast_uint, wrap32. apply Z.mod_small.
  change (2 ^ 32) with 4294967296. lia.
Qed.

(** C5.  For a reported percentage [p] in [0,100], the progress callback
    hands the delegate, when there is one, exactly [p / 100]; it logs, and
    moves the last logged percentage, exactly when the truncated percentage
    is greater than the last logged one; and it returns [false]. *)
Theorem progress_callback_rescales_logs_on_increase_returns_false w :
  is_percentage (next w GetUpdateState_percentage) ->
  exists w',
    OnMergePercentageUpdate w = Done false w' /\
    since w w' =
      Asked GetUpdateState_percentage ::
      (if delegate_ (act w)
       then [Did (OnCleanupProgressUpdate
                    (next w GetUpdateState_percentage / 100)%float)]
       else []) /\
    0 <= trunc_double (next w GetUpdateState_percentage) <= 100 /\
    (if last_percentage_ (act w) <? trunc_double (next w GetUpdateState_percentage)
     then logs w' =
            logs w ++ [progress_line (trunc_double (next w GetUpdateState_percentage))] /\
          last_percentage_ (act w') = trunc_double (next w GetUpdateState_percentage)
     else logs w' = logs w /\
          last_percentage_ (act w') = last_percentage_ (act w)).
Proof.
  intros Hp. pose proof (static_cast_uint_percent _ Hp) as Hcast.
  pose proof (trunc_double_percent _ Hp) as Hrange.
  destruct w as [a s o ak c l]. destruct a as [p b sn d r cf lp st md ms].
  unfold next, asked in *; simpl in *.
  unfold OnMergePercentageUpdate. unfold_monad. simpl. rewrite Hcast.
  destruct d; simpl;
    destruct (lp <? trunc_double (o GetUpdateState_percentage
                                    (count_asked GetUpdateState_percentage ak))); simpl.
  all: eexists; split; [reflexivity|].
  all: unfold since; simpl; rewrite <- ?app_assoc, skipn_app, skipn_all, Nat.sub_diag.
  all: repeat split; try reflexivity; apply Hrange.
Qed.

(** The spec's example: from a last logged percentage of 10, the reports
    10.2, 10.9 and 11.4 give one log line, at the third call. *)
Example progress_example :
  logs (world_progress_after 1) = [] /\
  logs (world_progress_after 2) = [] /\
  logs (world_progress_after 3) = [progress_line 11].
Proof. vm_compute. repeat split; reflexivity. Qed.

(** ** The boot-completed and slot-verified polls *)

Ltac since_explicit :=
  unfold since; simpl;
  rewrite <- ?app_assoc, ?skipn_app, ?skipn_all, ?Nat.sub_diag; simpl.

(** C4, as the code has it.  In a normal boot (not recovery), when the poll
    fires on a running instance and its condition is false: the handler
    makes exactly one scheduling request, for itself, and no call of the
    merge-delay or merge stages.  When the message loop accepts the request
    the handler has asked for its condition and posted itself and done
    nothing else: one new task, no completion.  When the message loop
    refuses it, the action completes with [kError]. *)
Theorem failed_poll_reschedules_once UE_DISABLE_STATS fuel w :
  running_ (act w) = true ->
  (next w (GetBoolProperty kBootCompletedProp) = false ->
   exists w',
     WaitBootCompletedOrSchedule false UE_DISABLE_STATS fuel w = Done tt w' /\
     posted_tasks (since w w') =
       [(CbWaitBootCompletedOrSchedule, kCheckBootCompletedInterval)] /\
     existsb is_merge_stage (since w w') = false /\
     match next w (PostTask CbWaitBootCompletedOrSchedule kCheckBootCompletedInterval) with
     | Some id =>
         since w w' =
           [Asked (GetBoolProperty kBootCompletedProp);
            Asked (PostTask CbWaitBootCompletedOrSchedule kCheckBootCompletedInterval)] /\
         scheduled_task_ (act w') = Some id /\
         completions (since w w') = []
     | None =>
         completions (since w w') = [kError] /\
         scheduled_task_ (act w') = None
     end) /\
  (next w (IsSlotMarkedSuccessful (next w GetCurrentSlot)) = false ->
   exists w',
     CheckSlotMarkedSuccessfulOrSchedule false UE_DISABLE_STATS fuel w = Done tt w' /\
     posted_tasks (since w w') =
       [(CbCheckSlotMarkedSuccessfulOrSchedule, kCheckSlotMarkedSuccessfulInterval)] /\
     existsb is_merge_stage (since w w') = false /\
     match next w (PostTask CbCheckSlotMarkedSuccessfulOrSchedule
                            kCheckSlotMarkedSuccessfulInterval) with
     | Some id =>
         since w w' =
           [Asked GetCurrentSlot; Asked (IsSlotMarkedSuccessful (next w GetCurrentSlot));
            Asked (PostTask CbCheckSlotMarkedSuccessfulOrSchedule
                            kCheckSlotMarkedSuccessfulInterval)] /\
         scheduled_task_ (act w') = Some id /\
         completions (since w w') = []
     | None =>
         completions (since w w') = [kError] /\
         scheduled_task_ (act w') = None
     end).
Proof.
  destruct w as [a s o ak c l]. destruct a as [p b sn d r cf lp st md ms].
  unfold next, asked; simpl. intros ->. split.
  - intros Hboot.
    unfold WaitBootCompletedOrSchedule, AcknowledgeTaskExecuted, TEST_AND_RETURN_running_,
      ScheduleWaitBootCompleted, TEST_AND_RETURN_running_, scheduled_task_PostTask,
      CheckTaskScheduled.
    unfold_monad. destruct st; simpl; rewrite Hboot; simpl.
    all: destruct (o (PostTask CbWaitBootCompletedOrSchedule kCheckBootCompletedInterval) _)
           as [id|]; simpl.
    all: try (eexists; (split; [reflexivity|]); since_explicit;
              repeat split; reflexivity).
    all: finish_with_completion.
    all: pose proof (steps_to_act _ _ _ _ _ _ Hst2) as Ha2.
    all: apply steps_to_calls in Hst2; simpl in Hst2; rewrite <- !app_assoc in Hst2.
    all: erewrite since_app by (simpl; exact Hst2).
    all: assert (Hms : existsb is_merge_stage td = false)
           by (apply (forallb_existsb_false is_teardown); [|exact Htd];
               intros [q|x]; try destruct q; try destruct x; simpl; congruence).
    all: unfold posted_tasks, completions in *; simpl.
    all: rewrite Htd1, Htd3, Hms, Ha2.
    all: repeat split; reflexivity.
  - intros Hslot.
    unfold CheckSlotMarkedSuccessfulOrSchedule, AcknowledgeTaskExecuted,
      TEST_AND_RETURN_running_, ScheduleWaitMarkBootSuccessful, TEST_AND_RETURN_running_,
      scheduled_task_PostTask, CheckTaskScheduled.
    unfold_monad. destruct st; simpl; rewrite Hslot; simpl.
    all: destruct (o (PostTask CbCheckSlotMarkedSuccessfulOrSchedule
                               kCheckSlotMarkedSuccessfulInterval) _) as [id|]; simpl.
    all: try (eexists; (split; [reflexivity|]); since_explicit;
              repeat split; reflexivity).
    all: finish_with_completion.
    all: pose proof (steps_to_act _ _ _ _ _ _ Hst2) as Ha2.
    all: apply steps_to_calls in Hst2; simpl in Hst2; rewrite <- !app_assoc in Hst2.
    all: erewrite since_app by (simpl; exact Hst2).
    all: assert (Hms : existsb is_merge_stage td = false)
           by (apply (forallb_existsb_false is_teardown); [|exact Htd];
               intros [q|x]; try destruct q; try destruct x; simpl; congruence).
    all: unfold posted_tasks, completions in *; simpl.
    all: rewrite Htd1, Htd3, Hms, Ha2.
    all: repeat split; reflexivity.
Qed.

(** C4 as the spec states it fails on the code in two ways.  In recovery the
    handler does not poll: with the boot-completed property false it goes on
    to the merge-delay and merge stages (here up to a completion).  In a
    normal boot, when the message loop refuses the task, the failed poll
    completes the action with [kError] and no task is scheduled. *)
Lemma failed_poll_counterexamples :
  running_ (act world_polling_refused) = true /\
  next world_polling_refused (GetBoolProperty kBootCompletedProp) = false /\
  (let w' := final (WaitBootCompletedOrSchedule true false 1 world_polling_refused) in
   posted_tasks (since world_polling_refused w') = [] /\
   completions (since world_polling_refused w') = [kSuccess] /\
   existsb is_merge_stage (since world_polling_refused w') = true) /\
  (let w' := final (WaitBootCompletedOrSchedule false false 1 world_polling_refused) in
   posted_tasks (since world_polling_refused w')
     = [(CbWaitBootCompletedOrSchedule, kCheckBootCompletedInterval)] /\
   scheduled_task_ (act w') = None /\
   completions (since world_polling_refused w') = [kError]).
Proof. vm_compute. repeat split; reflexivity. Qed.

(** ** Tasks that fire after the instance has stopped *)

(** X24.  The three handlers that test [running_] do nothing on a stopped
    instance: no call, no change of the instance or of the recorder. *)
Lemma guarded_handlers_inert_when_stopped rec ds fuel w :
  running_ (act w) = false ->
  (exists w', WaitBootCompletedOrSchedule rec ds fuel w = Done tt w' /\
              act w' = act w /\ stats w' = stats w /\ calls w' = calls w) /\
  (exists w', CheckSlotMarkedSuccessfulOrSchedule rec ds fuel w = Done tt w' /\
              act w' = act w /\ stats w' = stats w /\ calls w' = calls w) /\
  (exists w', WaitForMergeOrSchedule rec ds (S fuel) w = Done tt w' /\
              act w' = act w /\ stats w' = stats w /\ calls w' = calls w).
Proof.
  destruct w as [a s o ak c l]. destruct a as [p b sn d r cf lp st md ms].
  simpl. intros ->.
  unfold WaitBootCompletedOrSchedule, CheckSlotMarkedSuccessfulOrSchedule.
  cbn [WaitForMergeOrSchedule].
  unfold AcknowledgeTaskExecuted, TEST_AND_RETURN_running_. unfold_monad.
  destruct st; simpl; repeat split; eexists; repeat split; reflexivity.
Qed.

(** C2 fails on the code for the delayed merge start.  [StartMerge], the
    function posted by [CheckForMergeDelay], does not test [running_]: when
    it fires on the suspended instance it mounts the metadata volume, keeps
    the handle and starts the stats recorder. *)
Theorem StartMerge_acts_on_stopped_instance :
  running_ (act world_suspended_with_pending_merge) = false /\
  posted_tasks (calls world_suspended_with_pending_merge) = [(CbStartMerge, 5)] /\
  metadata_device_ (act world_suspended_with_pending_merge) = None /\
  (let w' := final (run_task false false 1 CbStartMerge
                      world_suspended_with_pending_merge) in
   since world_suspended_with_pending_merge w'
     = [Asked EnsureMetadataMounted; Asked merge_stats_Start] /\
   metadata_device_ (act w') = Some 1).
Proof. vm_compute. repeat split; reflexivity. Qed.

(** ** The theorems at concrete inputs *)

Lemma unrecognized_state_witness :
  exists w',
    WaitForMergeOrSchedule false false 1 (world_reporting 8) = Abort w' /\
    completions (since (world_reporting 8) w') = [] /\
    In (mkLog FATAL "SnapshotManager::ProcessUpdateState returns " (Some 8)) (logs w').
Proof.
  apply (unrecognized_state_aborts_without_completion
           false false 0 (world_reporting 8) [InvokeProgress] 8).
  - reflexivity.
  - reflexivity.
  - intros s. destruct s; discriminate.
Defined.

Lemma Cancelled_completion_witness :
  next world_cancel_rejected ResetUpdateProgress = false /\
  guarded_pref world_cancel_rejected = "1" /\
  validation_fails world_cancel_rejected = true /\
  ((forall u, exists u',
       run_callbacks [InvokeBeforeCancel] u = Done tt u' /\
       since u u' =
         Asked ResetUpdateProgress ::
         (if next u ResetUpdateProgress then []
          else [Asked (prefs_GetString kPrefsDynamicPartitionMetadataUpdated)])
         ++ [Did (BeforeCancel_returned (negb (validation_fails u)))] /\
       cancel_failed_ (act u') = cancel_failed_ (act u) || validation_fails u) /\
   exists w',
     WaitForMergeOrSchedule false false 1 world_cancel_rejected = Done tt w' /\
     completions (since world_cancel_rejected w') =
       [if existsb is_reject (calls w') then kError else kSuccess] /\
     (forall fuel1 ops1 w1,
         cancel_failed_ (act w1) = true ->
         cancel_failed_ (act (final (run_ops false false fuel1 ops1 w1))) = true)) /\
  completions
    (since world_cancel_rejected
       (final (WaitForMergeOrSchedule false false 1 world_cancel_rejected)))
  = [kError].
Proof.
  split; [reflexivity|]. split; [reflexivity|]. split; [reflexivity|]. split.
  - apply (Cancelled_completion_follows_validation
             false false true true true false empty_stats oracle_cancel_rejected
             1 [OpPerformAction] world_cancel_rejected 0 [InvokeBeforeCancel]).
    + vm_compute. reflexivity.
    + vm_compute. reflexivity.
    + vm_compute. reflexivity.
  - vm_compute. reflexivity.
Defined.

(** In that run the validation callback rejected, and the completion is
    [kError]. *)
Example Cancelled_after_rejection_is_Error :
  completions
    (since world_cancel_rejected
       (final (WaitForMergeOrSchedule false false 1 world_cancel_rejected)))
  = [kError].
Proof. vm_compute. reflexivity. Qed.

Lemma failed_poll_witness :
  (exists w',
     WaitBootCompletedOrSchedule false false 0 world_polling = Done tt w' /\
     posted_tasks (since world_polling w') =
       [(CbWaitBootCompletedOrSchedule, kCheckBootCompletedInterval)] /\
     existsb is_merge_stage (since world_polling w') = false /\
     since world_polling w' =
       [Asked (GetBoolProperty kBootCompletedProp);
        Asked (PostTask CbWaitBootCompletedOrSchedule kCheckBootCompletedInterval)] /\
     scheduled_task_ (act w') = Some 1 /\
     completions (since world_polling w') = []) /\
  (exists w',
     CheckSlotMarkedSuccessfulOrSchedule false false 0 world_polling = Done tt w' /\
     posted_tasks (since world_polling w') =
       [(CbCheckSlotMarkedSuccessfulOrSchedule, kCheckSlotMarkedSuccessfulInterval)] /\
     existsb is_merge_stage (since world_polling w') = false /\
     since world_polling w' =
       [Asked GetCurrentSlot; Asked (IsSlotMarkedSuccessful 0);
        Asked (PostTask CbCheckSlotMarkedSuccessfulOrSchedule
                        kCheckSlotMarkedSuccessfulInterval)] /\
     scheduled_task_ (act w') = Some 1 /\
     completions (since world_polling w') = []) /\
  (exists w',
     WaitBootCompletedOrSchedule false false 0 world_polling_refused = Done tt w' /\
     posted_tasks (since world_polling_refused w') =
       [(CbWaitBootCompletedOrSchedule, kCheckBootCompletedInterval)] /\
     existsb is_merge_stage (since world_polling_refused w') = false /\
     completions (since world_polling_refused w') = [kError] /\
     scheduled_task_ (act w') = None).
Proof.
  destruct (failed_poll_reschedules_once false 0 world_polling eq_refl) as [Hboot Hslot].
  destruct (failed_poll_reschedules_once false 0 world_polling_refused eq_refl)
    as [Hrefused _].
  split; [|split].
  - apply Hboot; reflexivity.
  - apply Hslot; reflexivity.
  - apply Hrefused; reflexivity.
Defined.

Lemma progress_callback_witness :
  last_percentage_ (act (world_progress_after 2)) = 10 /\
  exists w',
    OnMergePercentageUpdate (world_progress_after 2) = Done false w' /\
    since (world_progress_after 2) w' =
      [Asked GetUpdateState_percentage;
       Did (OnCleanupProgressUpdate (11.4 / 100)%float)] /\
    0 <= 11 <= 100 /\
    logs w' = logs (world_progress_after 2) ++ [progress_line 11] /\
    last_percentage_ (act w') = 11.
Proof.
  split; [reflexivity|].
  apply (progress_callback_rescales_logs_on_increase_returns_false
           (world_progress_after 2)).
  split; reflexivity.
Defined.


Lemma MergeCompleted_witness :
  exists w',
    WaitForMergeOrSchedule false false 1 (world_reporting 5) = Done tt w' /\
    marked_slots (since (world_reporting 5) w') = [wrap32 (1 - 0)] /\
    completions (since (world_reporting 5) w') = [kSuccess] /\
    (0 <= 0 <= 1 -> wrap32 (1 - 0) = 1 - 0).
Proof.
  apply (MergeCompleted_marks_inactive_slot_once
           false false 0 (world_reporting 5) [InvokeProgress]); reflexivity.
Defined.

Lemma MergeFailed_witness :
  exists w' pre post,
    WaitForMergeOrSchedule false false 1 (world_reporting 6) = Done tt w' /\
    since (world_reporting 6) w' =
      pre ++ [Asked ReadMergeFailureCode; Did (set_merge_failure_code 4);
              Did (ActionComplete kDeviceCorrupted)] ++ post /\
    completions pre = [] /\ completions post = [] /\
    ms_merge_failure_code (stats w') = 4.
Proof.
  apply (MergeFailed_records_fresh_code_then_DeviceCorrupted
           false false 0 (world_reporting 6) [InvokeProgress]); reflexivity.
Defined.

Lemma InitiateMerge_failure_witness :
  (next world_polling_refused GetUpdateState = UpdateState_raw Unverified ->
   exists w' pre post,
     InitiateMergeAndWait false false 1 world_polling_refused = Done tt w' /\
     since world_polling_refused w' =
       pre ++ [Asked InitiateMerge; Asked GetUpdateState;
               Did (set_state (UpdateState_raw Unverified));
               Did (ActionComplete kSuccess)] ++ post /\
     completions pre = [] /\ completions post = []) /\
  (next world_polling_refused GetUpdateState <> UpdateState_raw Unverified ->
   exists w2 pre,
     InitiateMergeAndWait false false 1 world_polling_refused =
     WaitForMergeOrSchedule false false 1 w2 /\
     since world_polling_refused w2 =
       pre ++ [Asked InitiateMerge; Asked GetUpdateState;
               Did (set_state (next world_polling_refused GetUpdateState))] /\
     completions pre = [] /\
     ms_state (stats w2) = next world_polling_refused GetUpdateState /\
     running_ (act w2) = true).
Proof.
  apply (InitiateMerge_failure_rereads_state false false 1 world_polling_refused);
    reflexivity.
Defined.

Lemma entry_failure_code_witness :
  exists w1,
    WaitForMergeOrSchedule false false 1 (world_reporting 3) =
    WaitForMerge_switch false false
      (InitiateMergeAndWait_body false false (WaitForMergeOrSchedule false false 0))
      (snd (next (world_reporting 3) ProcessUpdateState)) w1 /\
    ms_merge_failure_code (stats w1) =
      (if next (world_reporting 3) ReadMergeFailureCode =? MergeFailureCode_Ok
       then ms_merge_failure_code (stats (world_reporting 3))
       else next (world_reporting 3) ReadMergeFailureCode) /\
    failure_code_writes (since (world_reporting 3) w1) =
      (if next (world_reporting 3) ReadMergeFailureCode =? MergeFailureCode_Ok
       then []
       else [next (world_reporting 3) ReadMergeFailureCode]).
Proof.
  apply (entry_writes_failure_code_only_when_not_Ok false false 0 (world_reporting 3)).
  reflexivity.
Defined.

(** * Further properties of the action *)

(** ** Stopping and completing *)

(** X1.  [StopActionInternal] (suspend, terminate, destroy): the instance stops,
    the handle tracks nothing, the message loop is asked to cancel exactly
    the task that was tracked; nothing else changes and no completion is
    made.  Stopping again makes no call. *)
Theorem StopActionInternal_stops_and_untracks w :
  exists w',
    StopActionInternal w = Done tt w' /\
    act w' = set_scheduled_task_ None (set_running_ false (act w)) /\
    stats w' = stats w /\
    since w w' = match scheduled_task_ (act w) with
                 | Some id => [Asked (CancelTask id)]
                 | None => []
                 end /\
    exists w'',
      StopActionInternal w' = Done tt w'' /\ act w'' = act w' /\ calls w'' = calls w'.
Proof.
  destruct w as [a s o ak c l]. destruct a as [p b sn d r cf lp st md ms].
  unfold StopActionInternal, scheduled_task_Cancel. unfold_monad. simpl.
  destruct st as [id|]; simpl.
  - destruct (o (CancelTask id) (count_asked (CancelTask id) ak)); simpl.
    all: eexists; (split; [reflexivity|]); since_explicit.
    all: repeat split; try reflexivity.
    all: eexists; repeat split; reflexivity.
  - eexists; (split; [reflexivity|]); since_explicit.
    repeat split; try reflexivity.
    eexists; repeat split; reflexivity.
Qed.

(** X2.  [ReportMergeStats] on an instance that holds a recorder: [Finish]
    is always called; a merge report is sent exactly when [Finish] gave a
    result, the build is neither recovery nor without stats, and the
    recorded state is none of [None], [Initiated], [Unverified]; the report
    carries the recorder's state and failure code.  Neither the instance
    nor the recorder changes. *)
Theorem ReportMergeStats_reports_only_merges rec ds w :
  merge_stats_ (act w) = true ->
  exists w',
    ReportMergeStats rec ds w = Done tt w' /\
    act w' = act w /\ stats w' = stats w /\
    hd_error (since w w') = Some (Asked merge_stats_Finish) /\
    match next w merge_stats_Finish with
    | None => stats_writes (since w w') = []
    | Some result =>
        if rec || ds || unreported_state (ms_state (stats w))
        then stats_writes (since w w') = []
        else exists report,
            stats_writes (since w w') = [report] /\
            r_state report = ms_state (stats w) /\
            r_merge_failure_code report = ms_merge_failure_code (stats w) /\
            r_passed_ms report = merge_time_ms result /\
            r_boot_complete_time_ms report = ms_boot_complete_time_ms (stats w)
    end.
Proof.
  destruct w as [a s o ak c l]. intros _.
  unfold ReportMergeStats, unreported_state. unfold_monad. simpl.
  destruct (o merge_stats_Finish (count_asked merge_stats_Finish ak)) as [result|]; simpl.
  - destruct rec; simpl; [|destruct ds; simpl;
      [|destruct ((ms_state s =? 0) || (ms_state s =? 1) || (ms_state s =? 2)); simpl]].
    all: eexists; (split; [reflexivity|]); since_explicit.
    all: repeat split; try reflexivity.
    eexists; repeat split; reflexivity.
  - eexists; (split; [reflexivity|]); since_explicit. repeat split; reflexivity.
Qed.

(** X3.  [ActionCompleted] on an instance that holds a recorder: the
    metadata handle is released exactly when one is held, and once;
    afterwards none is held, the instance is stopped and tracks no task.
    The hook itself makes no completion. *)
Theorem ActionCompleted_releases_handle_once rec ds code w :
  merge_stats_ (act w) = true ->
  exists w',
    ActionCompleted rec ds code w = Done tt w' /\
    act w' = stopped (act w) /\
    stats w' = stats w /\
    released_devices (since w w') =
      match metadata_device_ (act w) with Some d => [d] | None => [] end /\
    completions (since w w') = [] /\ posted_tasks (since w w') = [].
Proof.
  destruct w as [a s o ak c l]. destruct a as [p b sn d r cf lp st md ms].
  simpl. intros ->.
  unfold ActionCompleted, StopActionInternal, ReportMergeStats, scheduled_task_Cancel.
  unfold_monad. simpl. case_split.
  all: eexists; (split; [reflexivity|]); since_explicit.
  all: repeat split; reflexivity.
Qed.

(** ** Starting *)

(** X4.  On a device without Virtual A/B, starting (or resuming) sets
    [running_], reads the feature flag and signals the completion
    [kSuccess] at once, without fetching the stats recorder: the completion
    is signalled with [merge_stats_] as it was before the call.  On an
    instance that holds a recorder from an earlier start, the completion
    hook then runs to its end, calling [Finish], and leaves the instance
    stopped. *)
Theorem start_without_virtual_ab_completes_with_success rec ds fuel w :
  prefs_ (act w) = true ->
  boot_control_ (act w) = true ->
  next w GetVirtualAbFeatureFlag_IsEnabled = false ->
  (exists w1,
     StartActionInternal rec ds fuel w = processor_ActionComplete rec ds kSuccess w1 /\
     since w w1 = [Asked GetVirtualAbFeatureFlag_IsEnabled] /\
     act w1 = set_running_ true (act w) /\
     stats w1 = stats w) /\
  (merge_stats_ (act w) = true ->
   exists w' hook,
     StartActionInternal rec ds fuel w = Done tt w' /\
     since w w' =
       [Asked GetVirtualAbFeatureFlag_IsEnabled; Did (ActionComplete kSuccess)] ++ hook /\
     forallb is_teardown hook = true /\
     In (Asked merge_stats_Finish) hook /\
     merge_stats_ (act w') = true /\
     running_ (act w') = false).
Proof.
  destruct w as [a s o ak c l]. destruct a as [p b sn d r cf lp st md ms].
  unfold next, asked; simpl. intros -> -> Hvab. split.
  - unfold StartActionInternal. unfold_monad. simpl. rewrite Hvab. simpl.
    eexists; (split; [reflexivity|]); since_explicit. repeat split; reflexivity.
  - intros ->.
    unfold StartActionInternal, processor_ActionComplete, ActionCompleted,
      StopActionInternal, ReportMergeStats, scheduled_task_Cancel.
    unfold_monad. simpl. rewrite Hvab. simpl. case_split.
    all: eexists; eexists; (split; [reflexivity|]); since_explicit.
    all: split; [reflexivity|]; split; [reflexivity|]; split; [simpl; tauto|].
    all: split; reflexivity.
Qed.

(** X5.  A null preference store or boot control fails the first [CHECK]s: the
    process aborts before any call and before [running_] is set. *)
Theorem start_aborts_on_null_collaborator rec ds fuel w :
  prefs_ (act w) = false \/ boot_control_ (act w) = false ->
  exists w',
    StartActionInternal rec ds fuel w = Abort w' /\
    act w' = act w /\ calls w' = calls w.
Proof.
  destruct w as [a s o ak c l]. destruct a as [p b sn d r cf lp st md ms].
  simpl. unfold StartActionInternal. unfold_monad.
  intros [-> | ->]; simpl; [|destruct p; simpl];
    eexists; repeat split; reflexivity.
Qed.

(** X6.  On a Virtual A/B device a null snapshot manager or a null stats
    recorder aborts the process: the action is running, and neither
    completes nor posts a task. *)
Theorem start_aborts_without_snapshot_service rec ds fuel w :
  prefs_ (act w) = true ->
  boot_control_ (act w) = true ->
  next w GetVirtualAbFeatureFlag_IsEnabled = true ->
  snapshot_ (act w) = false \/ next w GetSnapshotMergeStatsInstance = false ->
  exists w',
    StartActionInternal rec ds fuel w = Abort w' /\
    running_ (act w') = true /\
    completions (since w w') = [] /\ posted_tasks (since w w') = [].
Proof.
  destruct w as [a s o ak c l]. destruct a as [p b sn d r cf lp st md ms].
  unfold next, asked; simpl. intros -> -> Hvab H.
  unfold StartActionInternal. unfold_monad. simpl. rewrite Hvab. simpl.
  destruct H as [-> | Hms]; simpl.
  - eexists; (split; [reflexivity|]); since_explicit. repeat split; reflexivity.
  - destruct sn; simpl; [rewrite Hms; simpl|];
      eexists; (split; [reflexivity|]); since_explicit; repeat split; reflexivity.
Qed.

(** ** The stages before the merge *)

(** X7.  In recovery neither poll reads anything: the boot-completed handler
    records the boot clock and goes straight on to the merge-delay check. *)
Theorem recovery_skips_both_polls ds fuel w :
  running_ (act w) = true ->
  exists w1,
    WaitBootCompletedOrSchedule true ds fuel w = CheckForMergeDelay true ds fuel w1 /\
    since w w1 =
      [Asked boot_clock_now;
       Did (set_boot_complete_time_ms (wrap32 (next w boot_clock_now)))] /\
    ms_boot_complete_time_ms (stats w1) = wrap32 (next w boot_clock_now) /\
    act w1 = act w.
Proof.
  destruct w as [a s o ak c l]. destruct a as [p b sn d r cf lp st md ms].
  unfold next, asked; simpl. intros ->.
  unfold WaitBootCompletedOrSchedule, CheckSlotMarkedSuccessfulOrSchedule,
    AcknowledgeTaskExecuted, TEST_AND_RETURN_running_,
    merge_stats_set_boot_complete_time_ms.
  unfold_monad. destruct st; simpl.
  all: eexists; (split; [reflexivity|]); since_explicit; repeat split; reflexivity.
Qed.

(** X8.  In a normal boot, once the system has booted and the current slot is
    marked successful, the boot-completed handler passes both gates in one
    run: it records the boot clock and reaches the merge-delay check, making
    no completion and posting no task on the way. *)
Theorem booted_and_verified_reaches_merge_delay ds fuel w :
  running_ (act w) = true ->
  next w (GetBoolProperty kBootCompletedProp) = true ->
  next w (IsSlotMarkedSuccessful (next w GetCurrentSlot)) = true ->
  exists w1,
    WaitBootCompletedOrSchedule false ds fuel w = CheckForMergeDelay false ds fuel w1 /\
    since w w1 =
      [Asked (GetBoolProperty kBootCompletedProp); Asked boot_clock_now;
       Did (set_boot_complete_time_ms (wrap32 (next w boot_clock_now)));
       Asked GetCurrentSlot; Asked (IsSlotMarkedSuccessful (next w GetCurrentSlot))] /\
    ms_boot_complete_time_ms (stats w1) = wrap32 (next w boot_clock_now) /\
    act w1 = act w.
Proof.
  destruct w as [a s o ak c l]. destruct a as [p b sn d r cf lp st md ms].
  unfold next, asked; simpl. intros -> Hboot Hslot.
  unfold WaitBootCompletedOrSchedule, CheckSlotMarkedSuccessfulOrSchedule,
    AcknowledgeTaskExecuted, TEST_AND_RETURN_running_,
    merge_stats_set_boot_complete_time_ms.
  unfold_monad. destruct st; simpl; rewrite Hboot; simpl; rewrite Hslot; simpl.
  all: eexists; (split; [reflexivity|]); since_explicit; repeat split; reflexivity.
Qed.

Lemma clamp_bounds v lo hi : lo <= hi -> lo <= clamp v lo hi <= hi.
Proof.
  intros H. unfold clamp.
  destruct (Z.ltb_spec v lo); [lia|]. destruct (Z.ltb_spec hi v); lia.
Qed.

Lemma clamp_in_range v lo hi : lo <= v <= hi -> clamp v lo hi = v.
Proof.
  intros H. unfold clamp.
  destruct (Z.ltb_spec v lo); [lia|]. destruct (Z.ltb_spec hi v); lia.
Qed.

(** X9.  When the snapshot manager is needed, [CheckForMergeDelay] posts
    [StartMerge] once, with the delay property clamped to [0, 600] seconds
    (the property itself when it is in that range), and does nothing
    else. *)
Theorem merge_delay_is_clamped_and_posted_once rec ds fuel w id :
  next w IsSnapshotManagerNeeded = true ->
  next w (PostTask CbStartMerge
            (clamp (next w (GetIntProperty kMergeDelaySecondsProp)) 0 kMaxMergeDelaySeconds))
    = Some id ->
  exists w' delay,
    CheckForMergeDelay rec ds fuel w = Done tt w' /\
    delay = clamp (next w (GetIntProperty kMergeDelaySecondsProp)) 0 kMaxMergeDelaySeconds /\
    since w w' =
      [Asked IsSnapshotManagerNeeded; Asked (GetIntProperty kMergeDelaySecondsProp);
       Asked (PostTask CbStartMerge delay)] /\
    0 <= delay <= 600 /\
    (0 <= next w (GetIntProperty kMergeDelaySecondsProp) <= 600 ->
     delay = next w (GetIntProperty kMergeDelaySecondsProp)) /\
    scheduled_task_ (act w') = Some id.
Proof.
  destruct w as [a s o ak c l]. destruct a as [p b sn d r cf lp st md ms].
  unfold next, asked; simpl. intros Hneed Hpost.
  unfold CheckForMergeDelay, scheduled_task_PostTask. unfold_monad. simpl.
  rewrite Hneed. simpl.
  set (v := o (GetIntProperty kMergeDelaySecondsProp)
              (count_asked (GetIntProperty kMergeDelaySecondsProp) ak)) in *.
  destruct (negb (clamp v 0 kMaxMergeDelaySeconds =? 0)); simpl; rewrite Hpost; simpl.
  all: eexists; exists (clamp v 0 kMaxMergeDelaySeconds); (split; [reflexivity|]).
  all: since_explicit.
  all: split; [reflexivity|]; split; [reflexivity|].
  all: split; [apply clamp_bounds; unfold kMaxMergeDelaySeconds; lia|].
  all: split; [intros H; apply clamp_in_range; exact H | reflexivity].
Qed.

(** X10.  When the message loop refuses the delayed [StartMerge], the action
    completes with [kError]; the merge stage is not entered. *)
Theorem refused_merge_delay_completes_with_error rec ds fuel w :
  next w IsSnapshotManagerNeeded = true ->
  next w (PostTask CbStartMerge
            (clamp (next w (GetIntProperty kMergeDelaySecondsProp)) 0 kMaxMergeDelaySeconds))
    = None ->
  exists w' hook,
    CheckForMergeDelay rec ds fuel w = Done tt w' /\
    since w w' =
      [Asked IsSnapshotManagerNeeded; Asked (GetIntProperty kMergeDelaySecondsProp);
       Asked (PostTask CbStartMerge
                (clamp (next w (GetIntProperty kMergeDelaySecondsProp)) 0
                       kMaxMergeDelaySeconds));
       Did (ActionComplete kError)] ++ hook /\
    forallb is_teardown hook = true /\
    act w' = stopped (act w).
Proof.
  destruct w as [a s o ak c l]. destruct a as [p b sn d r cf lp st md ms].
  unfold next, asked; simpl. intros Hneed Hpost.
  unfold CheckForMergeDelay, scheduled_task_PostTask. unfold_monad. simpl.
  rewrite Hneed. simpl.
  set (v := o (GetIntProperty kMergeDelaySecondsProp)
              (count_asked (GetIntProperty kMergeDelaySecondsProp) ak)) in *.
  destruct (negb (clamp v 0 kMaxMergeDelaySeconds =? 0)); simpl; rewrite Hpost; simpl.
  all: finish_completion; exists td; (split; [reflexivity|]).
  all: pose proof (steps_to_act _ _ _ _ _ _ Hst2) as Ha2.
  all: apply steps_to_calls in Hst2; simpl in Hst2; rewrite <- !app_assoc in Hst2.
  all: erewrite since_app by (simpl; exact Hst2).
  all: repeat split; try reflexivity; assumption.
Qed.

(** X11.  When the snapshot manager is not needed, the delay property is not
    read and no task is posted: [StartMerge] runs at once. *)
Theorem merge_starts_at_once_when_manager_not_needed rec ds fuel w :
  next w IsSnapshotManagerNeeded = false ->
  exists w1,
    CheckForMergeDelay rec ds fuel w = StartMerge rec ds fuel w1 /\
    since w w1 = [Asked IsSnapshotManagerNeeded] /\
    act w1 = act w /\ stats w1 = stats w.
Proof.
  destruct w as [a s o ak c l].
  unfold next, asked; simpl. intros Hneed.
  unfold CheckForMergeDelay. unfold_monad. simpl. rewrite Hneed. simpl.
  eexists; (split; [reflexivity|]); since_explicit; repeat split; reflexivity.
Qed.

(** ** Starting the merge *)

(** X12.  In a normal boot [StartMerge] mounts the metadata volume only when no
    handle is held, keeps the handle, asks the recorder to start and goes
    on to the poll whether or not the recorder started; it never asks for
    the recovery snapshot devices. *)
Theorem StartMerge_mounts_only_when_no_handle_held ds fuel w dev :
  metadata_device_ (act w) = Some dev \/
  (metadata_device_ (act w) = None /\ next w EnsureMetadataMounted = Some dev) ->
  exists w1,
    StartMerge false ds fuel w = WaitForMergeOrSchedule false ds fuel w1 /\
    since w w1 =
      match metadata_device_ (act w) with
      | Some _ => []
      | None => [Asked EnsureMetadataMounted]
      end ++ [Asked merge_stats_Start] /\
    act w1 = set_metadata_device_ (Some dev) (act w) /\
    stats w1 = stats w.
Proof.
  destruct w as [a s o ak c l]. destruct a as [p b sn d r cf lp st md ms].
  unfold next, asked; simpl. unfold StartMerge. unfold_monad.
  intros [-> | [-> Hmount]]; simpl; [|rewrite Hmount; simpl].
  all: destruct (o merge_stats_Start (count_asked merge_stats_Start _)); simpl.
  all: eexists; (split; [reflexivity|]); since_explicit; repeat split; reflexivity.
Qed.

(** X13.  In recovery, when the snapshot devices are created or there are none to
    create, [StartMerge] goes on to the poll. *)
Theorem recovery_snapshot_devices_created_goes_on ds fuel w dev :
  metadata_device_ (act w) = Some dev ->
  next w RecoveryCreateSnapshotDevices = CREATED \/
  next w RecoveryCreateSnapshotDevices = NOT_CREATED ->
  exists w1,
    StartMerge true ds fuel w = WaitForMergeOrSchedule true ds fuel w1 /\
    since w w1 = [Asked RecoveryCreateSnapshotDevices; Asked merge_stats_Start] /\
    act w1 = act w /\ stats w1 = stats w.
Proof.
  destruct w as [a s o ak c l]. destruct a as [p b sn d r cf lp st md ms].
  unfold next, asked; simpl. unfold StartMerge. unfold_monad.
  intros -> [Hr | Hr]; simpl; rewrite Hr; simpl.
  all: destruct (o merge_stats_Start (count_asked merge_stats_Start _)); simpl.
  all: eexists; (split; [reflexivity|]); since_explicit; repeat split; reflexivity.
Qed.

(** X14.  In recovery, any other result of creating the snapshot devices (an
    error or a reserved value) completes the action with [kError]: the
    recorder is not started and the state is not polled. *)
Theorem recovery_snapshot_devices_error_completes_with_error ds fuel w dev :
  metadata_device_ (act w) = Some dev ->
  next w RecoveryCreateSnapshotDevices <> CREATED ->
  next w RecoveryCreateSnapshotDevices <> NOT_CREATED ->
  exists w' hook,
    StartMerge true ds fuel w = Done tt w' /\
    since w w' =
      [Asked RecoveryCreateSnapshotDevices; Did (ActionComplete kError)] ++ hook /\
    forallb is_teardown hook = true /\
    released_devices hook = [dev] /\
    act w' = stopped (act w).
Proof.
  destruct w as [a s o ak c l]. destruct a as [p b sn d r cf lp st md ms].
  unfold next, asked; simpl. unfold StartMerge. unfold_monad.
  intros -> H1 H2; simpl.
  destruct (o RecoveryCreateSnapshotDevices (count_asked RecoveryCreateSnapshotDevices ak))
    as [| | |raw]; try congruence; simpl.
  all: unfold processor_ActionComplete, ActionCompleted, StopActionInternal,
         ReportMergeStats, scheduled_task_Cancel; unfold_monad; simpl; case_split.
  all: eexists; eexists; (split; [reflexivity|]); since_explicit.
  all: repeat split; reflexivity.
Qed.

(** ** The other results of the poll *)

(** X15.  [None]: the pending update record is cancelled; the completion is
    [kSuccess] when [CancelUpdate] succeeds and [kError] when it fails. *)
Theorem None_state_cancels_the_update rec ds fuel w cbs :
  running_ (act w) = true ->
  next w ProcessUpdateState = (cbs, UpdateState_raw None_) ->
  exists w' cbcalls hook,
    WaitForMergeOrSchedule rec ds (S fuel) w = Done tt w' /\
    since w w' =
      poll_calls (next w ReadMergeFailureCode) cbcalls (UpdateState_raw None_)
      ++ [Asked CancelUpdate;
          Did (ActionComplete (if next w CancelUpdate then kSuccess else kError))]
      ++ hook /\
    forallb is_callback_call cbcalls = true /\
    forallb is_teardown hook = true.
Proof.
  intros Hrun Hpus.
  destruct (WaitForMergeOrSchedule_polls rec ds fuel w cbs _ Hrun Hpus)
    as (w1 & cbcalls & -> & Hst1 & Hcb & _).
  pose proof (steps_to_next _ _ _ _ _ _ CancelUpdate Hst1 eq_refl) as Hcu.
  pose proof (steps_to_calls _ _ _ _ _ _ Hst1) as Hc1.
  unfold WaitForMerge_switch; simpl. unfold_monad; simpl.
  autorewrite with world. rewrite Hcu.
  destruct (oracle w CancelUpdate (count_asked CancelUpdate (asked_log w))); simpl.
  all: finish_completion; exists cbcalls, td; (split; [reflexivity|]).
  all: apply steps_to_calls in Hst2; simpl in Hst2; autorewrite with world in Hst2.
  all: rewrite Hc1 in Hst2; rewrite <- !app_assoc in Hst2; simpl in Hst2.
  all: rewrite (since_app _ _ _ Hst2).
  all: repeat split; assumption || reflexivity.
Qed.

(** X16.  [Initiated] and [MergeNeedsReboot] end the action without touching
    anything: after the poll the only calls are the completion, [kSuccess]
    for [Initiated] and [kError] for [MergeNeedsReboot], and its hook. *)
Theorem Initiated_and_NeedsReboot_only_complete rec ds fuel w cbs state :
  running_ (act w) = true ->
  state = Initiated \/ state = MergeNeedsReboot ->
  next w ProcessUpdateState = (cbs, UpdateState_raw state) ->
  exists w' cbcalls hook,
    WaitForMergeOrSchedule rec ds (S fuel) w = Done tt w' /\
    since w w' =
      poll_calls (next w ReadMergeFailureCode) cbcalls (UpdateState_raw state)
      ++ [Did (ActionComplete (match state with Initiated => kSuccess | _ => kError end))]
      ++ hook /\
    forallb is_callback_call cbcalls = true /\
    forallb is_teardown hook = true.
Proof.
  intros Hrun Hstate Hpus.
  destruct (WaitForMergeOrSchedule_polls rec ds fuel w cbs _ Hrun Hpus)
    as (w1 & cbcalls & -> & Hst1 & Hcb & _).
  pose proof (steps_to_calls _ _ _ _ _ _ Hst1) as Hc1.
  destruct Hstate as [-> | ->]; unfold WaitForMerge_switch; simpl; unfold_monad; simpl.
  all: finish_completion; exists cbcalls, td; (split; [reflexivity|]).
  all: apply steps_to_calls in Hst2; simpl in Hst2; autorewrite with world in Hst2.
  all: rewrite Hc1 in Hst2; rewrite <- !app_assoc in Hst2; simpl in Hst2.
  all: rewrite (since_app _ _ _ Hst2).
  all: repeat split; assumption || reflexivity.
Qed.

(** X17.  [Merging]: the handler posts itself again after the poll interval and
    makes no completion; the instance keeps running and tracks the new
    task. *)
Theorem Merging_reschedules_the_poll rec ds fuel w cbs id :
  running_ (act w) = true ->
  next w ProcessUpdateState = (cbs, UpdateState_raw Merging) ->
  next w (PostTask CbWaitForMergeOrSchedule kWaitForMergeInterval) = Some id ->
  exists w' cbcalls,
    WaitForMergeOrSchedule rec ds (S fuel) w = Done tt w' /\
    since w w' =
      poll_calls (next w ReadMergeFailureCode) cbcalls (UpdateState_raw Merging)
      ++ [Asked (PostTask CbWaitForMergeOrSchedule kWaitForMergeInterval)] /\
    forallb is_callback_call cbcalls = true /\
    running_ (act w') = true /\
    scheduled_task_ (act w') = Some id.
Proof.
  intros Hrun Hpus Hpost.
  destruct (WaitForMergeOrSchedule_polls rec ds fuel w cbs _ Hrun Hpus)
    as (w1 & cbcalls & -> & Hst1 & Hcb & _).
  pose proof (steps_to_next _ _ _ _ _ _
                (PostTask CbWaitForMergeOrSchedule kWaitForMergeInterval) Hst1 eq_refl)
    as Hp1.
  pose proof (steps_to_calls _ _ _ _ _ _ Hst1) as Hc1.
  pose proof (steps_to_act _ _ _ _ _ _ Hst1) as Ha1.
  assert (Hr1 : running_ (act w1) = true) by (rewrite Ha1; simpl; exact Hrun).
  rewrite <- Hp1 in Hpost.
  destruct w1 as [a1 s1 o1 ak1 c1 l1]. simpl in Hr1, Hc1. clear Ha1 Hst1 Hp1.
  unfold next, asked in Hpost; simpl in Hpost.
  unfold WaitForMerge_switch; simpl.
  unfold ScheduleWaitForMerge, TEST_AND_RETURN_running_, scheduled_task_PostTask.
  unfold_monad; simpl. rewrite Hr1. simpl. rewrite Hpost. simpl.
  eexists; exists cbcalls; (split; [reflexivity|]).
  erewrite since_app by (simpl; rewrite Hc1, <- app_assoc; reflexivity).
  repeat split; assumption || reflexivity.
Qed.

(** X18.  [Merging] when the message loop refuses the task: the handler
    makes its one request, and the scheduling failure completes the action
    with [kError]; the instance is left stopped and tracks no task. *)
Theorem Merging_with_refused_task rec ds fuel w cbs :
  running_ (act w) = true ->
  next w ProcessUpdateState = (cbs, UpdateState_raw Merging) ->
  next w (PostTask CbWaitForMergeOrSchedule kWaitForMergeInterval) = None ->
  exists w' cbcalls hook,
    WaitForMergeOrSchedule rec ds (S fuel) w = Done tt w' /\
    since w w' =
      poll_calls (next w ReadMergeFailureCode) cbcalls (UpdateState_raw Merging)
      ++ [Asked (PostTask CbWaitForMergeOrSchedule kWaitForMergeInterval);
          Did (ActionComplete kError)]
      ++ hook /\
    forallb is_callback_call cbcalls = true /\
    forallb is_teardown hook = true /\
    running_ (act w') = false /\
    scheduled_task_ (act w') = None.
Proof.
  intros Hrun Hpus Hpost.
  destruct (WaitForMergeOrSchedule_polls rec ds fuel w cbs _ Hrun Hpus)
    as (w1 & cbcalls & -> & Hst1 & Hcb & _).
  pose proof (steps_to_next _ _ _ _ _ _
                (PostTask CbWaitForMergeOrSchedule kWaitForMergeInterval) Hst1 eq_refl)
    as Hp1.
  pose proof (steps_to_calls _ _ _ _ _ _ Hst1) as Hc1.
  pose proof (steps_to_act _ _ _ _ _ _ Hst1) as Ha1.
  assert (Hr1 : running_ (act w1) = true) by (rewrite Ha1; simpl; exact Hrun).
  rewrite <- Hp1 in Hpost.
  destruct w1 as [a1 s1 o1 ak1 c1 l1]. simpl in Hr1, Hc1. clear Ha1 Hst1 Hp1.
  destruct a1 as [p1 b1 sn1 d1 r1 cf1 lp1 st1 md1 ms1]. simpl in Hr1. subst r1.
  unfold next, asked in Hpost; simpl in Hpost.
  unfold WaitForMerge_switch; simpl.
  unfold ScheduleWaitForMerge, TEST_AND_RETURN_running_, scheduled_task_PostTask,
    CheckTaskScheduled.
  unfold_monad; simpl. rewrite Hpost. simpl.
  finish_completion. exists cbcalls, td. split; [reflexivity|].
  pose proof (steps_to_act _ _ _ _ _ _ Hst2) as Ha2.
  apply steps_to_calls in Hst2. simpl in Hst2. rewrite Hc1 in Hst2.
  rewrite <- !app_assoc in Hst2. simpl in Hst2.
  rewrite (since_app _ _ _ Hst2), Ha2.
  repeat split; assumption || reflexivity.
Qed.

(** ** Initiating the merge *)

(** X19.  While a DSU image is running the merge is not initiated: the action
    completes with [kError] after reading the property, and nothing is
    recorded. *)
Theorem DSU_image_blocks_the_merge rec ds fuel w :
  running_ (act w) = true ->
  next w (GetBoolProperty "ro.gsid.image_running") = true ->
  exists w' hook,
    InitiateMergeAndWait rec ds fuel w = Done tt w' /\
    since w w' =
      [Asked (GetBoolProperty "ro.gsid.image_running"); Did (ActionComplete kError)]
      ++ hook /\
    forallb is_teardown hook = true /\
    stats w' = stats w.
Proof.
  destruct w as [a s o ak c l]. destruct a as [p b sn d r cf lp st md ms].
  unfold next, asked; simpl. intros -> Hdsu.
  unfold InitiateMergeAndWait, InitiateMergeAndWait_body, TEST_AND_RETURN_running_.
  unfold_monad. simpl. rewrite Hdsu. simpl.
  finish_completion; exists td; (split; [reflexivity|]).
  pose proof (steps_to_stats _ _ _ _ _ _ Hst2) as Hs2.
  apply steps_to_calls in Hst2; simpl in Hst2; rewrite <- !app_assoc in Hst2.
  erewrite since_app by (simpl; exact Hst2).
  repeat split; try reflexivity; assumption.
Qed.

(** X20.  When [InitiateMerge] succeeds, the function goes on to the poll having
    recorded the time from boot completion to merge start (in unsigned
    32-bit milliseconds) and the source build fingerprint; a failure to
    write the stats changes nothing of this, and no completion is made. *)
Theorem initiated_merge_records_latency_then_polls rec ds fuel w :
  running_ (act w) = true ->
  next w (GetBoolProperty "ro.gsid.image_running") = false ->
  next w InitiateMerge = true ->
  exists w1,
    InitiateMergeAndWait rec ds fuel w = WaitForMergeOrSchedule rec ds fuel w1 /\
    act w1 = act w /\
    stats w1 =
      set_ms_source_build_fingerprint (next w ReadSourceBuildFingerprint)
        (set_ms_boot_complete_to_merge_start_time_ms
           (wrap32 (next w boot_clock_now - ms_boot_complete_time_ms (stats w)))
           (stats w)) /\
    asked_calls (since w w1) =
      [GetBoolProperty "ro.gsid.image_running"; boot_clock_now;
       ReadSourceBuildFingerprint; merge_stats_WriteState; InitiateMerge] /\
    completions (since w w1) = [].
Proof.
  destruct w as [a s o ak c l]. destruct a as [p b sn d r cf lp st md ms].
  unfold next, asked; simpl. intros -> Hdsu Hinit.
  unfold InitiateMergeAndWait, InitiateMergeAndWait_body, TEST_AND_RETURN_running_,
    merge_stats_set_boot_complete_to_merge_start_time_ms,
    merge_stats_set_source_build_fingerprint.
  unfold_monad. simpl. rewrite Hdsu. simpl.
  destruct (o merge_stats_WriteState (count_asked merge_stats_WriteState ak));
    simpl; rewrite Hinit; simpl.
  all: eexists; (split; [reflexivity|]); since_explicit; repeat split; reflexivity.
Qed.

(** X21.  The helpers that test [running_] do nothing on a stopped instance. *)
Theorem guarded_helpers_inert_when_stopped rec ds fuel w :
  running_ (act w) = false ->
  (exists w', InitiateMergeAndWait rec ds fuel w = Done tt w' /\
              act w' = act w /\ stats w' = stats w /\ calls w' = calls w) /\
  (exists w', ScheduleWaitBootCompleted rec ds w = Done tt w' /\
              act w' = act w /\ stats w' = stats w /\ calls w' = calls w) /\
  (exists w', ScheduleWaitMarkBootSuccessful rec ds w = Done tt w' /\
              act w' = act w /\ stats w' = stats w /\ calls w' = calls w) /\
  (exists w', ScheduleWaitForMerge rec ds w = Done tt w' /\
              act w' = act w /\ stats w' = stats w /\ calls w' = calls w).
Proof.
  destruct w as [a s o ak c l]. destruct a as [p b sn d r cf lp st md ms].
  simpl. intros ->.
  unfold InitiateMergeAndWait, InitiateMergeAndWait_body, ScheduleWaitBootCompleted,
    ScheduleWaitMarkBootSuccessful, ScheduleWaitForMerge, TEST_AND_RETURN_running_.
  unfold_monad. simpl. repeat split; eexists; repeat split; reflexivity.
Qed.

(** ** The validation callback *)

(** X22.  [BeforeCancel] approves the cancellation when the progress reset
    succeeds, without reading the preferences, and otherwise when the
    guarded preference is empty or missing; it sets [cancel_failed_] exactly
    when it rejects and changes nothing else of the instance. *)
Theorem BeforeCancel_rejects_only_on_guarded_pref w :
  exists w',
    BeforeCancel w =
      Done (next w ResetUpdateProgress || String.eqb (guarded_pref w) EmptyString) w' /\
    act w' =
      set_cancel_failed_
        (cancel_failed_ (act w)
         || negb (next w ResetUpdateProgress || String.eqb (guarded_pref w) EmptyString))
        (act w) /\
    stats w' = stats w /\
    since w w' =
      Asked ResetUpdateProgress ::
      (if next w ResetUpdateProgress then []
       else [Asked (prefs_GetString kPrefsDynamicPartitionMetadataUpdated)]).
Proof.
  destruct w as [a s o ak c l]. destruct a as [p b sn d r cf lp st md ms].
  unfold guarded_pref, next, asked; simpl.
  unfold BeforeCancel. unfold_monad. simpl.
  destruct (o ResetUpdateProgress (count_asked ResetUpdateProgress ak)); simpl.
  - eexists; (split; [reflexivity|]); since_explicit.
    rewrite orb_false_r. repeat split; reflexivity.
  - destruct (o (prefs_GetString kPrefsDynamicPartitionMetadataUpdated) _) as [v|]; simpl.
    + destruct (String.eqb v EmptyString); simpl.
      all: eexists; (split; [reflexivity|]); since_explicit.
      all: rewrite ?orb_false_r, ?orb_true_r; repeat split; reflexivity.
    + eexists; (split; [reflexivity|]); since_explicit.
      rewrite orb_false_r. repeat split; reflexivity.
Qed.

(** ** One completion and one task request per operation *)

Lemma within_weaken {A} p c p' c' (m : M A) :
  within p c m -> (p <= p')%nat -> (c <= c')%nat -> within p' c' m.
Proof.
  intros H Hp Hc w. destruct (H w) as (l & H1 & H2 & H3 & H4).
  exists l. split; [exact H1|]. split; [lia|]. split; [lia|exact H4].
Qed.

Lemma within_ret {A} p c (a : A) : within p c (ret a).
Proof.
  intros w. exists []. simpl. rewrite app_nil_r.
  split; [reflexivity|]. split; [lia|]. split; [lia|].
  intros H; contradiction H; reflexivity.
Qed.

Lemma within_bind {A B} p p' c (m : M A) (k : A -> M B) :
  within p 0 m -> (forall a, within p' c (k a)) -> within (p + p') c (bind m k).
Proof.
  intros Hm Hk w. unfold bind.
  destruct (Hm w) as (l1 & H1 & H2 & H3 & _).
  assert (Hnil : completions l1 = []) by (destruct (completions l1); simpl in *; [reflexivity|lia]).
  destruct (m w) as [a w1|w1|w1]; simpl in *.
  - destruct (Hk a w1) as (l2 & K1 & K2 & K3 & K4).
    exists (l1 ++ l2). rewrite K1, H1, app_assoc, posted_tasks_app, completions_app, Hnil.
    rewrite length_app. simpl.
    split; [reflexivity|]. split; [lia|]. split; [lia|exact K4].
  - exists l1. rewrite Hnil. simpl.
    split; [exact H1|]. split; [lia|]. split; [lia|].
    intros H; contradiction H; reflexivity.
  - exists l1. rewrite Hnil. simpl.
    split; [exact H1|]. split; [lia|]. split; [lia|].
    intros H; contradiction H; reflexivity.
Qed.

Lemma within_bind_calm {A B} p c (m : M A) (k : A -> M B) :
  within 0 0 m -> (forall a, within p c (k a)) -> within p c (bind m k).
Proof. intros Hm Hk. exact (within_bind 0 p c m k Hm Hk). Qed.

Lemma within_bind_post {A B} c (m : M A) (k : A -> M B) :
  within 1 0 m -> (forall a, within 0 c (k a)) -> within 1 c (bind m k).
Proof. intros Hm Hk. exact (within_bind 1 0 c m k Hm Hk). Qed.

Lemma within_assoc {A B C} p c (m : M A) (k : A -> M B) (h : B -> M C) :
  within p c (bind m (fun a => bind (k a) h)) -> within p c (bind (bind m k) h).
Proof. intros H w. rewrite bind_assoc. apply H. Qed.

Lemma within_bind_ret {A B} p c (a : A) (k : A -> M B) :
  within p c (k a) -> within p c (bind (ret a) k).
Proof. intros H w. exact (H w). Qed.

(** A step that completes may be followed by steps that do nothing. *)
Lemma within_then_silent {A B} p c (m : M A) (k : A -> M B) :
  within p c m -> (forall a w, final (k a w) = w) -> within p c (bind m k).
Proof.
  intros Hm Hk w. unfold bind. specialize (Hm w).
  destruct (m w) as [a w1|w1|w1]; simpl in *; [rewrite Hk|..]; exact Hm.
Qed.

Lemma within_calm_step {A} (m : M A) :
  (forall w, calls (final (m w)) = calls w) -> within 0 0 m.
Proof.
  intros H w. exists []. rewrite H, app_nil_r. simpl.
  split; [reflexivity|]. split; [lia|]. split; [lia|].
  intros K; contradiction K; reflexivity.
Qed.

Lemma within_gets {A} (f : Action -> A) : within 0 0 (gets f).
Proof. apply within_calm_step. reflexivity. Qed.

Lemma within_gets_stats {A} (f : MergeStats -> A) : within 0 0 (gets_stats f).
Proof. apply within_calm_step. reflexivity. Qed.

Lemma within_modify f : within 0 0 (modify f).
Proof. apply within_calm_step. intros []; reflexivity. Qed.

Lemma within_modify_stats f : within 0 0 (modify_stats f).
Proof. apply within_calm_step. intros []; reflexivity. Qed.

Lemma within_LOG s msg : within 0 0 (LOG s msg).
Proof. apply within_calm_step. intros []; destruct s; reflexivity. Qed.

Lemma within_LOG_num s msg n : within 0 0 (LOG_num s msg n).
Proof. apply within_calm_step. intros []; destruct s; reflexivity. Qed.

Lemma within_CHECK b what : within 0 0 (CHECK b what).
Proof. destruct b; [apply within_ret | apply within_LOG]. Qed.

Lemma within_out_of_fuel {A} : within 0 0 (@out_of_fuel A).
Proof. apply within_calm_step. reflexivity. Qed.

Lemma within_ask q :
  posted_tasks [Asked q] = [] -> within 0 0 (ask q).
Proof.
  intros Hq [a s o ak c l]. exists [Asked q]. rewrite Hq. simpl.
  split; [reflexivity|]. split; [lia|]. split; [lia|].
  intros K; contradiction K; reflexivity.
Qed.

Lemma within_ask_PostTask cb d : within 1 0 (ask (PostTask cb d)).
Proof.
  intros [a s o ak c l]. exists [Asked (PostTask cb d)]. simpl.
  split; [reflexivity|]. split; [lia|]. split; [lia|].
  intros K; contradiction K; reflexivity.
Qed.

Lemma within_tell x :
  completions [Did x] = [] -> within 0 0 (tell x).
Proof.
  intros Hx [a s o ak c l]. exists [Did x]. rewrite Hx. simpl.
  split; [reflexivity|]. split; [lia|]. split; [lia|].
  intros K; contradiction K; reflexivity.
Qed.

Lemma within_processor_ActionComplete rec ds code :
  within 0 1 (processor_ActionComplete rec ds code).
Proof.
  intros w.
  destruct (processor_ActionComplete_spec rec ds code w) as (w' & td & Hfin & Hst & Htd).
  pose proof (teardown_quiet _ Htd) as (Htd1 & Htd2 & Htd3 & Htd4 & Htd5).
  rewrite Hfin. simpl. exists ([Did (ActionComplete code)] ++ td).
  rewrite (steps_to_calls _ _ _ _ _ _ Hst), (steps_to_act _ _ _ _ _ _ Hst).
  rewrite posted_tasks_app, completions_app.
  assert (Hp : posted_tasks td = []) by intuition congruence.
  assert (Hc : completions td = []) by intuition congruence.
  rewrite Hp, Hc. simpl.
  split; [reflexivity|]. split; [lia|]. split; [lia|].
  intros _. unfold is_stopped, stopped. destruct (act w). repeat split.
Qed.

Create HintDb calm discriminated.
Create HintDb counted discriminated.
#[local] Hint Resolve within_gets within_gets_stats within_modify within_modify_stats
  within_LOG within_LOG_num within_CHECK within_out_of_fuel : calm.
#[local] Hint Extern 1 (within 0 0 (ask _)) => apply within_ask; reflexivity : calm.
#[local] Hint Extern 1 (within 0 0 (tell _)) => apply within_tell; reflexivity : calm.

(** One step of a counting proof along the structure of the code. *)
Ltac calm_leaf :=
  solve [ eapply within_weaken; [solve [auto with calm] | lia | lia] ].
Ltac within_step :=
  lazymatch goal with
  | |- within _ _ (ret _) => apply within_ret
  | |- within _ _ (bind ?m _) =>
      lazymatch m with
      | bind _ _ => apply within_assoc
      | ret _ => apply within_bind_ret
      | if ?b then _ else _ => destruct b
      | match ?x with _ => _ end => destruct x
      | _ =>
          first
            [ apply within_bind_calm; [solve [auto with calm] | intros ?]
            | apply within_then_silent;
                [solve [auto with calm counted] | intros ? ?; reflexivity]
            | apply within_bind_post; [solve [auto with counted] | intros ?] ]
      end
  | |- within _ _ (if ?b then _ else _) => destruct b
  | |- within _ _ (match ?x with _ => _ end) => destruct x
  | |- _ => first [ calm_leaf | solve [auto with counted] ]
  end.
Ltac count := cbv zeta; repeat within_step.

Lemma within_scheduled_task_PostTask cb d : within 1 0 (scheduled_task_PostTask cb d).
Proof.
  unfold scheduled_task_PostTask.
  apply within_bind_calm; [apply within_modify | intros _].
  apply within_bind_post; [apply within_ask_PostTask | intros r]. count.
Qed.

Lemma within_scheduled_task_Cancel : within 0 0 scheduled_task_Cancel.
Proof. unfold scheduled_task_Cancel. count. Qed.

Lemma within_merge_stats_setters :
  (forall v, within 0 0 (merge_stats_set_state v)) /\
  (forall c, within 0 0 (merge_stats_set_merge_failure_code c)) /\
  (forall t, within 0 0 (merge_stats_set_boot_complete_time_ms t)) /\
  (forall t, within 0 0 (merge_stats_set_boot_complete_to_merge_start_time_ms t)) /\
  (forall fp, within 0 0 (merge_stats_set_source_build_fingerprint fp)).
Proof.
  repeat split; intros;
    unfold merge_stats_set_state, merge_stats_set_merge_failure_code,
      merge_stats_set_boot_complete_time_ms,
      merge_stats_set_boot_complete_to_merge_start_time_ms,
      merge_stats_set_source_build_fingerprint; count.
Qed.

Lemma within_set_state v : within 0 0 (merge_stats_set_state v).
Proof. apply within_merge_stats_setters. Qed.
Lemma within_set_merge_failure_code c : within 0 0 (merge_stats_set_merge_failure_code c).
Proof. apply within_merge_stats_setters. Qed.
Lemma within_set_boot_complete_time_ms t :
  within 0 0 (merge_stats_set_boot_complete_time_ms t).
Proof. apply within_merge_stats_setters. Qed.
Lemma within_set_boot_complete_to_merge_start_time_ms t :
  within 0 0 (merge_stats_set_boot_complete_to_merge_start_time_ms t).
Proof. apply within_merge_stats_setters. Qed.
Lemma within_set_source_build_fingerprint fp :
  within 0 0 (merge_stats_set_source_build_fingerprint fp).
Proof. apply within_merge_stats_setters. Qed.

Lemma within_AcknowledgeTaskExecuted : within 0 0 AcknowledgeTaskExecuted.
Proof. unfold AcknowledgeTaskExecuted. count. Qed.

Lemma within_StopActionInternal : within 0 0 StopActionInternal.
Proof.
  unfold StopActionInternal. count.
  apply within_bind_calm; [apply within_scheduled_task_Cancel | intros ok]. count.
Qed.

Lemma within_OnMergePercentageUpdate : within 0 0 OnMergePercentageUpdate.
Proof. unfold OnMergePercentageUpdate. count. Qed.

Lemma within_BeforeCancel : within 0 0 BeforeCancel.
Proof. unfold BeforeCancel. count. Qed.

#[local] Hint Resolve within_scheduled_task_Cancel
  within_set_state within_set_merge_failure_code within_set_boot_complete_time_ms
  within_set_boot_complete_to_merge_start_time_ms within_set_source_build_fingerprint
  within_AcknowledgeTaskExecuted within_StopActionInternal
  within_OnMergePercentageUpdate within_BeforeCancel : calm.

Lemma within_run_callbacks cbs : within 0 0 (run_callbacks cbs).
Proof.
  induction cbs as [|[] rest IH]; cbn [run_callbacks]; count; try exact IH.
Qed.
#[local] Hint Resolve within_run_callbacks : calm.

Lemma within_WaitForMerge_poll : within 0 0 WaitForMerge_poll.
Proof. unfold WaitForMerge_poll, snapshot_ProcessUpdateState. count. Qed.
#[local] Hint Resolve within_WaitForMerge_poll : calm.

Lemma within_TEST_AND_RETURN_running_ p c rest :
  within p c rest -> within p c (TEST_AND_RETURN_running_ rest).
Proof. intros H. unfold TEST_AND_RETURN_running_. count; try exact H. Qed.

#[local] Hint Resolve within_scheduled_task_PostTask : counted.

Lemma within_complete rec ds p c code :
  within p (S c) (processor_ActionComplete rec ds code).
Proof.
  eapply within_weaken; [apply within_processor_ActionComplete | lia | lia].
Qed.
#[local] Hint Resolve within_complete : counted.

Lemma within_CheckTaskScheduled rec ds p c name :
  within p (S c) (CheckTaskScheduled rec ds name).
Proof. unfold CheckTaskScheduled. count. Qed.
#[local] Hint Resolve within_CheckTaskScheduled : counted.

Lemma within_Schedule rec ds :
  within 1 1 (ScheduleWaitBootCompleted rec ds) /\
  within 1 1 (ScheduleWaitMarkBootSuccessful rec ds) /\
  within 1 1 (ScheduleWaitForMerge rec ds).
Proof.
  repeat split;
    unfold ScheduleWaitBootCompleted, ScheduleWaitMarkBootSuccessful, ScheduleWaitForMerge;
    apply within_TEST_AND_RETURN_running_; count.
Qed.

Lemma within_ScheduleWaitBootCompleted rec ds : within 1 1 (ScheduleWaitBootCompleted rec ds).
Proof. apply within_Schedule. Qed.
Lemma within_ScheduleWaitMarkBootSuccessful rec ds :
  within 1 1 (ScheduleWaitMarkBootSuccessful rec ds).
Proof. apply within_Schedule. Qed.
Lemma within_ScheduleWaitForMerge rec ds : within 1 1 (ScheduleWaitForMerge rec ds).
Proof. apply within_Schedule. Qed.
#[local] Hint Resolve within_ScheduleWaitBootCompleted
  within_ScheduleWaitMarkBootSuccessful within_ScheduleWaitForMerge : counted.

Lemma within_InitiateMergeAndWait_body rec ds wait :
  within 1 1 wait -> within 1 1 (InitiateMergeAndWait_body rec ds wait).
Proof.
  intros H. unfold InitiateMergeAndWait_body.
  apply within_TEST_AND_RETURN_running_. count; try exact H.
Qed.

Lemma within_WaitForMerge_switch rec ds k state :
  within 1 1 k -> within 1 1 (WaitForMerge_switch rec ds k state).
Proof.
  intros H. unfold WaitForMerge_switch.
  destruct (UpdateState_of_raw state) as [[]|]; count; try exact H.
Qed.

Lemma within_WaitForMergeOrSchedule rec ds fuel :
  within 1 1 (WaitForMergeOrSchedule rec ds fuel).
Proof.
  induction fuel as [|fuel IH]; cbn [WaitForMergeOrSchedule].
  - count.
  - count. apply within_TEST_AND_RETURN_running_. count.
    apply within_WaitForMerge_switch, within_InitiateMergeAndWait_body, IH.
Qed.
#[local] Hint Resolve within_WaitForMergeOrSchedule : counted.

Lemma within_StartMerge rec ds fuel : within 1 1 (StartMerge rec ds fuel).
Proof. unfold StartMerge. count. Qed.
#[local] Hint Resolve within_StartMerge : counted.

Lemma within_CheckForMergeDelay rec ds fuel : within 1 1 (CheckForMergeDelay rec ds fuel).
Proof. unfold CheckForMergeDelay. count. Qed.
#[local] Hint Resolve within_CheckForMergeDelay : counted.

Lemma within_CheckSlotMarkedSuccessfulOrSchedule rec ds fuel :
  within 1 1 (CheckSlotMarkedSuccessfulOrSchedule rec ds fuel).
Proof.
  unfold CheckSlotMarkedSuccessfulOrSchedule. count.
  all: apply within_TEST_AND_RETURN_running_; count.
Qed.
#[local] Hint Resolve within_CheckSlotMarkedSuccessfulOrSchedule : counted.

Lemma within_WaitBootCompletedOrSchedule rec ds fuel :
  within 1 1 (WaitBootCompletedOrSchedule rec ds fuel).
Proof.
  unfold WaitBootCompletedOrSchedule. count.
  all: apply within_TEST_AND_RETURN_running_; count.
Qed.
#[local] Hint Resolve within_WaitBootCompletedOrSchedule : counted.

Lemma within_StartActionInternal rec ds fuel : within 1 1 (StartActionInternal rec ds fuel).
Proof. unfold StartActionInternal. count. Qed.

Lemma within_run_op rec ds fuel op : within 1 1 (run_op rec ds fuel op).
Proof.
  destruct op; simpl;
    unfold PerformAction, ResumeAction, TerminateProcessing, SuspendAction, run_task.
  - apply within_StartActionInternal.
  - count.
  - apply within_StartActionInternal.
  - count.
  - count.
Qed.

(** X23.  Every operation on the instance (start, resume, suspend, terminate, a
    task that fires) asks the message loop for at most one task and
    completes the action at most once; and whenever it completes, the
    instance is left stopped, tracking no task and holding no metadata
    handle. *)
Theorem each_operation_posts_and_completes_at_most_once rec ds fuel op w :
  exists added,
    calls (final (run_op rec ds fuel op w)) = calls w ++ added /\
    (List.length (posted_tasks added) <= 1)%nat /\
    (List.length (completions added) <= 1)%nat /\
    (completions added <> [] ->
     running_ (act (final (run_op rec ds fuel op w))) = false /\
     scheduled_task_ (act (final (run_op rec ds fuel op w))) = None /\
     metadata_device_ (act (final (run_op rec ds fuel op w))) = None).
Proof.
  destruct (within_run_op rec ds fuel op w) as (added & Hcalls & Hposts & Hdone & Hstop).
  exists added. split; [exact Hcalls|]. split; [exact Hposts|]. split; [exact Hdone|].
  intros Hcompleted. exact (Hstop Hcompleted).
Qed.

(** ** These theorems at concrete inputs *)

Lemma ReportMergeStats_witness :
  exists w',
    ReportMergeStats false false world_merge_finished = Done tt w' /\
    act w' = act world_merge_finished /\ stats w' = stats world_merge_finished /\
    hd_error (since world_merge_finished w') = Some (Asked merge_stats_Finish) /\
    exists report,
      stats_writes (since world_merge_finished w') = [report] /\
      r_state report = UpdateState_raw MergeCompleted /\
      r_merge_failure_code report = 0 /\
      r_passed_ms report = 1200 /\
      r_boot_complete_time_ms report = 0.
Proof.
  apply (ReportMergeStats_reports_only_merges false false world_merge_finished).
  reflexivity.
Defined.

Lemma ActionCompleted_witness :
  exists w',
    ActionCompleted false false kSuccess world_mounted = Done tt w' /\
    act w' = stopped (act world_mounted) /\
    stats w' = stats world_mounted /\
    released_devices (since world_mounted w') = [1] /\
    completions (since world_mounted w') = [] /\
    posted_tasks (since world_mounted w') = [].
Proof.
  apply (ActionCompleted_releases_handle_once false false kSuccess world_mounted).
  reflexivity.
Defined.

Lemma start_without_virtual_ab_witness :
  (exists w1,
     StartActionInternal false false 1 world_resumed_without_virtual_ab =
     processor_ActionComplete false false kSuccess w1 /\
     since world_resumed_without_virtual_ab w1 =
       [Asked GetVirtualAbFeatureFlag_IsEnabled] /\
     act w1 = set_running_ true (act world_resumed_without_virtual_ab) /\
     stats w1 = stats world_resumed_without_virtual_ab) /\
  (exists w' hook,
     StartActionInternal false false 1 world_resumed_without_virtual_ab = Done tt w' /\
     since world_resumed_without_virtual_ab w' =
       [Asked GetVirtualAbFeatureFlag_IsEnabled; Did (ActionComplete kSuccess)] ++ hook /\
     forallb is_teardown hook = true /\
     In (Asked merge_stats_Finish) hook /\
     merge_stats_ (act w') = true /\
     running_ (act w') = false).
Proof.
  destruct (start_without_virtual_ab_completes_with_success
              false false 1 world_resumed_without_virtual_ab eq_refl eq_refl eq_refl)
    as [Hsignal Hhook].
  split; [exact Hsignal | exact (Hhook eq_refl)].
Defined.

Lemma start_aborts_on_null_collaborator_witness :
  exists w',
    StartActionInternal false false 1 world_without_prefs = Abort w' /\
    act w' = act world_without_prefs /\ calls w' = calls world_without_prefs.
Proof.
  apply (start_aborts_on_null_collaborator false false 1 world_without_prefs).
  left; reflexivity.
Defined.

Lemma start_aborts_without_snapshot_service_witness :
  exists w',
    StartActionInternal false false 1 world_without_snapshot = Abort w' /\
    running_ (act w') = true /\
    completions (since world_without_snapshot w') = [] /\
    posted_tasks (since world_without_snapshot w') = [].
Proof.
  apply (start_aborts_without_snapshot_service false false 1 world_without_snapshot).
  - reflexivity.
  - reflexivity.
  - reflexivity.
  - left; reflexivity.
Defined.

Lemma recovery_skips_both_polls_witness :
  exists w1,
    WaitBootCompletedOrSchedule true false 1 world_polling =
    CheckForMergeDelay true false 1 w1 /\
    since world_polling w1 =
      [Asked boot_clock_now;
       Did (set_boot_complete_time_ms (wrap32 (next world_polling boot_clock_now)))] /\
    ms_boot_complete_time_ms (stats w1) = wrap32 (next world_polling boot_clock_now) /\
    act w1 = act world_polling.
Proof.
  apply (recovery_skips_both_polls false 1 world_polling). reflexivity.
Defined.

Lemma booted_and_verified_witness :
  exists w1,
    WaitBootCompletedOrSchedule false false 1 world_booted =
    CheckForMergeDelay false false 1 w1 /\
    since world_booted w1 =
      [Asked (GetBoolProperty kBootCompletedProp); Asked boot_clock_now;
       Did (set_boot_complete_time_ms (wrap32 (next world_booted boot_clock_now)));
       Asked GetCurrentSlot;
       Asked (IsSlotMarkedSuccessful (next world_booted GetCurrentSlot))] /\
    ms_boot_complete_time_ms (stats w1) = wrap32 (next world_booted boot_clock_now) /\
    act w1 = act world_booted.
Proof.
  apply (booted_and_verified_reaches_merge_delay false 1 world_booted); reflexivity.
Defined.

Lemma merge_delay_witness :
  exists w' delay,
    CheckForMergeDelay false false 1 world_long_delay = Done tt w' /\
    delay = clamp (next world_long_delay (GetIntProperty kMergeDelaySecondsProp))
                  0 kMaxMergeDelaySeconds /\
    since world_long_delay w' =
      [Asked IsSnapshotManagerNeeded; Asked (GetIntProperty kMergeDelaySecondsProp);
       Asked (PostTask CbStartMerge delay)] /\
    0 <= delay <= 600 /\
    (0 <= next world_long_delay (GetIntProperty kMergeDelaySecondsProp) <= 600 ->
     delay = next world_long_delay (GetIntProperty kMergeDelaySecondsProp)) /\
    scheduled_task_ (act w') = Some 7.
Proof.
  apply (merge_delay_is_clamped_and_posted_once false false 1 world_long_delay 7);
    reflexivity.
Defined.

Lemma refused_merge_delay_witness :
  exists w' hook,
    CheckForMergeDelay false false 1 world_refusing_delay = Done tt w' /\
    since world_refusing_delay w' =
      [Asked IsSnapshotManagerNeeded; Asked (GetIntProperty kMergeDelaySecondsProp);
       Asked (PostTask CbStartMerge
                (clamp (next world_refusing_delay (GetIntProperty kMergeDelaySecondsProp))
                       0 kMaxMergeDelaySeconds));
       Did (ActionComplete kError)] ++ hook /\
    forallb is_teardown hook = true /\
    act w' = stopped (act world_refusing_delay).
Proof.
  apply (refused_merge_delay_completes_with_error false false 1 world_refusing_delay);
    reflexivity.
Defined.

Lemma merge_starts_at_once_witness :
  exists w1,
    CheckForMergeDelay false false 1 world_polling = StartMerge false false 1 w1 /\
    since world_polling w1 = [Asked IsSnapshotManagerNeeded] /\
    act w1 = act world_polling /\ stats w1 = stats world_polling.
Proof.
  apply (merge_starts_at_once_when_manager_not_needed false false 1 world_polling).
  reflexivity.
Defined.

Lemma StartMerge_mounts_witness :
  exists w1,
    StartMerge false false 1 world_booted = WaitForMergeOrSchedule false false 1 w1 /\
    since world_booted w1 =
      match metadata_device_ (act world_booted) with
      | Some _ => []
      | None => [Asked EnsureMetadataMounted]
      end ++ [Asked merge_stats_Start] /\
    act w1 = set_metadata_device_ (Some 1) (act world_booted) /\
    stats w1 = stats world_booted.
Proof.
  apply (StartMerge_mounts_only_when_no_handle_held false 1 world_booted 1).
  right; split; reflexivity.
Defined.

Lemma recovery_snapshot_devices_created_witness :
  exists w1,
    StartMerge true false 1 world_recovery_mounted =
    WaitForMergeOrSchedule true false 1 w1 /\
    since world_recovery_mounted w1 =
      [Asked RecoveryCreateSnapshotDevices; Asked merge_stats_Start] /\
    act w1 = act world_recovery_mounted /\ stats w1 = stats world_recovery_mounted.
Proof.
  apply (recovery_snapshot_devices_created_goes_on false 1 world_recovery_mounted 1).
  - reflexivity.
  - left; reflexivity.
Defined.

Lemma recovery_snapshot_devices_error_witness :
  exists w' hook,
    StartMerge true false 1 world_mounted = Done tt w' /\
    since world_mounted w' =
      [Asked RecoveryCreateSnapshotDevices; Did (ActionComplete kError)] ++ hook /\
    forallb is_teardown hook = true /\
    released_devices hook = [1] /\
    act w' = stopped (act world_mounted).
Proof.
  apply (recovery_snapshot_devices_error_completes_with_error false 1 world_mounted 1).
  - reflexivity.
  - intros H; vm_compute in H; discriminate H.
  - intros H; vm_compute in H; discriminate H.
Defined.

Lemma None_state_witness :
  exists w' cbcalls hook,
    WaitForMergeOrSchedule false false 1 (world_reporting 0) = Done tt w' /\
    since (world_reporting 0) w' =
      poll_calls (next (world_reporting 0) ReadMergeFailureCode) cbcalls
                 (UpdateState_raw None_)
      ++ [Asked CancelUpdate;
          Did (ActionComplete
                 (if next (world_reporting 0) CancelUpdate then kSuccess else kError))]
      ++ hook /\
    forallb is_callback_call cbcalls = true /\
    forallb is_teardown hook = true.
Proof.
  apply (None_state_cancels_the_update false false 0 (world_reporting 0) [InvokeProgress]);
    reflexivity.
Defined.

Lemma Initiated_witness :
  exists w' cbcalls hook,
    WaitForMergeOrSchedule false false 1 (world_reporting 1) = Done tt w' /\
    since (world_reporting 1) w' =
      poll_calls (next (world_reporting 1) ReadMergeFailureCode) cbcalls
                 (UpdateState_raw Initiated)
      ++ [Did (ActionComplete kSuccess)]
      ++ hook /\
    forallb is_callback_call cbcalls = true /\
    forallb is_teardown hook = true.
Proof.
  apply (Initiated_and_NeedsReboot_only_complete
           false false 0 (world_reporting 1) [InvokeProgress] Initiated).
  - reflexivity.
  - left; reflexivity.
  - reflexivity.
Defined.

Lemma Merging_reschedules_witness :
  exists w' cbcalls,
    WaitForMergeOrSchedule false false 1 world_merging = Done tt w' /\
    since world_merging w' =
      poll_calls (next world_merging ReadMergeFailureCode) cbcalls (UpdateState_raw Merging)
      ++ [Asked (PostTask CbWaitForMergeOrSchedule kWaitForMergeInterval)] /\
    forallb is_callback_call cbcalls = true /\
    running_ (act w') = true /\
    scheduled_task_ (act w') = Some 1.
Proof.
  apply (Merging_reschedules_the_poll false false 0 world_merging [InvokeProgress] 1);
    reflexivity.
Defined.

Lemma Merging_with_refused_task_witness :
  exists w' cbcalls hook,
    WaitForMergeOrSchedule false false 1 world_merging_tracked = Done tt w' /\
    since world_merging_tracked w' =
      poll_calls (next world_merging_tracked ReadMergeFailureCode) cbcalls
                 (UpdateState_raw Merging)
      ++ [Asked (PostTask CbWaitForMergeOrSchedule kWaitForMergeInterval);
          Did (ActionComplete kError)]
      ++ hook /\
    forallb is_callback_call cbcalls = true /\
    forallb is_teardown hook = true /\
    running_ (act w') = false /\
    scheduled_task_ (act w') = None.
Proof.
  apply (Merging_with_refused_task false false 0 world_merging_tracked [InvokeProgress]);
    reflexivity.
Defined.

Lemma DSU_image_witness :
  exists w' hook,
    InitiateMergeAndWait false false 1 world_booted = Done tt w' /\
    since world_booted w' =
      [Asked (GetBoolProperty "ro.gsid.image_running"); Did (ActionComplete kError)]
      ++ hook /\
    forallb is_teardown hook = true /\
    stats w' = stats world_booted.
Proof.
  apply (DSU_image_blocks_the_merge false false 1 world_booted); reflexivity.
Defined.

Lemma initiated_merge_witness :
  exists w1,
    InitiateMergeAndWait false false 1 world_initiating =
    WaitForMergeOrSchedule false false 1 w1 /\
    act w1 = act world_initiating /\
    stats w1 =
      set_ms_source_build_fingerprint (next world_initiating ReadSourceBuildFingerprint)
        (set_ms_boot_complete_to_merge_start_time_ms
           (wrap32 (next world_initiating boot_clock_now
                    - ms_boot_complete_time_ms (stats world_initiating)))
           (stats world_initiating)) /\
    asked_calls (since world_initiating w1) =
      [GetBoolProperty "ro.gsid.image_running"; boot_clock_now;
       ReadSourceBuildFingerprint; merge_stats_WriteState; InitiateMerge] /\
    completions (since world_initiating w1) = [].
Proof.
  apply (initiated_merge_records_latency_then_polls false false 1 world_initiating);
    reflexivity.
Defined.

Lemma guarded_helpers_witness :
  (exists w', InitiateMergeAndWait false false 1 world_not_virtual_ab = Done tt w' /\
              act w' = act world_not_virtual_ab /\ stats w' = stats world_not_virtual_ab /\
              calls w' = calls world_not_virtual_ab) /\
  (exists w', ScheduleWaitBootCompleted false false world_not_virtual_ab = Done tt w' /\
              act w' = act world_not_virtual_ab /\ stats w' = stats world_not_virtual_ab /\
              calls w' = calls world_not_virtual_ab) /\
  (exists w', ScheduleWaitMarkBootSuccessful false false world_not_virtual_ab = Done tt w' /\
              act w' = act world_not_virtual_ab /\ stats w' = stats world_not_virtual_ab /\
              calls w' = calls world_not_virtual_ab) /\
  (exists w', ScheduleWaitForMerge false false world_not_virtual_ab = Done tt w' /\
              act w' = act world_not_virtual_ab /\ stats w' = stats world_not_virtual_ab /\
              calls w' = calls world_not_virtual_ab).
Proof.
  apply (guarded_helpers_inert_when_stopped false false 1 world_not_virtual_ab).
  reflexivity.
Defined.

Lemma guarded_handlers_witness :
  (exists w', WaitBootCompletedOrSchedule false false 1 world_suspended_with_pending_merge
                = Done tt w' /\
              act w' = act world_suspended_with_pending_merge /\
              stats w' = stats world_suspended_with_pending_merge /\
              calls w' = calls world_suspended_with_pending_merge) /\
  (exists w', CheckSlotMarkedSuccessfulOrSchedule false false 1
                world_suspended_with_pending_merge = Done tt w' /\
              act w' = act world_suspended_with_pending_merge /\
              stats w' = stats world_suspended_with_pending_merge /\
              calls w' = calls world_suspended_with_pending_merge) /\
  (exists w', WaitForMergeOrSchedule false false 2 world_suspended_with_pending_merge
                = Done tt w' /\
              act w' = act world_suspended_with_pending_merge /\
              stats w' = stats world_suspended_with_pending_merge /\
              calls w' = calls world_suspended_with_pending_merge).
Proof.
  apply (guarded_handlers_inert_when_stopped
           false false 1 world_suspended_with_pending_merge).
  vm_compute. reflexivity.
Defined.
